(** * Usage metering, entitlement and billing reconciliation

    A shallow embedding of the route handlers of the review-assistant
    backend:

    - [Reviews]        routes/reviews.js, the freemium generation route
                       (authenticateAndCheckUsage, POST /generate,
                       generateFallbackResponse);
    - [Legacy]         the older generation route, the second file of the
                       unnamed source part_000 (authenticateToken,
                       checkPlanLimits, POST /generate, getPlanLimit);
    - [Subscriptions]  routes/subscriptions.js (GET /status, POST /webhook
                       and its five event handlers).

    The Prisma store is a record of finite maps; a handler is a function
    from the world before the request to a response and the world after
    it.  Store calls may throw: the world carries the schedule of faults of
    the calls to come, and the trace of the calls made so far. *)

From Stdlib Require Import ZArith QArith String List Lia.
From stdpp Require Import base option list gmap strings.

Local Open Scope string_scope.
Local Open Scope Z_scope.

(** ** JavaScript values the handlers compute with *)

(** A thrown [Error]: the handlers read [error.message] and [error.code]. *)
Record JsError := mkError { err_code : option string; err_message : string }.

(** One reading of the server clock: [Date.now()], [getMonth()] (0..11) and
    [getFullYear()] of the same [new Date()]. *)
Record Clock := mkClock { now : Z; month : Z; year : Z }.

(** A nullable [Date] column, in milliseconds since the epoch. The relational
    operators convert [null] to 0. *)
Definition dateValue (d : option Z) : Z :=
  match d with Some t => t | None => 0 end.

(** [x || 0] on a possibly undefined number: 0 and undefined are falsy. *)
Definition orZero (x : option Z) : Z :=
  match x with
  | Some n => if n =? 0 then 0 else n
  | None => 0
  end.

(** Truthiness of a possibly undefined string: [undefined], [null] and the
    empty string are falsy. *)
Definition truthy (s : option string) : bool :=
  match s with
  | Some EmptyString => false
  | Some _ => true
  | None => false
  end.

(** The own property [k] of an object literal, [None] when the literal has
    no such key. This is [o[k]] for every key but the names of the members
    the literal inherits from [Object.prototype], which [member] adds. *)
Definition property {A} (o : list (string * A)) (k : string) : option A :=
  snd <$> List.find (fun p => String.eqb (fst p) k) o.

(** The names of the members every object literal inherits from
    [Object.prototype]: its constructor, its methods and the accessor
    [__proto__]. *)
Definition objectPrototype : list string :=
  ["constructor"; "__defineGetter__"; "__defineSetter__"; "hasOwnProperty";
   "__lookupGetter__"; "__lookupSetter__"; "isPrototypeOf";
   "propertyIsEnumerable"; "toString"; "valueOf"; "__proto__";
   "toLocaleString"].

(** [o[k]] on an object literal, for every key: an own property, else the
    member of that name inherited from [Object.prototype], else
    [undefined]. *)
Inductive Member (A : Type) :=
| Own (a : A)
| Inherited (name : string)
| Undefined.

Arguments Own {A} a.
Arguments Inherited {A} name.
Arguments Undefined {A}.

Definition member {A} (o : list (string * A)) (k : string) : Member A :=
  match property o k with
  | Some a => Own a
  | None => if bool_decide (k ∈ objectPrototype) then Inherited k else Undefined
  end.

(** A JavaScript value, as far as [||] and a reader that wants a string
    tell values apart. *)
Inductive JsValue :=
| JsString (s : string)
| JsInherited (name : string)
    (* the member [name] an object literal inherits from Object.prototype:
       a function, and for [__proto__] the prototype object; truthy *)
| JsOther (truthy : bool).
    (* any other value: undefined, null, a number, another function or
       object *)

Definition jsTruthy (v : JsValue) : bool :=
  match v with
  | JsString s => truthy (Some s)
  | JsInherited _ => true
  | JsOther t => t
  end.

(** [s.split(' ')]: the pieces between single spaces, empty pieces kept. *)
Fixpoint splitSpace (s : string) : list string :=
  match s with
  | EmptyString => [EmptyString]
  | String c rest =>
      if Ascii.eqb c (Ascii.ascii_of_nat 32) then EmptyString :: splitSpace rest
      else match splitSpace rest with
           | piece :: pieces => String c piece :: pieces
           | [] => [String c EmptyString]
           end
  end.

(** [authHeader?.split(' ')[1]] (and [authHeader && authHeader.split(' ')[1]],
    which is falsy in the same cases). *)
Definition bearerToken (authHeader : option string) : option string :=
  match authHeader with
  | Some h => nth_error (splitSpace h) 1
  | None => None
  end.

(** [new Date(year, month + 1, 1)]: the constructor carries month 12 over
    into January of the next year. Kept as (year, month, day). *)
Definition firstOfNextMonth (c : Clock) : Z * Z * Z :=
  if month c + 1 =? 12 then (year c + 1, 0, 1) else (year c, month c + 1, 1).

(** ** The store *)

(** A row of the user table, without its primary key [id], which is the key
    of the table. *)
Record User := mkUser {
  email : string;
  name : string;
  businessName : option string;
  isActive : bool;
  subscriptionPlan : string;
  subscriptionStatus : string;
  subscriptionExpiresAt : option Z;
  monthlyLimit : Z;
  stripeCustomerId : option string;
  stripeSubscriptionId : option string
}.

(** The unique key [userId_month_year] of the usage table. *)
Abbreviation UsageKey := (string * Z * Z)%type.

(** A row of the apiCall table (the audit log). [cost] is the exact value of
    the expression the route evaluates in binary64. *)
Record ApiCall := mkApiCall {
  call_userId : string;
  call_reviewText : string;
  call_responseText : string;
  call_language : string;
  call_tone : string;
  call_model : string;
  call_businessType : option string;
  call_tokensUsed : Z;
  call_cost : Q;
  call_duration : Z;
  call_success : bool;
  call_errorMessage : option string
}.

Record Db := mkDb {
  users : gmap string User;
  usage : gmap UsageKey Z;
  apiCalls : list ApiCall
}.

(** The calls a handler makes to the store and to the payment provider. *)
Inductive Call :=
| UserFindUnique (id : string)
| UserFindFirst (customer : string)
| UserUpdate (id : string)
| UsageFindUnique (k : UsageKey)
| UsageCreate (k : UsageKey)
| UsageUpdate (k : UsageKey)
| UsageUpsert (k : UsageKey)
| ApiCallCreate
| SubscriptionsRetrieve (id : string)
| CustomersRetrieve (id : string).

(** [faults]: for each store call to come, [Some msg] when the call throws
    [Error(msg)] (connection lost, timeout), [None] when it goes through;
    past the end of the schedule every call goes through. *)
Record World := mkWorld {
  db : Db;
  faults : list (option string);
  trace : list Call
}.

(** ** Handlers as state and exception passing *)

Definition M (A : Type) : Type := World -> (JsError + A) * World.

#[export] Instance M_ret : MRet M := fun A a w => (inr a, w).

#[export] Instance M_bind : MBind M := fun A B f m w =>
  match m w with
  | (inl e, w') => (inl e, w')
  | (inr a, w') => f a w'
  end.

Definition throw {A} (e : JsError) : M A := fun w => (inl e, w).

(** [try { m } catch (e) { h e }] *)
Definition tryCatch {A} (m : M A) (h : JsError -> M A) : M A := fun w =>
  match m w with
  | (inl e, w') => h e w'
  | (inr a, w') => (inr a, w')
  end.

(** The value of a synchronous call that may throw. *)
Definition liftResult {A} (r : JsError + A) : M A := fun w => (r, w).

Module Prisma.

(** One awaited store call: logged, then either the scheduled fault or
    the operation on the tables. *)
Definition call {A} (c : Call) (op : Db -> (JsError + A) * Db) : M A := fun w =>
  match faults w with
  | Some msg :: rest =>
      (inl (mkError None msg),
       {| db := db w; faults := rest; trace := trace w ++ [c] |})
  | _ =>
      let '(r, d) := op (db w) in
      (r, {| db := d; faults := tail (faults w); trace := trace w ++ [c] |})
  end.

(** [prisma.$transaction(async (tx) => ...)]: the writes of the callback
    are committed when it returns and rolled back when it throws. *)
Definition transaction {A} (m : M A) : M A := fun w =>
  match m w with
  | (inl e, w') =>
      (inl e, {| db := db w; faults := faults w'; trace := trace w' |})
  | (inr a, w') => (inr a, w')
  end.

Definition notFound : JsError :=
  mkError (Some "P2025") "Record to update not found.".

Definition uniqueViolation : JsError :=
  mkError (Some "P2002") "Unique constraint failed".

Definition setUsers (us : gmap string User) (d : Db) : Db :=
  {| users := us; usage := usage d; apiCalls := apiCalls d |}.

Definition setUsage (ug : gmap UsageKey Z) (d : Db) : Db :=
  {| users := users d; usage := ug; apiCalls := apiCalls d |}.

(** [prisma.user.findUnique({ where: { id } })] *)
Definition user_findUnique (id : string) : M (option User) :=
  call (UserFindUnique id) (fun d => (inr (users d !! id), d)).

(** [prisma.user.findUnique({ where: { id }, include: { usage: { where:
    { month, year } } } })]: the row with its usage rows of that period,
    of which the unique key allows at most one. *)
Definition user_findUnique_withUsage (id : string) (m y : Z)
  : M (option (User * option Z)) :=
  call (UserFindUnique id) (fun d =>
    (inr (match users d !! id with
          | Some u => Some (u, usage d !! (id, m, y))
          | None => None
          end), d)).

(** The first row of the table, in its enumeration, whose
    [stripeCustomerId] is [customer]. *)
Definition firstByCustomer (customer : string) (us : gmap string User)
  : option (string * User) :=
  List.find
    (fun r => bool_decide (stripeCustomerId (snd r) = Some customer))
    (map_to_list us).

(** [prisma.user.findFirst({ where: { stripeCustomerId } })]: no order is
    requested. *)
Definition user_findFirst (customer : string) : M (option (string * User)) :=
  call (UserFindFirst customer) (fun d =>
    (inr (firstByCustomer customer (users d)), d)).

(** [prisma.user.update({ where: { id }, data })] *)
Definition user_update (id : string) (data : User -> User) : M User :=
  call (UserUpdate id) (fun d =>
    match users d !! id with
    | Some u => (inr (data u), setUsers (<[id := data u]> (users d)) d)
    | None => (inl notFound, d)
    end).

(** [prisma.usage.findUnique({ where: { userId_month_year } })] *)
Definition usage_findUnique (k : UsageKey) : M (option Z) :=
  call (UsageFindUnique k) (fun d => (inr (usage d !! k), d)).

(** [prisma.usage.create({ data: { userId, month, year, requestCount } })] *)
Definition usage_create (k : UsageKey) (count : Z) : M Z :=
  call (UsageCreate k) (fun d =>
    match usage d !! k with
    | Some _ => (inl uniqueViolation, d)
    | None => (inr count, setUsage (<[k := count]> (usage d)) d)
    end).

(** [prisma.usage.update({ where, data: { requestCount: { increment: 1 } } })] *)
Definition usage_increment (k : UsageKey) : M Z :=
  call (UsageUpdate k) (fun d =>
    match usage d !! k with
    | Some n => (inr (n + 1), setUsage (<[k := n + 1]> (usage d)) d)
    | None => (inl notFound, d)
    end).

(** [usage.upsert({ where, update: { requestCount: { increment: 1 } },
    create: { ..., requestCount: 1 } })] *)
Definition usage_upsert (k : UsageKey) : M Z :=
  call (UsageUpsert k) (fun d =>
    match usage d !! k with
    | Some n => (inr (n + 1), setUsage (<[k := n + 1]> (usage d)) d)
    | None => (inr 1, setUsage (<[k := 1]> (usage d)) d)
    end).

(** [apiCall.create({ data })]: the audit log is append-only. *)
Definition apiCall_create (row : ApiCall) : M unit :=
  call ApiCallCreate (fun d =>
    (inr tt, {| users := users d; usage := usage d;
                apiCalls := apiCalls d ++ [row] |})).

End Prisma.

(** ** The completion provider *)

(** What the routes read of a completion: [choices[0].message.content] and
    the three counters of [usage]. *)
Record Completion := mkCompletion {
  content : string;
  total_tokens : Z;
  prompt_tokens : Z;
  completion_tokens : Z
}.

(** [(inputTokens * 0.00003) + (outputTokens * 0.00006)] *)
Definition estimateCost (c : Completion) : Q :=
  (inject_Z (prompt_tokens c) * (3 # 100000) +
   inject_Z (completion_tokens c) * (6 # 100000))%Q.

(** ** routes/reviews.js: the freemium generation route *)

Module Reviews.

(** [req.body] as the handler reads it, after the sanitizers of
    [generateValidation] ([reviewText] trimmed); a field that is absent is
    [None], and an absent [reviewText] or [tone] reads as the empty string,
    which the validators reject like any other string outside their
    ranges. *)
Record GenerateBody := mkBody {
  reviewText : string;
  tone : string;
  language : option string;
  businessType : option string
}.

Record Request := mkRequest {
  authorization : option string;
  body : GenerateBody
}.

(** The JSON bodies of the route. The [percentage] of the usage block and
    the [toFixed(6)] rendering of the cost are binary64 computations and
    are left out. *)
Inductive Body :=
| Failure (error : string) (code : option string)
    (* { success: false, error, code } *)
| LimitReached (current limit : Z) (resetDate : Z * Z * Z)
    (* { success: false, error: 'Monthly usage limit reached',
         code: 'USAGE_LIMIT_REACHED', usage: { current, limit, resetDate } } *)
| Generated (response : string) (tokensUsed : Z) (cost : Q) (duration : Z)
    (language tone : string) (current limit remaining : Z).
    (* { success: true, response, metadata: {...}, usage: {...} } *)

Record Response := respond { status : Z; json : Body }.

(** What the middleware leaves on [req] for the handler: [req.user] (with
    its id) and [req.currentUsage]. *)
Record Session := mkSession {
  user_id : string;
  user : User;
  currentUsage : Z
}.

Definition tones : list string :=
  ["professional"; "friendly"; "apologetic"; "grateful"].

Definition languages : list string := ["en"; "ro"; "es"; "fr"; "de"; "it"].

(** [validationResult(req).isEmpty()] for [generateValidation]. *)
Definition generateValidation (b : GenerateBody) : bool :=
  (10 <=? Z.of_nat (String.length (reviewText b)))
  && (Z.of_nat (String.length (reviewText b)) <=? 5000)
  && bool_decide (tone b ∈ tones)
  && match language b with
     | Some l => bool_decide (l ∈ languages)
     | None => true
     end.

(** [user.subscriptionPlan === 'free' ? true :
     user.subscriptionExpiresAt > new Date()] *)
Definition isSubscriptionActive (u : User) (c : Clock) : bool :=
  if String.eqb (subscriptionPlan u) "free" then true
  else now c <? dateValue (subscriptionExpiresAt u).

(** [user.monthlyLimit !== -1 && currentUsage >= user.monthlyLimit] *)
Definition limitReached (u : User) (current : Z) : bool :=
  negb (monthlyLimit u =? -1) && (monthlyLimit u <=? current).

Definition professional_en : string :=
  "Thank you for your feedback. We appreciate you taking the time to share your experience with us.".

(** The table [responses] of [generateFallbackResponse]. *)
Definition responses : list (string * list (string * string)) :=
  [("en",
    [("professional", professional_en);
     ("friendly",
      "Thanks so much for your review! We really appreciate you sharing your thoughts with us.");
     ("apologetic",
      "We sincerely apologize for any inconvenience. Your feedback is important to us and we will work to improve.");
     ("grateful",
      "Thank you so much for your wonderful feedback! We truly appreciate your support.")])].

(** [generateFallbackResponse(reviewText, tone, language)] where the handler
    calls it, behind the validators: [tone] and [language] are then keys of
    the tables or missing from them, never names of inherited members, and
    the value of [responses[language]?.[tone] || responses.en.professional]
    is this string ([generateFallbackResponse_text]). *)
Definition fallbackText (reviewText tone language : string) : string :=
  match property responses language ≫= (fun byTone => property byTone tone) with
  | Some text => if truthy (Some text) then text else professional_en
  | None => professional_en
  end.

Section Runtime.

(** [Object.prototype[holder][key]] for a function [holder] of
    [objectPrototype]: the property [key] of that built-in function as the
    runtime has it (its [name] and [length], what it inherits from
    [Function.prototype], the static methods of [Object]), or the error
    that reading it throws. *)
Variable builtin : string -> string -> JsError + JsValue.

(** [Object.prototype[key]]: one of its own members, of which [__proto__]
    reads [null]. *)
Definition prototypeMember (key : string) : JsValue :=
  if String.eqb key "__proto__" then JsOther false
  else if bool_decide (key ∈ objectPrototype) then JsInherited key
  else JsOther false.

(** [responses[language]?.[tone] || responses.en.professional], for every
    tone and language. *)
Definition generateFallbackResponse (reviewText tone language : string)
  : JsError + JsValue :=
  let looked :=
    match member responses language with
    | Own byTone =>
        inr (match member byTone tone with
             | Own text => JsString text
             | Inherited name => JsInherited name
             | Undefined => JsOther false
             end)
    | Inherited holder =>
        if String.eqb holder "__proto__" then inr (prototypeMember tone)
        else builtin holder tone
    | Undefined => inr (JsOther false)
    end in
  match looked with
  | inl error => inl error
  | inr value => inr (if jsTruthy value then value else JsString professional_en)
  end.

End Runtime.

Section Route.

(** [jwt.verify(token, secret)]: the [userId] of the decoded payload, or
    the error thrown. *)
Variable jwt_verify : string -> string -> JsError + string.
Variable JWT_SECRET : string.

Definition authenticateAndCheckUsage (req : Request) (c : Clock)
  : M (Response + Session) :=
  tryCatch
    (let token := bearerToken (authorization req) in
     if negb (truthy token) then
       mret (inl (respond 401 (Failure "Authentication required" None)))
     else
       userId ← liftResult (jwt_verify (default "" token) JWT_SECRET);
       found ← Prisma.user_findUnique_withUsage userId (month c) (year c);
       match found with
       | None =>
           mret (inl (respond 401 (Failure "User not found or inactive" None)))
       | Some (u, usageRow) =>
           if negb (isActive u) then
             mret (inl (respond 401 (Failure "User not found or inactive" None)))
           else if negb (isSubscriptionActive u c) then
             mret (inl (respond 403
               (Failure "Subscription expired" (Some "SUBSCRIPTION_EXPIRED"))))
           else
             let currentUsage := orZero usageRow in
             if limitReached u currentUsage then
               mret (inl (respond 429
                 (LimitReached currentUsage (monthlyLimit u) (firstOfNextMonth c))))
             else
               mret (inr (mkSession userId u currentUsage))
       end)
    (fun _ => mret (inl (respond 401 (Failure "Authentication failed" None)))).

(** The handler of POST /generate. [startTime] is the [Date.now()] taken
    before the provider is called, [c] the clock once it has answered and
    [outcome] its answer: the completion, or the error it threw. *)
Definition generate (s : Session) (b : GenerateBody) (startTime : Z)
  (c : Clock) (outcome : JsError + Completion) : M Response :=
  tryCatch
    (if negb (generateValidation b) then
       mret (respond 400 (Failure "Invalid input" None))
     else
       let language := default "en" (language b) in
       let businessType := default "general" (businessType b) in
       let '(responseText, tokensUsed, cost) :=
         match outcome with
         | inr completion =>
             (content completion, total_tokens completion, estimateCost completion)
         | inl openaiError =>
             (fallbackText (reviewText b) (tone b) language, 0, 0%Q)
         end in
       let duration := now c - startTime in
       updatedUsage ← Prisma.transaction
         (usage ← Prisma.usage_upsert (user_id s, month c, year c);
          _ ← Prisma.apiCall_create
                {| call_userId := user_id s;
                   call_reviewText := String.substring 0 500 (reviewText b);
                   call_responseText := String.substring 0 500 responseText;
                   call_language := language;
                   call_tone := tone b;
                   call_model := "gpt-4";
                   call_businessType := Some businessType;
                   call_tokensUsed := tokensUsed;
                   call_cost := cost;
                   call_duration := duration;
                   call_success := true;
                   call_errorMessage := None |};
          mret usage);
       let remaining :=
         if monthlyLimit (user s) =? -1 then -1
         else Z.max 0 (monthlyLimit (user s) - updatedUsage) in
       mret (respond 200
         (Generated responseText tokensUsed cost duration language (tone b)
            updatedUsage (monthlyLimit (user s)) remaining)))
    (fun _ => mret (respond 500 (Failure "Failed to generate response" None))).

(** [router.post('/generate', authenticateAndCheckUsage,
    generateValidation, handler)]; [c0] is the clock the middleware
    reads. *)
Definition postGenerate (req : Request) (c0 : Clock) (startTime : Z)
  (c : Clock) (outcome : JsError + Completion) : M Response :=
  r ← authenticateAndCheckUsage req c0;
  match r with
  | inl response => mret response
  | inr session => generate session (body req) startTime c outcome
  end.

End Route.

End Reviews.


(** ** The older generation route *)

Module Legacy.

Record GenerateBody := mkBody {
  reviewText : string;
  tone : string;
  language : string;
  businessType : option string
}.

Record Request := mkRequest {
  authorization : option string;
  body : GenerateBody
}.

(** The JSON bodies of the route. *)
Inductive Body :=
| Failure (error : string)
    (* { error } *)
| SubscriptionExpired
    (* { error: 'Abonamentul a expirat', subscriptionExpired: true } *)
| LimitExceeded (currentUsage limit : Z) (plan : string)
    (* { error: 'Ai depășit limita lunară pentru planul tău', currentUsage,
         limit, plan, upgradeRequired: true } *)
| Generated (response : string) (tokensUsed : Z) (cost : Q) (duration : Z)
    (language tone : string) (current limit remaining : Z)
    (* { success: true, response, metadata: {...}, usage: {...} } *)
| ProviderFailure (error : string) (type : string).
    (* { error, type } *)

Record Response := respond { status : Z; json : Body }.

Definition tones : list string :=
  ["professional"; "friendly"; "apologetic"; "grateful"].

Definition languages : list string := ["en"; "ro"; "es"; "fr"; "de"; "it"].

(** [validationResult(req).isEmpty()] for the route's [generateValidation]. *)
Definition generateValidation (b : GenerateBody) : bool :=
  (5 <=? Z.of_nat (String.length (reviewText b)))
  && (Z.of_nat (String.length (reviewText b)) <=? 2000)
  && bool_decide (tone b ∈ tones)
  && bool_decide (language b ∈ languages)
  && match businessType b with
     | Some t => Z.of_nat (String.length t) <=? 50
     | None => true
     end.

Definition planLimits : list (string * Z) :=
  [("free", 10); ("basic", 500); ("premium", 2000); ("enterprise", -1)].

(** [limits[plan] || 0], for a plan name that is a key of the table or for
    which the table answers undefined. For the name of a member the table
    inherits ([objectPrototype]) the code reads a function there, which is
    no number; the properties of this route are stated for the other
    names. *)
Definition getPlanLimit (plan : string) : Z := orZero (property planLimits plan).

(** [userLimit !== -1 && usage.requestCount >= userLimit] *)
Definition limitExceeded (userLimit requestCount : Z) : bool :=
  negb (userLimit =? -1) && (userLimit <=? requestCount).

(** [user.subscriptionExpiresAt < new Date()] *)
Definition subscriptionExpired (u : User) (c : Clock) : bool :=
  dateValue (subscriptionExpiresAt u) <? now c.

(** What the two middlewares leave on [req]: [req.user], [req.usage] and
    [req.planLimit]. *)
Record Session := mkSession {
  user_id : string;
  user : User;
  usageCount : Z;
  planLimit : Z
}.

Section Route.

Variable jwt_verify : string -> string -> JsError + string.
Variable JWT_SECRET : string.

Definition authenticateToken (req : Request) (c : Clock)
  : M (Response + string * User) :=
  tryCatch
    (let token := bearerToken (authorization req) in
     if negb (truthy token) then
       mret (inl (respond 401 (Failure "Token de acces lipsește")))
     else
       userId ← liftResult (jwt_verify (default "" token) JWT_SECRET);
       found ← Prisma.user_findUnique userId;
       match found with
       | None => mret (inl (respond 404 (Failure "Utilizatorul nu a fost găsit")))
       | Some u =>
           if subscriptionExpired u c then
             mret (inl (respond 403 SubscriptionExpired))
           else mret (inr (userId, u))
       end)
    (fun _ => mret (inl (respond 401 (Failure "Token invalid")))).

Definition checkPlanLimits (userId : string) (u : User) (c : Clock)
  : M (Response + Session) :=
  tryCatch
    (let key := (userId, month c, year c) in
     found ← Prisma.usage_findUnique key;
     requestCount ← match found with
                    | Some n => mret n
                    | None => Prisma.usage_create key 0
                    end;
     let userLimit := getPlanLimit (subscriptionPlan u) in
     if limitExceeded userLimit requestCount then
       mret (inl (respond 429
         (LimitExceeded requestCount userLimit (subscriptionPlan u))))
     else mret (inr (mkSession userId u requestCount userLimit)))
    (fun _ => mret (inl (respond 500 (Failure "Eroare la verificarea limitelor")))).

(** The [catch] of the handler: the failure is logged in the audit table
    (a failure of the log itself is swallowed), then reported by kind.
    [tokensUsed] and [cost] are what the handler had assigned when the error
    was thrown. *)
Definition reportFailure (s : Session) (b : GenerateBody) (startTime : Z)
  (c : Clock) (tokensUsed : Z) (cost : Q) (error : JsError) : M Response :=
  _ ← tryCatch
        (Prisma.apiCall_create
           {| call_userId := user_id s;
              call_reviewText := String.substring 0 500 (reviewText b);
              call_responseText := "";
              call_language := if truthy (Some (language b)) then language b else "en";
              call_tone := if truthy (Some (tone b)) then tone b else "professional";
              call_model := "gpt-4";
              call_businessType := None;
              call_tokensUsed := tokensUsed;
              call_cost := cost;
              call_duration := now c - startTime;
              call_success := false;
              call_errorMessage := Some (err_message error) |})
        (fun _ => mret tt);
  if bool_decide (err_code error = Some "insufficient_quota") then
    mret (respond 503 (ProviderFailure
      "Serviciul este temporar indisponibil. Încearcă din nou în câteva minute."
      "quota_exceeded"))
  else if bool_decide (err_code error = Some "rate_limit_exceeded") then
    mret (respond 429 (ProviderFailure
      "Prea multe cereri către serviciul AI. Încearcă din nou în câteva secunde."
      "rate_limit"))
  else
    mret (respond 500 (ProviderFailure "Eroare la generarea răspunsului" "internal_error")).

(** The handler of POST /generate. [startTime] is the [Date.now()] taken on
    entry, [c] stands for the clock readings taken once the provider has
    answered, [outcome] is its answer. The source has one [try] around the
    whole body and two mutable variables [tokensUsed] and [cost]; here each
    place that can throw hands the values assigned so far to the [catch]. *)
Definition generate (s : Session) (b : GenerateBody) (startTime : Z)
  (c : Clock) (outcome : JsError + Completion) : M Response :=
  if negb (generateValidation b) then
    mret (respond 400 (Failure "Date invalide"))
  else
    match outcome with
    | inl error => reportFailure s b startTime c 0 0%Q error
    | inr completion =>
        let responseText := content completion in
        let tokensUsed := total_tokens completion in
        let cost := estimateCost completion in
        let duration := now c - startTime in
        let key := (user_id s, month c, year c) in
        tryCatch
          (_ ← Prisma.usage_increment key;
           _ ← Prisma.apiCall_create
                 {| call_userId := user_id s;
                    call_reviewText := String.substring 0 500 (reviewText b);
                    call_responseText := String.substring 0 500 responseText;
                    call_language := language b;
                    call_tone := tone b;
                    call_model := "gpt-4";
                    call_businessType := None;
                    call_tokensUsed := tokensUsed;
                    call_cost := cost;
                    call_duration := duration;
                    call_success := true;
                    call_errorMessage := None |};
           updatedUsage ← Prisma.usage_findUnique key;
           match updatedUsage with
           | None =>
               throw (mkError None "Cannot read properties of null (reading 'requestCount')")
           | Some requestCount =>
               mret (respond 200
                 (Generated responseText tokensUsed cost duration (language b) (tone b)
                    requestCount (planLimit s)
                    (if planLimit s =? -1 then -1
                     else Z.max 0 (planLimit s - requestCount))))
           end)
          (reportFailure s b startTime c tokensUsed cost)
    end.

(** [router.post('/generate', authenticateToken, checkPlanLimits,
    generateLimiter, generateValidation, handler)]. [withinRate] is the
    verdict of the rate limiter (at most 10 requests a minute for a user),
    whose window is kept outside the store. *)
Definition postGenerate (req : Request) (c0 : Clock) (withinRate : bool)
  (startTime : Z) (c : Clock) (outcome : JsError + Completion) : M Response :=
  a ← authenticateToken req c0;
  match a with
  | inl response => mret response
  | inr (userId, u) =>
      l ← checkPlanLimits userId u c0;
      match l with
      | inl response => mret response
      | inr session =>
          if negb withinRate then
            mret (respond 429
              (Failure "Prea multe cereri. Încearcă din nou în 1 minut."))
          else generate session (body req) startTime c outcome
      end
  end.

End Route.

End Legacy.


(** ** routes/subscriptions.js: subscription status and the webhook *)

Module Subscriptions.

(** What the handlers read of the payment provider's objects. *)
Record StripeSubscription := mkSubscription {
  sub_id : string;
  sub_customer : string;
  sub_status : string;
  cancel_at_period_end : bool;
  current_period_end : Z          (* seconds since the epoch *)
}.

Record StripeCustomer := mkCustomer { customer_id : string }.

(** A checkout session as POST /create-checkout-session opens it:
    [metadata.userId], [metadata.planId] and, in subscription mode, the id
    of the subscription it created. *)
Record CheckoutSession := mkCheckout {
  metadata_userId : string;
  metadata_planId : string;
  session_subscription : string
}.

Record Invoice := mkInvoice { invoice_subscription : option string }.

(** A verified event: [event.type] with the [event.data.object] the
    provider sends under that type. *)
Inductive Event :=
| CheckoutSessionCompleted (session : CheckoutSession)
| InvoicePaymentSucceeded (invoice : Invoice)
| InvoicePaymentFailed (invoice : Invoice)
| CustomerSubscriptionUpdated (subscription : StripeSubscription)
| CustomerSubscriptionDeleted (subscription : StripeSubscription)
| Unhandled (type : string).

Record WebhookRequest := mkWebhook {
  rawBody : string;
  stripe_signature : option string
}.

Inductive Response :=
| WebhookError (status : Z) (text : string)   (* res.status(400).send(text) *)
| Received                                     (* 200 { received: true } *)
| ProcessingFailed.                            (* 500 { error: 'Webhook processing failed' } *)

(** GET /status: [user.subscriptionExpiresAt > new Date()] *)
Definition isActive_status (u : User) (c : Clock) : bool :=
  now c <? dateValue (subscriptionExpiresAt u).

Section Webhook.

(** [stripe.webhooks.constructEvent(body, signature, secret)]: the verified
    event, or the error thrown when the signature does not verify. *)
Variable constructEvent : string -> option string -> string -> JsError + Event.
Variable STRIPE_WEBHOOK_SECRET : string.

(** [stripe.subscriptions.retrieve] and [stripe.customers.retrieve]. *)
Variable subscriptions_retrieve : string -> JsError + StripeSubscription.
Variable customers_retrieve : string -> JsError + StripeCustomer.

(** One awaited call to the payment provider: logged, outside the store. *)
Definition stripeCall {A} (c : Call) (r : JsError + A) : M A := fun w =>
  (r, {| db := db w; faults := faults w; trace := trace w ++ [c] |}).

Definition retrieveSubscription (id : string) : M StripeSubscription :=
  stripeCall (SubscriptionsRetrieve id) (subscriptions_retrieve id).

Definition retrieveCustomer (id : string) : M StripeCustomer :=
  stripeCall (CustomersRetrieve id) (customers_retrieve id).

(** [new Date(subscription.current_period_end * 1000)] *)
Definition periodEnd (s : StripeSubscription) : option Z :=
  Some (current_period_end s * 1000).

(** The [data] of each [prisma.user.update]: the columns named are
    overwritten, the others kept. *)
Definition checkoutData (planId : string) (s : StripeSubscription) (u : User) : User :=
  {| email := email u; name := name u; businessName := businessName u;
     isActive := isActive u;
     subscriptionPlan := planId;
     subscriptionStatus := "active";
     subscriptionExpiresAt := periodEnd s;
     monthlyLimit := monthlyLimit u;
     stripeCustomerId := stripeCustomerId u;
     stripeSubscriptionId := Some (sub_id s) |}.

Definition statusData (status : string) (expiresAt : option Z) (u : User) : User :=
  {| email := email u; name := name u; businessName := businessName u;
     isActive := isActive u;
     subscriptionPlan := subscriptionPlan u;
     subscriptionStatus := status;
     subscriptionExpiresAt := expiresAt;
     monthlyLimit := monthlyLimit u;
     stripeCustomerId := stripeCustomerId u;
     stripeSubscriptionId := stripeSubscriptionId u |}.

Definition pastDueData (u : User) : User :=
  {| email := email u; name := name u; businessName := businessName u;
     isActive := isActive u;
     subscriptionPlan := subscriptionPlan u;
     subscriptionStatus := "past_due";
     subscriptionExpiresAt := subscriptionExpiresAt u;
     monthlyLimit := monthlyLimit u;
     stripeCustomerId := stripeCustomerId u;
     stripeSubscriptionId := stripeSubscriptionId u |}.

Definition deletedData (c : Clock) (u : User) : User :=
  {| email := email u; name := name u; businessName := businessName u;
     isActive := isActive u;
     subscriptionPlan := "free";
     subscriptionStatus := "cancelled";
     subscriptionExpiresAt := Some (now c);
     monthlyLimit := monthlyLimit u;
     stripeCustomerId := stripeCustomerId u;
     stripeSubscriptionId := None |}.

Definition handleCheckoutCompleted (session : CheckoutSession) : M unit :=
  let userId := metadata_userId session in
  let planId := metadata_planId session in
  subscription ← retrieveSubscription (session_subscription session);
  _ ← Prisma.user_update userId (checkoutData planId subscription);
  mret tt.

Definition handlePaymentSucceeded (invoice : Invoice) : M unit :=
  if truthy (invoice_subscription invoice) then
    subscription ← retrieveSubscription (default "" (invoice_subscription invoice));
    customer ← retrieveCustomer (sub_customer subscription);
    found ← Prisma.user_findFirst (customer_id customer);
    match found with
    | Some (id, _) =>
        _ ← Prisma.user_update id (statusData "active" (periodEnd subscription));
        mret tt
    | None => mret tt
    end
  else mret tt.

Definition handlePaymentFailed (invoice : Invoice) : M unit :=
  if truthy (invoice_subscription invoice) then
    subscription ← retrieveSubscription (default "" (invoice_subscription invoice));
    customer ← retrieveCustomer (sub_customer subscription);
    found ← Prisma.user_findFirst (customer_id customer);
    match found with
    | Some (id, _) =>
        _ ← Prisma.user_update id pastDueData;
        mret tt
    | None => mret tt
    end
  else mret tt.

Definition handleSubscriptionUpdated (subscription : StripeSubscription) : M unit :=
  customer ← retrieveCustomer (sub_customer subscription);
  found ← Prisma.user_findFirst (customer_id customer);
  match found with
  | Some (id, _) =>
      let status :=
        if cancel_at_period_end subscription then "cancelled"
        else sub_status subscription in
      _ ← Prisma.user_update id (statusData status (periodEnd subscription));
      mret tt
  | None => mret tt
  end.

Definition handleSubscriptionDeleted (c : Clock) (subscription : StripeSubscription)
  : M unit :=
  customer ← retrieveCustomer (sub_customer subscription);
  found ← Prisma.user_findFirst (customer_id customer);
  match found with
  | Some (id, _) =>
      _ ← Prisma.user_update id (deletedData c);
      mret tt
  | None => mret tt
  end.

(** The [switch (event.type)] of the webhook. *)
Definition dispatch (c : Clock) (event : Event) : M unit :=
  match event with
  | CheckoutSessionCompleted session => handleCheckoutCompleted session
  | InvoicePaymentSucceeded invoice => handlePaymentSucceeded invoice
  | InvoicePaymentFailed invoice => handlePaymentFailed invoice
  | CustomerSubscriptionUpdated subscription => handleSubscriptionUpdated subscription
  | CustomerSubscriptionDeleted subscription => handleSubscriptionDeleted c subscription
  | Unhandled _ => mret tt
  end.

(** POST /webhook *)
Definition webhook (req : WebhookRequest) (c : Clock) : M Response :=
  match constructEvent (rawBody req) (stripe_signature req) STRIPE_WEBHOOK_SECRET with
  | inl err => mret (WebhookError 400 ("Webhook Error: " +:+ err_message err))
  | inr event =>
      tryCatch
        (_ ← dispatch c event; mret Received)
        (fun _ => mret ProcessingFailed)
  end.

End Webhook.

End Subscriptions.


(** ** Vocabulary of the properties *)

(** The counter an upsert leaves under its key. *)
Definition upserted (d : Db) (k : UsageKey) : Z :=
  match usage d !! k with Some n => n + 1 | None => 1 end.

(** Both writes of the transaction took effect: the counter of the period
    went up by one (or was created at 1) and one row, [row], was appended to
    the audit log; nothing else changed. *)
Definition bothRecorded (d d' : Db) (k : UsageKey) (row : ApiCall) : Prop :=
  users d' = users d
  /\ usage d' = <[k := upserted d k]> (usage d)
  /\ apiCalls d' = (apiCalls d ++ [row])%list.

(** ** Sample data

    A small store and the requests used to run the handlers. *)

Module Sample.

Definition alice : User :=
  {| email := "a@x.com"; name := "Alice"; businessName := None;
     isActive := true;
     subscriptionPlan := "free"; subscriptionStatus := "active";
     subscriptionExpiresAt := Some 500;
     monthlyLimit := 10;
     stripeCustomerId := None; stripeSubscriptionId := None |}.

Definition bob : User :=
  {| email := "b@x.com"; name := "Bob"; businessName := Some "Bob's Diner";
     isActive := true;
     subscriptionPlan := "basic"; subscriptionStatus := "active";
     subscriptionExpiresAt := Some 900000;
     monthlyLimit := 100;
     stripeCustomerId := Some "cus_bob"; stripeSubscriptionId := Some "sub_bob" |}.

Definition carol : User :=
  {| email := "c@x.com"; name := "Carol"; businessName := None;
     isActive := true;
     subscriptionPlan := "enterprise"; subscriptionStatus := "active";
     subscriptionExpiresAt := Some 900000;
     monthlyLimit := -1;
     stripeCustomerId := Some "cus_carol"; stripeSubscriptionId := Some "sub_carol" |}.

Definition dave : User :=
  {| email := "d@x.com"; name := "Dave"; businessName := None;
     isActive := true;
     subscriptionPlan := "free"; subscriptionStatus := "active";
     subscriptionExpiresAt := Some 900000;
     monthlyLimit := 10;
     stripeCustomerId := None; stripeSubscriptionId := None |}.

(** May 2025 on the server clock, at two instants. *)
Definition may : Clock := {| now := 1000; month := 4; year := 2025 |}.
Definition may_later : Clock := {| now := 1600; month := 4; year := 2025 |}.

(** [count] is the number of requests counted this month for each of the
    two free-tier users. *)
Definition store (count : Z) : Db :=
  {| users := {[ "u_alice" := alice; "u_bob" := bob; "u_carol" := carol;
                 "u_dave" := dave ]};
     usage := {[ ("u_alice", 4, 2025) := count;
                 ("u_bob", 4, 2025) := 3;
                 ("u_carol", 4, 2025) := 5000;
                 ("u_dave", 4, 2025) := count ]};
     apiCalls := [] |}.

Definition world (count : Z) (schedule : list (option string)) : World :=
  {| db := store count; faults := schedule; trace := [] |}.

(** The token [tok_<id>] verifies to the user id [<id>]. *)
Definition jwt_verify (token secret : string) : JsError + string :=
  if String.prefix "tok_" token
  then inr (String.substring 4 (String.length token - 4) token)
  else inl (mkError None "jwt malformed").

Definition secret : string := "fallback-secret-key".

Definition review : string := "The pasta was cold and the waiter was rude.".

Definition request (token : string) : Reviews.Request :=
  {| Reviews.authorization := Some ("Bearer " +:+ token);
     Reviews.body :=
       {| Reviews.reviewText := review;
          Reviews.tone := "apologetic";
          Reviews.language := Some "ro";
          Reviews.businessType := None |} |}.

Definition legacyRequest (token : string) : Legacy.Request :=
  {| Legacy.authorization := Some ("Bearer " +:+ token);
     Legacy.body :=
       {| Legacy.reviewText := review;
          Legacy.tone := "apologetic";
          Legacy.language := "ro";
          Legacy.businessType := None |} |}.

Definition timeout : JsError := mkError None "Request timed out.".

Definition completion : Completion :=
  {| content := "Ne cerem scuze pentru experiența neplăcută.";
     total_tokens := 180; prompt_tokens := 150; completion_tokens := 30 |}.

(** The payment provider: one subscription, of Bob; a signature verifies
    when it is [good], and the body names the event. *)
Definition bobSubscription : Subscriptions.StripeSubscription :=
  {| Subscriptions.sub_id := "sub_bob";
     Subscriptions.sub_customer := "cus_bob";
     Subscriptions.sub_status := "active";
     Subscriptions.cancel_at_period_end := false;
     Subscriptions.current_period_end := 2000 |}.

Definition subscriptions_retrieve (id : string)
  : JsError + Subscriptions.StripeSubscription :=
  if String.eqb id "sub_bob" then inr bobSubscription
  else inl (mkError (Some "resource_missing") "No such subscription").

Definition customers_retrieve (id : string) : JsError + Subscriptions.StripeCustomer :=
  inr (Subscriptions.mkCustomer id).

Definition checkout : Subscriptions.CheckoutSession :=
  {| Subscriptions.metadata_userId := "u_alice";
     Subscriptions.metadata_planId := "basic";
     Subscriptions.session_subscription := "sub_bob" |}.

Definition constructEvent (payload : string) (signature : option string)
  (endpointSecret : string) : JsError + Subscriptions.Event :=
  if bool_decide (signature = Some "good") then
    if String.eqb payload "checkout" then
      inr (Subscriptions.CheckoutSessionCompleted checkout)
    else if String.eqb payload "failed" then
      inr (Subscriptions.InvoicePaymentFailed (Subscriptions.mkInvoice (Some "sub_bob")))
    else if String.eqb payload "deleted" then
      inr (Subscriptions.CustomerSubscriptionDeleted bobSubscription)
    else inr (Subscriptions.Unhandled payload)
  else
    inl (mkError None "No signatures found matching the expected signature for payload.").

Definition whsec : string := "whsec_test".

(** The webhook of the sample provider, at the sample clock. *)
Definition sampleWebhook (payload signature : string) (w : World)
  : (JsError + Subscriptions.Response) * World :=
  Subscriptions.webhook constructEvent whsec
    subscriptions_retrieve customers_retrieve
    (Subscriptions.mkWebhook payload (Some signature)) may w.

(** A stand-in for the built-in functions of the runtime: each answers its
    [name] ([Object] for the constructor); no other property of theirs is
    read in the runs below. *)
Definition builtin (holder key : string) : JsError + JsValue :=
  if String.eqb key "name" then
    inr (JsString (if String.eqb holder "constructor" then "Object" else holder))
  else inr (JsOther false).

End Sample.


(** ** Further sample data *)

Module Scenario.

(** Bob's subscription once he has asked for cancellation at period end:
    the provider still calls it active. *)
Definition bobCancelling : Subscriptions.StripeSubscription :=
  {| Subscriptions.sub_id := "sub_bob";
     Subscriptions.sub_customer := "cus_bob";
     Subscriptions.sub_status := "active";
     Subscriptions.cancel_at_period_end := true;
     Subscriptions.current_period_end := 2000 |}.

(** A subscription of a customer no stored user carries. *)
Definition stray : Subscriptions.StripeSubscription :=
  {| Subscriptions.sub_id := "sub_stray";
     Subscriptions.sub_customer := "cus_stray";
     Subscriptions.sub_status := "active";
     Subscriptions.cancel_at_period_end := false;
     Subscriptions.current_period_end := 2000 |}.

(** A checkout whose metadata names a user the store does not hold. *)
Definition ghostCheckout : Subscriptions.CheckoutSession :=
  {| Subscriptions.metadata_userId := "u_ghost";
     Subscriptions.metadata_planId := "premium";
     Subscriptions.session_subscription := "sub_bob" |}.

(** The events of the sample provider, by body; a signature verifies when
    it is [good]. *)
Definition constructEvent (payload : string) (signature : option string)
  (endpointSecret : string) : JsError + Subscriptions.Event :=
  if bool_decide (signature = Some "good") then
    if String.eqb payload "checkout" then
      inr (Subscriptions.CheckoutSessionCompleted Sample.checkout)
    else if String.eqb payload "ghost" then
      inr (Subscriptions.CheckoutSessionCompleted ghostCheckout)
    else if String.eqb payload "succeeded" then
      inr (Subscriptions.InvoicePaymentSucceeded (Subscriptions.mkInvoice (Some "sub_bob")))
    else if String.eqb payload "one-off" then
      inr (Subscriptions.InvoicePaymentFailed (Subscriptions.mkInvoice None))
    else if String.eqb payload "updated" then
      inr (Subscriptions.CustomerSubscriptionUpdated bobCancelling)
    else if String.eqb payload "stray" then
      inr (Subscriptions.CustomerSubscriptionDeleted stray)
    else inr (Subscriptions.Unhandled payload)
  else
    inl (mkError None "No signatures found matching the expected signature for payload.").

Definition webhook (payload : string) (w : World)
  : (JsError + Subscriptions.Response) * World :=
  Subscriptions.webhook constructEvent Sample.whsec
    Sample.subscriptions_retrieve Sample.customers_retrieve
    (Subscriptions.mkWebhook payload (Some "good")) Sample.may w.

End Scenario.


(** ** routes/subscriptions.js: plans, checkout, status, cancel, reactivate *)

Module Billing.

(** An entry of [PLANS]. *)
Record Plan := mkPlan {
  plan_name : string;
  price : Z;                     (* cents *)
  currency : string;
  requests : Z;
  stripePriceId : string
}.

(** The calls the routes make to the payment provider's write API, with the
    arguments that vary from call to call. *)
Inductive ProviderCall :=
| CustomersCreate (email name userId : string)
| SessionsCreate (customer : string) (price : option string) (userId planId : string)
| SessionsRetrieve (sessionId : string)
| SubscriptionsUpdate (subscriptionId : string) (cancelAtPeriodEnd : bool).

(** What the routes read of a created and of a retrieved checkout
    session. *)
Record CreatedSession := mkCreated {
  session_url : option string;
  session_id : string
}.

Record RetrievedSession := mkRetrieved {
  retrieved_userId : option string;      (* session.metadata.userId *)
  payment_status : string;
  customer_email : option string;        (* session.customer_details?.email *)
  amount_total : option Z
}.

(** The JSON bodies of the routes. *)
Inductive Body :=
| Failure (error : string)
    (* { error } *)
| CheckoutCreated (checkoutUrl : option string) (sessionId : string)
    (* { checkoutUrl, sessionId } *)
| SessionStatus (status : string) (customerEmail : option string) (amountTotal : option Z)
    (* { status, customerEmail, amountTotal } *)
| StatusBody (plan status : string) (isActive : bool) (expiresAt : option Z)
    (current limit remaining : Z) (stripeCustomerId subscriptionId : option string)
    (* { plan, status, isActive, expiresAt, usage: {...}, billing: {...} } *)
| Message (message status : string).
    (* { message, status } *)

Record Response := respond { status : Z; json : Body }.

(** A route of this file runs in the world of the store together with the
    log of its calls to the provider. *)
Definition B (A : Type) : Type :=
  World * list ProviderCall -> (JsError + A) * (World * list ProviderCall).

#[export] Instance B_ret : MRet B := fun A a s => (inr a, s).

#[export] Instance B_bind : MBind B := fun A B0 f m s =>
  match m s with
  | (inl e, s') => (inl e, s')
  | (inr a, s') => f a s'
  end.

Definition tryCatchB {A} (m : B A) (h : JsError -> B A) : B A := fun s =>
  match m s with
  | (inl e, s') => h e s'
  | (inr a, s') => (inr a, s')
  end.

(** A call to the store. *)
Definition store {A} (m : M A) : B A := fun s =>
  let '(r, w') := m (fst s) in (r, (w', snd s)).

(** An awaited call to the provider: logged, then its answer. *)
Definition provider {A} (c : ProviderCall) (r : JsError + A) : B A := fun s =>
  (r, (fst s, (snd s ++ [c])%list)).

Definition liftResultB {A} (r : JsError + A) : B A := fun s => (r, s).

(** [prisma.user.update({ where: { id }, data: { stripeCustomerId } })] *)
Definition customerData (customer : string) (u : User) : User :=
  {| email := email u; name := name u; businessName := businessName u;
     isActive := isActive u;
     subscriptionPlan := subscriptionPlan u;
     subscriptionStatus := subscriptionStatus u;
     subscriptionExpiresAt := subscriptionExpiresAt u;
     monthlyLimit := monthlyLimit u;
     stripeCustomerId := Some customer;
     stripeSubscriptionId := stripeSubscriptionId u |}.

(** [prisma.user.update({ where: { id }, data: { subscriptionStatus } })] *)
Definition statusOnly (status : string) (u : User) : User :=
  {| email := email u; name := name u; businessName := businessName u;
     isActive := isActive u;
     subscriptionPlan := subscriptionPlan u;
     subscriptionStatus := status;
     subscriptionExpiresAt := subscriptionExpiresAt u;
     monthlyLimit := monthlyLimit u;
     stripeCustomerId := stripeCustomerId u;
     stripeSubscriptionId := stripeSubscriptionId u |}.

Section Routes.

Variable jwt_verify : string -> string -> JsError + string.
Variable JWT_SECRET : string.

(** [process.env]: the three price ids may be set there. *)
Variable env : string -> option string.

(** The provider's write API. *)
Variable customers_create : string -> string -> string -> JsError + Subscriptions.StripeCustomer.
Variable sessions_create : string -> option string -> string -> string -> JsError + CreatedSession.
Variable sessions_retrieve : string -> JsError + RetrievedSession.
Variable subscriptions_update : string -> bool -> JsError + unit.

(** [process.env.NAME || fallback] *)
Definition envOr (variable fallback : string) : string :=
  if truthy (env variable) then default "" (env variable) else fallback.

Definition PLANS : list (string * Plan) :=
  [("basic",
    mkPlan "Basic" 499 "usd" 100 (envOr "STRIPE_BASIC_PRICE_ID" "price_basic"));
   ("premium",
    mkPlan "Premium" 1499 "usd" 500 (envOr "STRIPE_PREMIUM_PRICE_ID" "price_premium"));
   ("enterprise",
    mkPlan "Enterprise" 4999 "usd" 2000
      (envOr "STRIPE_ENTERPRISE_PRICE_ID" "price_enterprise"))].

(** The middleware of this file: no expiry check, and 404 for a token whose
    user is gone. *)
Definition authenticateToken (authorization : option string)
  : B (Response + string * User) :=
  tryCatchB
    (let token := bearerToken authorization in
     if negb (truthy token) then
       mret (inl (respond 401 (Failure "Token de acces lipsește")))
     else
       userId ← liftResultB (jwt_verify (default "" token) JWT_SECRET);
       found ← store (Prisma.user_findUnique userId);
       match found with
       | None => mret (inl (respond 404 (Failure "Utilizatorul nu a fost găsit")))
       | Some u => mret (inr (userId, u))
       end)
    (fun _ => mret (inl (respond 401 (Failure "Token invalid")))).

(** The handler of POST /create-checkout-session; [planId] is
    [req.body.planId], [None] when the body has none ([PLANS[undefined]] is
    undefined). What [PLANS[planId]] answers passes the check when it is an
    entry of the table and also when it is a member the table inherits, a
    function or object with no [stripePriceId]: the price of the line item
    is then undefined, [None]. *)
Definition createCheckoutSession (userId : string) (user : User)
  (planId : option string) : B Response :=
  tryCatchB
    (match match planId with
           | Some p => member PLANS p
           | None => Undefined
           end with
     | Undefined => mret (respond 400 (Failure "Plan invalid"))
     | plan =>
         let price := match plan with
                      | Own entry => Some (stripePriceId entry)
                      | _ => None
                      end in
         stripeCustomerId ←
           (if negb (truthy (stripeCustomerId user)) then
              customer ← provider (CustomersCreate (email user) (name user) userId)
                           (customers_create (email user) (name user) userId);
              _ ← store (Prisma.user_update userId
                           (customerData (Subscriptions.customer_id customer)));
              mret (Subscriptions.customer_id customer)
            else mret (default "" (stripeCustomerId user)));
         session ← provider
                     (SessionsCreate stripeCustomerId price userId (default "" planId))
                     (sessions_create stripeCustomerId price userId (default "" planId));
         mret (respond 200 (CheckoutCreated (session_url session) (session_id session)))
     end)
    (fun _ => mret (respond 500 (Failure "Eroare la crearea sesiunii de plată"))).

(** The handler of GET /checkout-session/:sessionId *)
Definition checkoutSession (userId : string) (sessionId : string) : B Response :=
  tryCatchB
    (session ← provider (SessionsRetrieve sessionId) (sessions_retrieve sessionId);
     if negb (bool_decide (retrieved_userId session = Some userId)) then
       mret (respond 403 (Failure "Acces interzis"))
     else
       mret (respond 200
         (SessionStatus (payment_status session) (customer_email session)
            (amount_total session))))
    (fun _ => mret (respond 500 (Failure "Eroare la verificarea sesiunii"))).

(** [PLANS[user.subscriptionPlan]?.requests || 10]: a member the table
    inherits has no [requests], so only the entries of the table count. *)
Definition planLimit (u : User) : Z :=
  match property PLANS (subscriptionPlan u) with
  | Some plan => if requests plan =? 0 then 10 else requests plan
  | None => 10
  end.

(** The handler of GET /status *)
Definition getStatus (userId : string) (user : User) (c : Clock) : B Response :=
  tryCatchB
    (usageRow ← store (Prisma.usage_findUnique (userId, month c, year c));
     let isActive := Subscriptions.isActive_status user c in
     let limit := planLimit user in
     mret (respond 200
       (StatusBody (subscriptionPlan user) (subscriptionStatus user) isActive
          (subscriptionExpiresAt user)
          (orZero usageRow) limit
          (if limit =? -1 then -1 else Z.max 0 (limit - orZero usageRow))
          (stripeCustomerId user) (stripeSubscriptionId user))))
    (fun _ => mret (respond 500 (Failure "Eroare la obținerea statusului"))).

(** The handler of POST /cancel: cancellation at the end of the billing
    period. *)
Definition cancel (userId : string) (user : User) : B Response :=
  tryCatchB
    (if negb (truthy (stripeSubscriptionId user)) then
       mret (respond 400 (Failure "Nu ai un abonament activ"))
     else
       let subscriptionId := default "" (stripeSubscriptionId user) in
       _ ← provider (SubscriptionsUpdate subscriptionId true)
             (subscriptions_update subscriptionId true);
       _ ← store (Prisma.user_update userId (statusOnly "cancelled"));
       mret (respond 200
         (Message "Abonamentul va fi anulat la sfârșitul perioadei de facturare"
            "cancelled")))
    (fun _ => mret (respond 500 (Failure "Eroare la anularea abonamentului"))).

(** The handler of POST /reactivate *)
Definition reactivate (userId : string) (user : User) : B Response :=
  tryCatchB
    (if negb (truthy (stripeSubscriptionId user)) then
       mret (respond 400 (Failure "Nu ai un abonament de reactivat"))
     else
       let subscriptionId := default "" (stripeSubscriptionId user) in
       _ ← provider (SubscriptionsUpdate subscriptionId false)
             (subscriptions_update subscriptionId false);
       _ ← store (Prisma.user_update userId (statusOnly "active"));
       mret (respond 200
         (Message "Abonamentul a fost reactivat cu succes" "active")))
    (fun _ => mret (respond 500 (Failure "Eroare la reactivarea abonamentului"))).

(** A route behind the middleware: [router.METHOD(path, authenticateToken,
    handler)]. *)
Definition behindAuth (authorization : option string)
  (handler : string -> User -> B Response) : B Response :=
  a ← authenticateToken authorization;
  match a with
  | inl response => mret response
  | inr (userId, user) => handler userId user
  end.

End Routes.

End Billing.




(** ** routes/reviews.js: the pagination of GET /history *)

Module History.

(** [parseInt(x) || d]: [parsed] is the integer [parseInt] read in the
    query parameter, [None] when it read none (NaN); 0 is falsy as well. *)
Definition parsedOr (parsed : option Z) (d : Z) : Z :=
  match parsed with
  | Some n => if n =? 0 then d else n
  | None => d
  end.

(** The [pagination] block of the reply, with the [skip] handed to the
    store. *)
Record Pagination := mkPagination {
  page : Z;
  limit : Z;
  offset : Z;
  totalCount : Z;
  totalPages : Z;
  hasNext : bool;
  hasPrev : bool
}.

(** [Math.ceil(totalCount / limit)], for a limit that is not 0: the ceiling
    of the exact quotient, which is what binary64 gives for the counts a
    table can hold (below 2^53) and a divisor of at most 50. *)
Definition ceilDiv (a b : Z) : Z := - ((- a) / b).

(** [page = parseInt(req.query.page) || 1],
    [limit = Math.min(parseInt(req.query.limit) || 10, 50)],
    [offset = (page - 1) * limit] and the block built from the count the
    store returns. *)
Definition paginate (pageParam limitParam : option Z) (count : Z) : Pagination :=
  let page := parsedOr pageParam 1 in
  let limit := Z.min (parsedOr limitParam 10) 50 in
  {| page := page;
     limit := limit;
     offset := (page - 1) * limit;
     totalCount := count;
     totalPages := ceilDiv count limit;
     hasNext := page * limit <? count;
     hasPrev := 1 <? page |}.

End History.


(** ** routes/auth.js: freemium registration *)

Module Auth.

(** [req.body] after the sanitizers of [registerValidation] (email
    normalised, name trimmed). *)
Record RegisterBody := mkRegister {
  reg_email : string;
  reg_password : string;
  reg_name : string;
  reg_businessName : option string
}.

Inductive Body :=
| Failure (error : string)
    (* { success: false, error } *)
| Registered (userId : string) (user : User) (token : string)
    (planName : string) (limit current : Z).
    (* { success: true, message, user: {...}, token,
         plan: { name: 'Free', limit, current: 0 } } *)

Record Response := respond { status : Z; json : Body }.

Record PlanLimits := mkLimits { free : Z; basic : Z; premium : Z; enterprise : Z }.

Definition PLAN_LIMITS : PlanLimits :=
  {| free := 10; basic := 100; premium := 500; enterprise := -1 |}.

(** A store call for which the trace has no entry: it runs under the fault
    schedule and is not logged. *)
Definition unlogged {A} (op : Db -> (JsError + A) * Db) : M A := fun w =>
  match faults w with
  | Some msg :: rest =>
      (inl (mkError None msg), {| db := db w; faults := rest; trace := trace w |})
  | _ =>
      let '(r, d) := op (db w) in
      (r, {| db := d; faults := tail (faults w); trace := trace w |})
  end.

(** [prisma.user.findUnique({ where: { email } })]; the column is unique. *)
Definition user_findByEmail (address : string) : M (option (string * User)) :=
  unlogged (fun d =>
    (inr (List.find (fun r => String.eqb (email (snd r)) address)
            (map_to_list (users d))), d)).

(** [tx.user.create({ data })]; [id] is the identifier the store draws for
    the new row. The unique constraints on the id and on the email throw
    P2002. *)
Definition user_create (id : string) (row : User) : M (string * User) :=
  unlogged (fun d =>
    match users d !! id,
          List.find (fun r => String.eqb (email (snd r)) (email row))
            (map_to_list (users d)) with
    | None, None => (inr (id, row), Prisma.setUsers (<[id := row]> (users d)) d)
    | _, _ => (inl Prisma.uniqueViolation, d)
    end).

Section Routes.

(** [isEmail] of the validator library, and [jwt.sign] applied to the
    payload's user id, email and plan and to the secret. *)
Variable isEmail : string -> bool.
Variable jwt_sign : string -> string -> string -> string -> string.
Variable JWT_SECRET : string.

(** [validationResult(req).isEmpty()] for [registerValidation]. *)
Definition registerValidation (b : RegisterBody) : bool :=
  isEmail (reg_email b)
  && (6 <=? Z.of_nat (String.length (reg_password b)))
  && (2 <=? Z.of_nat (String.length (reg_name b)))
  && (Z.of_nat (String.length (reg_name b)) <=? 50).

(** The row [tx.user.create] is given; the password hash, [emailVerified]
    and the timestamps are columns outside [User]. *)
Definition newUser (b : RegisterBody) : User :=
  {| email := reg_email b;
     name := reg_name b;
     businessName := if truthy (reg_businessName b) then reg_businessName b else None;
     isActive := true;
     subscriptionPlan := "free";
     subscriptionStatus := "active";
     subscriptionExpiresAt := None;
     monthlyLimit := free PLAN_LIMITS;
     stripeCustomerId := None;
     stripeSubscriptionId := None |}.

(** POST /register. [id] is the identifier of the row to be created, [c]
    the clock read inside the transaction. *)
Definition register (b : RegisterBody) (id : string) (c : Clock) : M Response :=
  tryCatch
    (if negb (registerValidation b) then
       mret (respond 400 (Failure "Invalid input"))
     else
       existingUser ← user_findByEmail (reg_email b);
       match existingUser with
       | Some _ => mret (respond 400 (Failure "Account with this email already exists"))
       | None =>
           created ← Prisma.transaction
             (user ← user_create id (newUser b);
              _ ← Prisma.usage_create (fst user, month c, year c) 0;
              mret user);
           let token :=
             jwt_sign (fst created) (email (snd created))
               (subscriptionPlan (snd created)) JWT_SECRET in
           mret (respond 201
             (Registered (fst created) (snd created) token "Free" (free PLAN_LIMITS) 0))
       end)
    (fun error =>
       if bool_decide (err_code error = Some "P2002") then
         mret (respond 400 (Failure "Email already exists"))
       else mret (respond 500 (Failure "Failed to create account"))).

End Routes.

End Auth.


(** ** Sample provider for the subscription routes *)

Module BillingScenario.

(** No price id is set in the environment. *)
Definition env (variable : string) : option string := None.

(** The provider names a new customer after the user's id. *)
Definition customers_create (email name userId : string)
  : JsError + Subscriptions.StripeCustomer :=
  inr (Subscriptions.mkCustomer ("cus_" +:+ userId)).

(** Sessions can be created at the basic price only. *)
Definition sessions_create (customer : string) (price : option string)
  (userId planId : string) : JsError + Billing.CreatedSession :=
  if bool_decide (price = Some "price_basic") then
    inr (Billing.mkCreated (Some ("https://checkout.example/" +:+ customer)) "cs_1")
  else inl (mkError (Some "resource_missing") "No such price").

(** One session exists, opened by Bob. *)
Definition sessions_retrieve (sessionId : string) : JsError + Billing.RetrievedSession :=
  if String.eqb sessionId "cs_1" then
    inr (Billing.mkRetrieved (Some "u_bob") "paid" (Some "b@x.com") (Some 499))
  else inl (mkError (Some "resource_missing") "No such checkout.session").

Definition subscriptions_update (subscriptionId : string) (cancelAtPeriodEnd : bool)
  : JsError + unit :=
  if String.eqb subscriptionId "sub_bob" then inr tt
  else inl (mkError (Some "resource_missing") "No such subscription").

End BillingScenario.


(** ** Sample registration *)

Module AuthScenario.

(** Any address with an [@] in it passes for an email here. *)
Definition isEmail (s : string) : bool :=
  match String.index 0 "@" s with Some _ => true | None => false end.

(** The sample tokens: [tok_<id>], which [Sample.jwt_verify] reads back. *)
Definition jwt_sign (userId address plan secret : string) : string := "tok_" +:+ userId.

Definition erin : Auth.RegisterBody :=
  {| Auth.reg_email := "a@x.com";
     Auth.reg_password := "Passw0rd";
     Auth.reg_name := "Erin";
     Auth.reg_businessName := None |}.

Definition frank : Auth.RegisterBody :=
  {| Auth.reg_email := "f@x.com";
     Auth.reg_password := "Passw0rd";
     Auth.reg_name := "Frank";
     Auth.reg_businessName := Some "Frank's Bakery" |}.

End AuthScenario.


(** ** Vocabulary of the further properties *)

(** The reply text of the handler: the completion's, or the canned one. *)
Definition replyText (b : Reviews.GenerateBody) (outcome : JsError + Completion) : string :=
  match outcome with
  | inr completion => content completion
  | inl _ =>
      Reviews.fallbackText (Reviews.reviewText b) (Reviews.tone b)
        (default "en" (Reviews.language b))
  end.

(** The columns of a user row no webhook event writes. *)
Definition sameAccount (u u' : User) : Prop :=
  email u' = email u
  /\ name u' = name u
  /\ businessName u' = businessName u
  /\ isActive u' = isActive u
  /\ monthlyLimit u' = monthlyLimit u
  /\ stripeCustomerId u' = stripeCustomerId u.

(** The provider customer id an invoice or subscription event resolves to,
    when the provider's retrievals succeed. *)
Definition eventCustomer
  (subscriptions_retrieve : string -> JsError + Subscriptions.StripeSubscription)
  (customers_retrieve : string -> JsError + Subscriptions.StripeCustomer)
  (event : Subscriptions.Event) : option string :=
  let ofSubscription sub :=
    match customers_retrieve (Subscriptions.sub_customer sub) with
    | inr customer => Some (Subscriptions.customer_id customer)
    | inl _ => None
    end in
  let ofInvoice invoice :=
    if truthy (Subscriptions.invoice_subscription invoice) then
      match subscriptions_retrieve (default "" (Subscriptions.invoice_subscription invoice)) with
      | inr sub => ofSubscription sub
      | inl _ => None
      end
    else None in
  match event with
  | Subscriptions.InvoicePaymentSucceeded invoice => ofInvoice invoice
  | Subscriptions.InvoicePaymentFailed invoice => ofInvoice invoice
  | Subscriptions.CustomerSubscriptionUpdated sub => ofSubscription sub
  | Subscriptions.CustomerSubscriptionDeleted sub => ofSubscription sub
  | _ => None
  end.

(** The reply of the older route to a provider error, by its code. *)
Definition legacyFailureReply (e : JsError) : Legacy.Response :=
  if bool_decide (err_code e = Some "insufficient_quota") then
    Legacy.respond 503 (Legacy.ProviderFailure
      "Serviciul este temporar indisponibil. Încearcă din nou în câteva minute."
      "quota_exceeded")
  else if bool_decide (err_code e = Some "rate_limit_exceeded") then
    Legacy.respond 429 (Legacy.ProviderFailure
      "Prea multe cereri către serviciul AI. Încearcă din nou în câteva secunde."
      "rate_limit")
  else
    Legacy.respond 500 (Legacy.ProviderFailure "Eroare la generarea răspunsului"
      "internal_error").

(** A string with no space in it. *)
Fixpoint spaceless (s : string) : bool :=
  match s with
  | EmptyString => true
  | String ch rest => negb (Ascii.eqb ch (Ascii.ascii_of_nat 32)) && spaceless rest
  end.


(** * Properties *)

(** ** The store *)

Lemma call_no_fault {A} (c : Call) (op : Db -> (JsError + A) * Db) (w : World) :
  faults w = [] ->
  Prisma.call c op w =
    (fst (op (db w)),
     {| db := snd (op (db w)); faults := []; trace := trace w ++ [c] |}).
Proof.
  intros Hf. unfold Prisma.call. rewrite Hf. simpl.
  destruct (op (db w)); reflexivity.
Qed.

Lemma firstByCustomer_Some (customer : string) (us : gmap string User)
  (id : string) (u : User) :
  Prisma.firstByCustomer customer us = Some (id, u) ->
  us !! id = Some u /\ stripeCustomerId u = Some customer.
Proof.
  unfold Prisma.firstByCustomer. intros Hfind.
  apply find_some in Hfind as [Hin Hp]. simpl in Hp.
  split.
  - apply elem_of_map_to_list, list_elem_of_In. exact Hin.
  - apply bool_decide_eq_true in Hp. exact Hp.
Qed.

(** ** The fallback reply *)

Lemma responses_other_language (language : string) :
  language <> "en" -> property Reviews.responses language = None.
Proof.
  intros Hne. unfold property, Reviews.responses. cbn [List.find fst].
  destruct (String.eqb_spec "en" language) as [Heq|_].
  - exfalso. apply Hne. symmetry. exact Heq.
  - reflexivity.
Qed.

Lemma fallbackText_nonempty (reviewText tone language : string) :
  Reviews.fallbackText reviewText tone language <> ""
  /\ (language <> "en" ->
      Reviews.fallbackText reviewText tone language = Reviews.professional_en).
Proof.
  split.
  - unfold Reviews.fallbackText.
    destruct (property Reviews.responses language ≫= _) as [text|] eqn:E;
      [| discriminate].
    destruct text; simpl; discriminate.
  - intros Hne. unfold Reviews.fallbackText.
    rewrite (responses_other_language language Hne). reflexivity.
Qed.

Lemma member_not_inherited {A} (o : list (string * A)) (k : string) :
  k ∉ objectPrototype ->
  member o k = match property o k with Some a => Own a | None => Undefined end.
Proof.
  intros Hk. unfold member.
  destruct (property o k); [reflexivity|].
  rewrite (bool_decide_eq_false_2 _ Hk). reflexivity.
Qed.

Lemma member_Undefined {A} (o : list (string * A)) (k : string) :
  member o k = Undefined -> property o k = None.
Proof.
  unfold member. destruct (property o k); [discriminate | reflexivity].
Qed.

Lemma validated_not_inherited (k : string) :
  k ∈ Reviews.tones \/ k ∈ Reviews.languages -> k ∉ objectPrototype.
Proof.
  intros [Hk|Hk]; apply list_elem_of_In in Hk; cbn in Hk;
    repeat (destruct Hk as [<-|Hk];
            [apply (proj1 (bool_decide_eq_false _)); vm_compute; reflexivity |]);
    contradiction.
Qed.

Section FallbackValue.

Variable builtin : string -> string -> JsError + JsValue.

(** For a tone and a language that name no inherited member the value is
    the string the handler works with. *)
Lemma generateFallbackResponse_text (reviewText tone language : string) :
  tone ∉ objectPrototype ->
  language ∉ objectPrototype ->
  Reviews.generateFallbackResponse builtin reviewText tone language
  = inr (JsString (Reviews.fallbackText reviewText tone language)).
Proof.
  intros Htone Hlang.
  unfold Reviews.generateFallbackResponse, Reviews.fallbackText.
  rewrite (member_not_inherited _ language Hlang).
  destruct (property Reviews.responses language) as [byTone|]; [| reflexivity].
  cbn [mbind option_bind]. rewrite (member_not_inherited _ tone Htone).
  destruct (property byTone tone) as [text|]; [| reflexivity].
  cbn [jsTruthy]. destruct (truthy (Some text)); reflexivity.
Qed.

Lemma generateFallbackResponse_validated (reviewText tone language : string) :
  tone ∈ Reviews.tones ->
  language ∈ Reviews.languages ->
  Reviews.generateFallbackResponse builtin reviewText tone language
  = inr (JsString (Reviews.fallbackText reviewText tone language)).
Proof.
  intros Htone Hlang.
  apply generateFallbackResponse_text; apply validated_not_inherited; auto.
Qed.

(** C10, as amended. [generateFallbackResponse] returns the English
    professional reply for every language other than en that is not the
    name of a member inherited from [Object.prototype] (ro, es, fr, de and
    it among them), whatever the tone; and for every language and tone that
    are not such names it returns a non-empty string. *)
Theorem fallback_is_text_outside_inherited_names
  (reviewText tone language : string) :
  language ∉ objectPrototype ->
  (language <> "en" ->
   Reviews.generateFallbackResponse builtin reviewText tone language
   = inr (JsString Reviews.professional_en))
  /\ (tone ∉ objectPrototype ->
      exists text,
        Reviews.generateFallbackResponse builtin reviewText tone language
        = inr (JsString text)
        /\ text <> "").
Proof.
  intros Hlang. split.
  - intros Hne. unfold Reviews.generateFallbackResponse.
    rewrite (member_not_inherited _ language Hlang),
      (responses_other_language language Hne).
    reflexivity.
  - intros Htone. eexists. split.
    + apply generateFallbackResponse_text; assumption.
    + apply fallbackText_nonempty.
Qed.

End FallbackValue.

Lemma fallback_is_text_outside_inherited_names_witness :
  Reviews.generateFallbackResponse Sample.builtin Sample.review "apologetic" "ro"
  = inr (JsString Reviews.professional_en)
  /\ Reviews.generateFallbackResponse Sample.builtin Sample.review "apologetic" "en"
     = inr (JsString
         "We sincerely apologize for any inconvenience. Your feedback is important to us and we will work to improve.").
Proof.
  split.
  - apply (fallback_is_text_outside_inherited_names Sample.builtin Sample.review
             "apologetic" "ro").
    + intros H. apply list_elem_of_In in H. cbn in H.
      repeat (destruct H as [H|H]; [discriminate H |]). contradiction.
    + discriminate.
  - reflexivity.
Defined.

(** C10, as stated, fails on the names object literals inherit. With the
    tone [toString] the English table answers the function
    [Object.prototype.toString], which is truthy and returned as it is: not
    a string. With the language [__proto__], which is not en, the table
    looked into is [Object.prototype] itself and the same function comes
    back instead of the English professional reply. *)
Lemma fallback_returns_inherited_member :
  (Reviews.generateFallbackResponse Sample.builtin Sample.review "toString" "en"
   = inr (JsInherited "toString")
   /\ forall text,
        Reviews.generateFallbackResponse Sample.builtin Sample.review "toString" "en"
        <> inr (JsString text))
  /\ ("__proto__" <> "en"
      /\ Reviews.generateFallbackResponse Sample.builtin Sample.review "toString" "__proto__"
         = inr (JsInherited "toString")
      /\ Reviews.generateFallbackResponse Sample.builtin Sample.review "toString" "__proto__"
         <> inr (JsString Reviews.professional_en)).
Proof.
  split; [split; [reflexivity | intros text; discriminate] |].
  split; [discriminate |]. split; [reflexivity | discriminate].
Qed.

(** ** The entitlement middleware of routes/reviews.js *)

Section ReviewsGate.

Variable jwt_verify : string -> string -> JsError + string.
Variable JWT_SECRET : string.

Lemma truthy_token (token : string) : token <> "" -> truthy (Some token) = true.
Proof. destruct token; [congruence | reflexivity]. Qed.

(** Once the token resolves to a stored user and the store answers, the
    middleware is the cascade of its four checks. *)
Lemma authenticateAndCheckUsage_resolved
  (req : Reviews.Request) (c : Clock) (w : World) (token uid : string) (u : User) :
  bearerToken (Reviews.authorization req) = Some token ->
  token <> "" ->
  jwt_verify token JWT_SECRET = inr uid ->
  users (db w) !! uid = Some u ->
  faults w = [] ->
  Reviews.authenticateAndCheckUsage jwt_verify JWT_SECRET req c w =
    (inr (let current := orZero (usage (db w) !! (uid, month c, year c)) in
          if negb (isActive u) then
            inl (Reviews.respond 401 (Reviews.Failure "User not found or inactive" None))
          else if negb (Reviews.isSubscriptionActive u c) then
            inl (Reviews.respond 403
                   (Reviews.Failure "Subscription expired" (Some "SUBSCRIPTION_EXPIRED")))
          else if Reviews.limitReached u current then
            inl (Reviews.respond 429
                   (Reviews.LimitReached current (monthlyLimit u) (firstOfNextMonth c)))
          else inr (Reviews.mkSession uid u current)),
     {| db := db w; faults := []; trace := trace w ++ [UserFindUnique uid] |}).
Proof.
  intros Htok Hne Hver Hu Hf.
  unfold Reviews.authenticateAndCheckUsage, tryCatch, mbind, M_bind, liftResult,
    Prisma.user_findUnique_withUsage.
  rewrite Htok, (truthy_token token Hne). cbn [negb default from_option id].
  rewrite Hver, (call_no_fault _ _ w Hf). cbn [fst snd]. rewrite Hu.
  cbn zeta.
  destruct (isActive u); cbn [negb]; [| reflexivity].
  destruct (Reviews.isSubscriptionActive u c); cbn [negb]; [| reflexivity].
  destruct (Reviews.limitReached u _); reflexivity.
Qed.

(** The middleware answers every request: it never throws. *)
Lemma authenticateAndCheckUsage_total (req : Reviews.Request) (c : Clock) (w : World) :
  exists r, fst (Reviews.authenticateAndCheckUsage jwt_verify JWT_SECRET req c w) = inr r.
Proof.
  unfold Reviews.authenticateAndCheckUsage, tryCatch.
  destruct (_ w) as [[e|r] w']; eauto.
Qed.

End ReviewsGate.

(** ** The handler of POST /generate in routes/reviews.js *)


Lemma generate_atomic (s : Reviews.Session) (b : Reviews.GenerateBody)
  (startTime : Z) (c : Clock) (outcome : JsError + Completion) (w : World) :
  let r := Reviews.generate s b startTime c outcome w in
  exists resp,
    fst r = inr resp
    /\ ((Reviews.status resp <> 200 /\ db (snd r) = db w)
        \/ (Reviews.status resp = 200
            /\ exists row,
                 bothRecorded (db w) (db (snd r))
                   (Reviews.user_id s, month c, year c) row)).
Proof.
  unfold Reviews.generate, tryCatch, Prisma.transaction, mbind, M_bind,
    Prisma.usage_upsert, Prisma.apiCall_create, Prisma.call, bothRecorded, upserted.
  destruct (Reviews.generateValidation b); cbn [negb].
  - destruct outcome as [e|cmp];
      (destruct (faults w) as [|[msg|] [|[msg'|] rest]] eqn:Hf; cbn;
       destruct (usage (db w) !! _) eqn:Hk; cbn;
       eexists; (split; [reflexivity|]);
       first [ left; split; [discriminate | reflexivity]
             | right; split; [reflexivity | eexists; repeat split; reflexivity] ]).
  - eexists. split; [reflexivity|]. left. split; [discriminate | reflexivity].
Qed.

(** With a valid body and a store that answers, the handler commits both
    writes and replies 200; what it replies and what it logs are read off
    the provider's answer. *)
Lemma generate_commits (s : Reviews.Session) (b : Reviews.GenerateBody)
  (startTime : Z) (c : Clock) (outcome : JsError + Completion) (w : World) :
  Reviews.generateValidation b = true ->
  faults w = [] ->
  let k := (Reviews.user_id s, month c, year c) in
  let lang := default "en" (Reviews.language b) in
  let text := match outcome with
              | inr completion => content completion
              | inl _ =>
                  Reviews.fallbackText
                    (Reviews.reviewText b) (Reviews.tone b) lang
              end in
  let tokens := match outcome with
                | inr completion => total_tokens completion
                | inl _ => 0
                end in
  let cost := match outcome with
              | inr completion => estimateCost completion
              | inl _ => 0%Q
              end in
  let limit := monthlyLimit (Reviews.user s) in
  let r := Reviews.generate s b startTime c outcome w in
  exists row,
    fst r = inr (Reviews.respond 200
              (Reviews.Generated text tokens cost (now c - startTime) lang
                 (Reviews.tone b) (upserted (db w) k) limit
                 (if limit =? -1 then -1 else Z.max 0 (limit - upserted (db w) k))))
    /\ bothRecorded (db w) (db (snd r)) k row
    /\ call_userId row = Reviews.user_id s
    /\ call_responseText row = String.substring 0 500 text
    /\ call_tokensUsed row = tokens
    /\ call_cost row = cost
    /\ call_success row = true
    /\ call_errorMessage row = None.
Proof.
  intros Hvalid Hf.
  unfold Reviews.generate, tryCatch, Prisma.transaction, mbind, M_bind,
    Prisma.usage_upsert, Prisma.apiCall_create, Prisma.call, bothRecorded, upserted.
  rewrite Hvalid. cbn [negb]. cbv beta zeta.
  destruct outcome as [e|cmp]; rewrite Hf; cbn;
    destruct (usage (db w) !! _) eqn:Hk; cbn;
    eexists; repeat split; reflexivity.
Qed.




(** ** The older generation route *)

Section LegacyRoute.

Variable jwt_verify : string -> string -> JsError + string.
Variable JWT_SECRET : string.

Lemma authenticateToken_resolved
  (req : Legacy.Request) (c : Clock) (w : World) (token uid : string) (u : User) :
  bearerToken (Legacy.authorization req) = Some token ->
  token <> "" ->
  jwt_verify token JWT_SECRET = inr uid ->
  users (db w) !! uid = Some u ->
  faults w = [] ->
  Legacy.authenticateToken jwt_verify JWT_SECRET req c w =
    (inr (if Legacy.subscriptionExpired u c
          then inl (Legacy.respond 403 Legacy.SubscriptionExpired)
          else inr (uid, u)),
     {| db := db w; faults := []; trace := trace w ++ [UserFindUnique uid] |}).
Proof.
  intros Htok Hne Hver Hu Hf.
  unfold Legacy.authenticateToken, tryCatch, mbind, M_bind, liftResult,
    Prisma.user_findUnique.
  rewrite Htok, (truthy_token token Hne). cbn [negb default from_option id].
  rewrite Hver, (call_no_fault _ _ w Hf). cbn [fst snd]. rewrite Hu.
  destruct (Legacy.subscriptionExpired u c); reflexivity.
Qed.

(** With the period's row in place and a store that answers, the plan
    check reads the counter and compares it with the plan's limit. *)
Lemma checkPlanLimits_counted
  (uid : string) (u : User) (c : Clock) (w : World) (n : Z) :
  usage (db w) !! (uid, month c, year c) = Some n ->
  faults w = [] ->
  let limit := Legacy.getPlanLimit (subscriptionPlan u) in
  Legacy.checkPlanLimits uid u c w =
    (inr (if Legacy.limitExceeded limit n
          then inl (Legacy.respond 429
                      (Legacy.LimitExceeded n limit (subscriptionPlan u)))
          else inr (Legacy.mkSession uid u n limit)),
     {| db := db w; faults := [];
        trace := trace w ++ [UsageFindUnique (uid, month c, year c)] |}).
Proof.
  intros Hk Hf limit.
  unfold Legacy.checkPlanLimits, tryCatch, mbind, M_bind, Prisma.usage_findUnique.
  rewrite (call_no_fault _ _ w Hf). cbn [fst snd]. rewrite Hk.
  cbn [mret M_ret]. fold limit.
  destruct (Legacy.limitExceeded limit n); reflexivity.
Qed.

(** With a valid body, a completion from the provider, the period's row in
    place and a store that answers, the handler increments the counter,
    logs the call and replies 200 with the new count. *)
Lemma legacy_generate_commits (s : Legacy.Session) (b : Legacy.GenerateBody)
  (startTime : Z) (c : Clock) (completion : Completion) (w : World) (n : Z) :
  Legacy.generateValidation b = true ->
  usage (db w) !! (Legacy.user_id s, month c, year c) = Some n ->
  faults w = [] ->
  let k := (Legacy.user_id s, month c, year c) in
  let r := Legacy.generate s b startTime c (inr completion) w in
  exists resp row,
    fst r = inr resp
    /\ Legacy.status resp = 200
    /\ users (db (snd r)) = users (db w)
    /\ usage (db (snd r)) = <[k := n + 1]> (usage (db w))
    /\ apiCalls (db (snd r)) = (apiCalls (db w) ++ [row])%list
    /\ call_success row = true.
Proof.
  intros Hvalid Hk Hf k r. subst r.
  unfold Legacy.generate, tryCatch, mbind, M_bind, Prisma.usage_increment,
    Prisma.apiCall_create, Prisma.usage_findUnique, Prisma.call.
  rewrite Hvalid. cbn [negb]. cbv beta zeta. rewrite Hf. cbn.
  fold k in Hk |- *. rewrite Hk. cbn. rewrite lookup_insert_eq.
  do 2 eexists. repeat split; reflexivity.
Qed.

End LegacyRoute.

Section Gates.

Variable jwt_verify : string -> string -> JsError + string.
Variable JWT_SECRET : string.

(** What a rejection by the freemium middleware means: a 401, or else the
    token resolved to a stored user, who failed the validity check (403) or
    the limit check (429). *)
Lemma authenticateAndCheckUsage_rejected
  (req : Reviews.Request) (c : Clock) (w : World) (resp : Reviews.Response) :
  fst (Reviews.authenticateAndCheckUsage jwt_verify JWT_SECRET req c w) = inr (inl resp) ->
  Reviews.status resp = 401
  \/ exists token uid u,
       bearerToken (Reviews.authorization req) = Some token
       /\ jwt_verify token JWT_SECRET = inr uid
       /\ users (db w) !! uid = Some u
       /\ ((Reviews.status resp = 403 /\ Reviews.isSubscriptionActive u c = false)
           \/ (Reviews.status resp = 429
               /\ Reviews.limitReached u
                    (orZero (usage (db w) !! (uid, month c, year c))) = true)).
Proof.
  unfold Reviews.authenticateAndCheckUsage, tryCatch, mbind, M_bind, liftResult,
    Prisma.user_findUnique_withUsage, Prisma.call.
  destruct (bearerToken (Reviews.authorization req)) as [token|] eqn:Htok;
    [| cbn; intros [= <-]; left; reflexivity].
  destruct (truthy (Some token)); cbn [negb default from_option id];
    [| cbn; intros [= <-]; left; reflexivity].
  destruct (jwt_verify token JWT_SECRET) as [e|uid] eqn:Hver;
    [cbn; intros [= <-]; left; reflexivity |].
  destruct (faults w) as [|[msg|] rest];
    try (cbn; intros [= <-]; left; reflexivity);
    (cbn; destruct (users (db w) !! uid) as [u|] eqn:Hu;
     [| cbn; intros [= <-]; left; reflexivity];
     destruct (isActive u); cbn; [| intros [= <-]; left; reflexivity];
     destruct (Reviews.isSubscriptionActive u c) eqn:Hsub; cbn;
     [| intros [= <-]; right; exists token, uid, u;
        repeat split; try assumption; left; split; [reflexivity | assumption]];
     destruct (Reviews.limitReached u _) eqn:Hlim; cbn; [| discriminate];
     intros [= <-]; right; exists token, uid, u;
     repeat split; try assumption; right; split; [reflexivity | assumption]).
Qed.

(** A 429 of the freemium middleware comes from its limit check, on the
    user the token resolves to. *)
Lemma authenticateAndCheckUsage_429
  (req : Reviews.Request) (c : Clock) (w : World) (resp : Reviews.Response) :
  fst (Reviews.authenticateAndCheckUsage jwt_verify JWT_SECRET req c w) = inr (inl resp) ->
  Reviews.status resp = 429 ->
  exists token uid u,
    bearerToken (Reviews.authorization req) = Some token
    /\ jwt_verify token JWT_SECRET = inr uid
    /\ users (db w) !! uid = Some u
    /\ Reviews.limitReached u (orZero (usage (db w) !! (uid, month c, year c))) = true.
Proof.
  intros Hresp Hst.
  destruct (authenticateAndCheckUsage_rejected req c w resp Hresp)
    as [H401 | (token & uid & u & Htok & Hver & Hu & [[H403 _] | [_ Hlim]])];
    [congruence | congruence |].
  exists token, uid, u. repeat split; assumption.
Qed.

(** On the freemium route a free-tier user is never answered 403, whatever
    the expiry column holds. *)
Lemma free_tier_never_expired
  (req : Reviews.Request) (c : Clock) (w : World) (token uid : string) (u : User)
  (resp : Reviews.Response) :
  bearerToken (Reviews.authorization req) = Some token ->
  jwt_verify token JWT_SECRET = inr uid ->
  users (db w) !! uid = Some u ->
  subscriptionPlan u = "free" ->
  fst (Reviews.authenticateAndCheckUsage jwt_verify JWT_SECRET req c w) = inr (inl resp) ->
  Reviews.status resp <> 403.
Proof.
  intros Htok Hver Hu Hplan Hresp Hst.
  destruct (authenticateAndCheckUsage_rejected req c w resp Hresp)
    as [H401 | (token' & uid' & u' & Htok' & Hver' & Hu' & [[_ Hsub] | [H429 _]])];
    [congruence | | congruence].
  rewrite Htok in Htok'. injection Htok' as <-.
  rewrite Hver in Hver'. injection Hver' as <-.
  rewrite Hu in Hu'. injection Hu' as <-.
  unfold Reviews.isSubscriptionActive in Hsub. rewrite Hplan in Hsub. discriminate.
Qed.

(** A 429 of the older plan check comes from its limit comparison. *)
Lemma checkPlanLimits_429
  (uid : string) (u : User) (c : Clock) (w : World) (resp : Legacy.Response) :
  fst (Legacy.checkPlanLimits uid u c w) = inr (inl resp) ->
  Legacy.status resp = 429 ->
  exists n, Legacy.limitExceeded (Legacy.getPlanLimit (subscriptionPlan u)) n = true.
Proof.
  unfold Legacy.checkPlanLimits, tryCatch, mbind, M_bind, Prisma.usage_findUnique,
    Prisma.usage_create, Prisma.call.
  destruct (faults w) as [|[msg|] [|[msg'|] rest]]; cbn;
    try (intros [= <-]; discriminate);
    (destruct (usage (db w) !! _) as [n|] eqn:Hk; cbn; rewrite ?Hk; cbn;
     try (intros [= <-]; discriminate);
     match goal with
     | |- context [Legacy.limitExceeded ?l ?m] =>
         destruct (Legacy.limitExceeded l m) eqn:Hlim; cbn;
         [intros _ _; exists m; exact Hlim | discriminate]
     end).
Qed.

End Gates.

(** ** Quota boundary and the unlimited sentinel *)

(** C3. A user whose monthly limit is 10, authenticated and with a valid
    subscription, on either generation route (on the older one the limit is
    that of the user's plan). With 10 requests counted in the current period
    the request is rejected with 429, reporting current 10 and limit 10, and
    the store is left as it was: the count is not incremented. With 9
    requests counted the request passes the quota gate, and the generation
    that follows (valid body, same period, a completion from the provider
    on the older route) replies 200 and leaves the count at 10. *)
Theorem quota_boundary_at_limit_10 :
  (forall (jwt_verify : string -> string -> JsError + string) (JWT_SECRET : string)
     (req : Reviews.Request) (c0 c : Clock) (startTime : Z)
     (outcome : JsError + Completion) (w : World) (token uid : string) (u : User),
     bearerToken (Reviews.authorization req) = Some token ->
     token <> "" ->
     jwt_verify token JWT_SECRET = inr uid ->
     users (db w) !! uid = Some u ->
     faults w = [] ->
     isActive u = true ->
     Reviews.isSubscriptionActive u c0 = true ->
     monthlyLimit u = 10 ->
     let k := (uid, month c0, year c0) in
     let r := Reviews.postGenerate jwt_verify JWT_SECRET req c0 startTime c outcome w in
     (usage (db w) !! k = Some 10 ->
        fst r = inr (Reviews.respond 429
                       (Reviews.LimitReached 10 10 (firstOfNextMonth c0)))
        /\ db (snd r) = db w)
     /\ (usage (db w) !! k = Some 9 ->
           fst (Reviews.authenticateAndCheckUsage jwt_verify JWT_SECRET req c0 w)
             = inr (inr (Reviews.mkSession uid u 9))
           /\ (Reviews.generateValidation (Reviews.body req) = true ->
               month c = month c0 -> year c = year c0 ->
               exists resp,
                 fst r = inr resp
                 /\ Reviews.status resp = 200
                 /\ usage (db (snd r)) !! k = Some 10)))
  /\
  (forall (jwt_verify : string -> string -> JsError + string) (JWT_SECRET : string)
     (req : Legacy.Request) (c0 c : Clock) (withinRate : bool) (startTime : Z)
     (completion : Completion) (w : World) (token uid : string) (u : User),
     bearerToken (Legacy.authorization req) = Some token ->
     token <> "" ->
     jwt_verify token JWT_SECRET = inr uid ->
     users (db w) !! uid = Some u ->
     faults w = [] ->
     Legacy.subscriptionExpired u c0 = false ->
     Legacy.getPlanLimit (subscriptionPlan u) = 10 ->
     let k := (uid, month c0, year c0) in
     let r := Legacy.postGenerate jwt_verify JWT_SECRET req c0 withinRate startTime c
                (inr completion) w in
     (usage (db w) !! k = Some 10 ->
        fst r = inr (Legacy.respond 429
                       (Legacy.LimitExceeded 10 10 (subscriptionPlan u)))
        /\ db (snd r) = db w)
     /\ (usage (db w) !! k = Some 9 ->
           fst (Legacy.checkPlanLimits uid u c0 w)
             = inr (inr (Legacy.mkSession uid u 9 10))
           /\ (withinRate = true ->
               Legacy.generateValidation (Legacy.body req) = true ->
               month c = month c0 -> year c = year c0 ->
               exists resp,
                 fst r = inr resp
                 /\ Legacy.status resp = 200
                 /\ usage (db (snd r)) !! k = Some 10))).
Proof.
  split.
  - intros jwt_verify JWT_SECRET req c0 c startTime outcome w token uid u
      Htok Hne Hver Hu Hf Hact Hsub Hlim k r.
    pose proof (authenticateAndCheckUsage_resolved jwt_verify JWT_SECRET
                  req c0 w token uid u Htok Hne Hver Hu Hf) as Hmw.
    rewrite Hact, Hsub in Hmw. cbn [negb] in Hmw. cbv zeta in Hmw.
    subst r. unfold Reviews.postGenerate, mbind, M_bind.
    split; intros Hk; fold k in Hmw; rewrite Hk in Hmw;
      unfold Reviews.limitReached in Hmw; rewrite Hlim in Hmw;
      cbn in Hmw; rewrite Hmw.
    + split; reflexivity.
    + split; [reflexivity|]. intros Hvalid Hm Hy.
      set (w1 := {| db := db w; faults := []; trace := _ |}).
      destruct (generate_commits (Reviews.mkSession uid u 9) (Reviews.body req)
                  startTime c outcome w1 Hvalid eq_refl)
        as (row & Hresp & (_ & Husage & _) & _).
      cbn [Reviews.user_id] in Husage. rewrite Hm, Hy in Husage. fold k in Husage.
      eexists. split; [exact Hresp|]. split; [reflexivity|].
      rewrite Husage, lookup_insert_eq. unfold upserted. subst w1. cbn [db].
      fold k. rewrite Hk. reflexivity.
  - intros jwt_verify JWT_SECRET req c0 c withinRate startTime completion w token uid u
      Htok Hne Hver Hu Hf Hexp Hlim k r.
    pose proof (authenticateToken_resolved jwt_verify JWT_SECRET
                  req c0 w token uid u Htok Hne Hver Hu Hf) as Hauth.
    rewrite Hexp in Hauth.
    subst r. unfold Legacy.postGenerate, mbind, M_bind. rewrite Hauth.
    set (w1 := {| db := db w; faults := []; trace := _ |}).
    split; intros Hk.
    + rewrite (checkPlanLimits_counted uid u c0 w1 10 Hk eq_refl).
      rewrite Hlim. cbn. split; reflexivity.
    + split.
      { rewrite (checkPlanLimits_counted uid u c0 w 9 Hk Hf).
        cbv zeta. rewrite Hlim. reflexivity. }
      intros -> Hvalid Hm Hy.
      rewrite (checkPlanLimits_counted uid u c0 w1 9 Hk eq_refl).
      rewrite Hlim. cbn [Legacy.limitExceeded Z.eqb Z.leb Z.compare Pos.compare
                          Pos.compare_cont negb andb Pos.eqb].
      cbn [negb].
      set (w2 := {| db := db w1; faults := []; trace := _ |}).
      assert (Hk2 : usage (db w2) !! (uid, month c, year c) = Some 9)
        by (rewrite Hm, Hy; exact Hk).
      destruct (legacy_generate_commits (Legacy.mkSession uid u 9 10) (Legacy.body req)
                  startTime c completion w2 9 Hvalid Hk2 eq_refl)
        as (resp & row & Hresp & Hst & _ & Husage & _).
      cbn [Legacy.user_id] in Husage. rewrite Hm, Hy in Husage.
      exists resp. split; [exact Hresp|]. split; [exact Hst|].
      rewrite Husage. fold k. rewrite lookup_insert_eq. reflexivity.
Qed.

Lemma quota_boundary_at_limit_10_witness :
  let k := ("u_alice", 4, 2025) in
  let run n :=
    Reviews.postGenerate Sample.jwt_verify Sample.secret
      (Sample.request "tok_u_alice") Sample.may 1000 Sample.may_later
      (inl Sample.timeout) (Sample.world n []) in
  let k' := ("u_dave", 4, 2025) in
  let run' n :=
    Legacy.postGenerate Sample.jwt_verify Sample.secret
      (Sample.legacyRequest "tok_u_dave") Sample.may true 1000 Sample.may_later
      (inr Sample.completion) (Sample.world n []) in
  (fst (run 10) = inr (Reviews.respond 429 (Reviews.LimitReached 10 10 (2025, 5, 1)))
   /\ db (snd (run 10)) = Sample.store 10)
  /\ (exists resp,
        fst (run 9) = inr resp /\ Reviews.status resp = 200
        /\ usage (db (snd (run 9))) !! k = Some 10)
  /\ (fst (run' 10) = inr (Legacy.respond 429 (Legacy.LimitExceeded 10 10 "free"))
      /\ db (snd (run' 10)) = Sample.store 10)
  /\ (exists resp,
        fst (run' 9) = inr resp /\ Legacy.status resp = 200
        /\ usage (db (snd (run' 9))) !! k' = Some 10).
Proof.
  cbv zeta.
  pose proof (proj1 quota_boundary_at_limit_10) as R.
  pose proof (proj2 quota_boundary_at_limit_10) as L.
  split; [| split; [| split]].
  - apply (R Sample.jwt_verify Sample.secret (Sample.request "tok_u_alice")
             Sample.may Sample.may_later 1000 (inl Sample.timeout)
             (Sample.world 10 []) "tok_u_alice" "u_alice" Sample.alice);
      first [discriminate | reflexivity].
  - apply (R Sample.jwt_verify Sample.secret (Sample.request "tok_u_alice")
             Sample.may Sample.may_later 1000 (inl Sample.timeout)
             (Sample.world 9 []) "tok_u_alice" "u_alice" Sample.alice);
      first [discriminate | reflexivity].
  - apply (L Sample.jwt_verify Sample.secret (Sample.legacyRequest "tok_u_dave")
             Sample.may Sample.may_later true 1000 Sample.completion
             (Sample.world 10 []) "tok_u_dave" "u_dave" Sample.dave);
      first [discriminate | reflexivity].
  - apply (L Sample.jwt_verify Sample.secret (Sample.legacyRequest "tok_u_dave")
             Sample.may Sample.may_later true 1000 Sample.completion
             (Sample.world 9 []) "tok_u_dave" "u_dave" Sample.dave);
      first [discriminate | reflexivity].
Defined.

(** C9. A user whose quota is the unlimited sentinel -1 (the [monthlyLimit]
    column on the freemium route, the plan's entry of [planLimits] on the
    older one) is never rejected by the quota gate, whatever the store holds
    as the period's request count: the gate never answers 429, and when the
    store answers (and, on the freemium route, the account is active and
    the subscription valid) the request goes on to the handler. *)
Theorem unlimited_quota_never_rejected :
  (forall (jwt_verify : string -> string -> JsError + string) (JWT_SECRET : string)
     (req : Reviews.Request) (c : Clock) (w : World) (token uid : string) (u : User),
     bearerToken (Reviews.authorization req) = Some token ->
     token <> "" ->
     jwt_verify token JWT_SECRET = inr uid ->
     users (db w) !! uid = Some u ->
     monthlyLimit u = -1 ->
     let r := Reviews.authenticateAndCheckUsage jwt_verify JWT_SECRET req c w in
     (forall count, Reviews.limitReached u count = false)
     /\ (forall resp, fst r = inr (inl resp) -> Reviews.status resp <> 429)
     /\ (faults w = [] -> isActive u = true -> Reviews.isSubscriptionActive u c = true ->
         exists session, fst r = inr (inr session) /\ db (snd r) = db w))
  /\
  (forall (uid : string) (u : User) (c : Clock) (w : World),
     Legacy.getPlanLimit (subscriptionPlan u) = -1 ->
     let r := Legacy.checkPlanLimits uid u c w in
     (forall count,
        Legacy.limitExceeded (Legacy.getPlanLimit (subscriptionPlan u)) count = false)
     /\ (forall resp, fst r = inr (inl resp) -> Legacy.status resp <> 429)
     /\ (faults w = [] -> exists session, fst r = inr (inr session))).
Proof.
  split.
  - intros jwt_verify JWT_SECRET req c w token uid u Htok Hne Hver Hu Hlim r.
    assert (Hgate : forall count, Reviews.limitReached u count = false)
      by (intros count; unfold Reviews.limitReached; rewrite Hlim; reflexivity).
    split; [exact Hgate|]. split.
    + intros resp Hresp Hst.
      destruct (authenticateAndCheckUsage_429 jwt_verify JWT_SECRET req c w resp Hresp Hst)
        as (token' & uid' & u' & Htok' & Hver' & Hu' & Hreached).
      rewrite Htok in Htok'. injection Htok' as <-.
      rewrite Hver in Hver'. injection Hver' as <-.
      rewrite Hu in Hu'. injection Hu' as <-.
      rewrite Hgate in Hreached. discriminate.
    + intros Hf Hact Hsub. subst r.
      rewrite (authenticateAndCheckUsage_resolved jwt_verify JWT_SECRET
                 req c w token uid u Htok Hne Hver Hu Hf).
      cbv zeta. rewrite Hact, Hsub. cbn [negb]. rewrite Hgate.
      eexists. split; reflexivity.
  - intros uid u c w Hlim r.
    assert (Hgate : forall count,
               Legacy.limitExceeded (Legacy.getPlanLimit (subscriptionPlan u)) count = false)
      by (intros count; rewrite Hlim; reflexivity).
    split; [exact Hgate|]. split.
    + intros resp Hresp Hst.
      destruct (checkPlanLimits_429 uid u c w resp Hresp Hst) as [n Hn].
      rewrite Hgate in Hn. discriminate.
    + intros Hf. subst r.
      unfold Legacy.checkPlanLimits, tryCatch, mbind, M_bind, Prisma.usage_findUnique,
        Prisma.usage_create, Prisma.call.
      rewrite Hf. cbn.
      destruct (usage (db w) !! _) as [n|] eqn:Hk; cbn; rewrite ?Hk; cbn;
        rewrite Hgate; cbn; eexists; reflexivity.
Qed.

Lemma unlimited_quota_never_rejected_witness :
  let r :=
    Reviews.authenticateAndCheckUsage Sample.jwt_verify Sample.secret
      (Sample.request "tok_u_carol") Sample.may (Sample.world 9 []) in
  let r' := Legacy.checkPlanLimits "u_carol" Sample.carol Sample.may (Sample.world 9 []) in
  (usage (Sample.store 9) !! ("u_carol", 4, 2025) = Some 5000
   /\ monthlyLimit Sample.carol = -1
   /\ exists session, fst r = inr (inr session) /\ db (snd r) = Sample.store 9)
  /\ (Legacy.getPlanLimit (subscriptionPlan Sample.carol) = -1
      /\ exists session, fst r' = inr (inr session)).
Proof.
  cbv zeta. split.
  - split; [reflexivity|]. split; [reflexivity|].
    apply (proj1 unlimited_quota_never_rejected Sample.jwt_verify Sample.secret
             (Sample.request "tok_u_carol") Sample.may (Sample.world 9 [])
             "tok_u_carol" "u_carol" Sample.carol);
      first [discriminate | reflexivity].
  - split; [reflexivity|].
    apply (proj2 unlimited_quota_never_rejected "u_carol" Sample.carol Sample.may
             (Sample.world 9 [])); reflexivity.
Defined.

(** ** The webhook *)

Section WebhookProperties.

Variable constructEvent : string -> option string -> string -> JsError + Subscriptions.Event.
Variable STRIPE_WEBHOOK_SECRET : string.
Variable subscriptions_retrieve : string -> JsError + Subscriptions.StripeSubscription.
Variable customers_retrieve : string -> JsError + Subscriptions.StripeCustomer.

Local Abbreviation webhook :=
  (Subscriptions.webhook constructEvent STRIPE_WEBHOOK_SECRET
     subscriptions_retrieve customers_retrieve).

(** C5. When the signature of a webhook request does not verify, the
    handler answers 400 with the verification error and the world is left
    exactly as it was: no row changed, and no call was made to the store or
    to the payment provider (the trace did not grow), so no user was looked
    up. *)
Theorem invalid_signature_changes_nothing
  (req : Subscriptions.WebhookRequest) (c : Clock) (w : World) (err : JsError) :
  constructEvent (Subscriptions.rawBody req) (Subscriptions.stripe_signature req)
    STRIPE_WEBHOOK_SECRET = inl err ->
  fst (webhook req c w)
    = inr (Subscriptions.WebhookError 400 ("Webhook Error: " +:+ err_message err))
  /\ db (snd (webhook req c w)) = db w
  /\ trace (snd (webhook req c w)) = trace w
  /\ snd (webhook req c w) = w.
Proof.
  intros Hsig. unfold Subscriptions.webhook. rewrite Hsig.
  repeat split; reflexivity.
Qed.

(** The update of a checkout overwrites four columns with values that do
    not depend on the row. *)
Lemma checkoutData_idempotent (planId : string)
  (s : Subscriptions.StripeSubscription) (u : User) :
  Subscriptions.checkoutData planId s (Subscriptions.checkoutData planId s u)
  = Subscriptions.checkoutData planId s u.
Proof. reflexivity. Qed.

(** C6. The same checkout-completed event delivered twice, the provider
    returning the same subscription on both retrievals. Once the first
    delivery has been acknowledged, the second leaves the store, and in it
    the user's plan, status, expiry and provider subscription id, as the
    first left it, whatever the store does during the second. With a store
    that answers throughout, the second delivery is also answered like the
    first. *)
Theorem checkout_completed_replay_idempotent
  (req : Subscriptions.WebhookRequest) (c c' : Clock) (w : World)
  (session : Subscriptions.CheckoutSession) :
  constructEvent (Subscriptions.rawBody req) (Subscriptions.stripe_signature req)
    STRIPE_WEBHOOK_SECRET = inr (Subscriptions.CheckoutSessionCompleted session) ->
  let once := webhook req c w in
  let twice := webhook req c' (snd once) in
  (fst once = inr Subscriptions.Received \/ faults w = [] ->
   db (snd twice) = db (snd once))
  /\ (faults w = [] -> fst twice = fst once).
Proof.
  intros Hsig. cbv zeta.
  unfold Subscriptions.webhook. rewrite Hsig.
  unfold tryCatch, Subscriptions.dispatch, Subscriptions.handleCheckoutCompleted,
    mbind, M_bind, Subscriptions.retrieveSubscription, Subscriptions.stripeCall,
    Prisma.user_update, Prisma.call.
  cbn [db faults trace].
  destruct (subscriptions_retrieve _) as [e|sub].
  { cbn. split; [intros _; reflexivity | intros _; reflexivity]. }
  destruct (faults w) as [|[msg|] rest] eqn:Hf.
  - cbn. destruct (users (db w) !! _) as [u|] eqn:Hu; cbn.
    + rewrite lookup_insert_eq. cbn. unfold Prisma.setUsers. cbn.
      rewrite insert_insert_eq. split; reflexivity.
    + rewrite Hu. cbn. split; reflexivity.
  - cbn. split; [intros [H|H]; discriminate | intros H; discriminate].
  - cbn. destruct (users (db w) !! _) as [u|] eqn:Hu; cbn.
    + split; [intros _ | intros H; discriminate].
      destruct rest as [|[msg|] rest']; cbn; try reflexivity;
        rewrite lookup_insert_eq; cbn; unfold Prisma.setUsers; cbn;
        rewrite insert_insert_eq; reflexivity.
    + split; [intros [H|H]; discriminate | intros H; discriminate].
Qed.

(** An event that names a subscription whose customer is a stored user: the
    handlers of the invoice and subscription events resolve it the same
    way. *)
Lemma resolve_then_update (customer : string) (data : User -> User)
  (w : World) (id : string) (u : User) :
  Prisma.firstByCustomer customer (users (db w)) = Some (id, u) ->
  faults w = [] ->
  (found ← Prisma.user_findFirst customer;
   match found with
   | Some (id, _) => _ ← Prisma.user_update id data; mret tt
   | None => mret tt
   end) w
  = (inr tt,
     {| db := Prisma.setUsers (<[id := data u]> (users (db w))) (db w);
        faults := [];
        trace := (trace w ++ [UserFindFirst customer]) ++ [UserUpdate id] |}).
Proof.
  intros Hfind Hf.
  destruct (firstByCustomer_Some _ _ _ _ Hfind) as [Hu _].
  unfold mbind, M_bind, Prisma.user_findFirst, Prisma.user_update, Prisma.call.
  rewrite Hf. cbn. rewrite Hfind. cbn. rewrite Hu. reflexivity.
Qed.

(** C7. An invoice-payment-failed event whose subscription's customer
    resolves to the stored user [uid], with a store that answers: the event
    is acknowledged, the user's status becomes past_due, and every other
    column of the row is as before, in particular the expiry, the plan and
    the provider subscription id; the other users, the usage counters and
    the audit log are untouched. *)
Theorem payment_failed_sets_past_due_only
  (req : Subscriptions.WebhookRequest) (c : Clock) (w : World)
  (invoice : Subscriptions.Invoice) (sid : string)
  (sub : Subscriptions.StripeSubscription) (customer : Subscriptions.StripeCustomer)
  (uid : string) (u : User) :
  constructEvent (Subscriptions.rawBody req) (Subscriptions.stripe_signature req)
    STRIPE_WEBHOOK_SECRET = inr (Subscriptions.InvoicePaymentFailed invoice) ->
  Subscriptions.invoice_subscription invoice = Some sid ->
  sid <> "" ->
  subscriptions_retrieve sid = inr sub ->
  customers_retrieve (Subscriptions.sub_customer sub) = inr customer ->
  Prisma.firstByCustomer (Subscriptions.customer_id customer) (users (db w))
    = Some (uid, u) ->
  faults w = [] ->
  let r := webhook req c w in
  fst r = inr Subscriptions.Received
  /\ users (db w) !! uid = Some u
  /\ (exists u',
        users (db (snd r)) !! uid = Some u'
        /\ subscriptionStatus u' = "past_due"
        /\ subscriptionExpiresAt u' = subscriptionExpiresAt u
        /\ subscriptionPlan u' = subscriptionPlan u
        /\ stripeSubscriptionId u' = stripeSubscriptionId u
        /\ stripeCustomerId u' = stripeCustomerId u
        /\ monthlyLimit u' = monthlyLimit u
        /\ isActive u' = isActive u
        /\ email u' = email u /\ name u' = name u
        /\ businessName u' = businessName u)
  /\ (forall other, other <> uid -> users (db (snd r)) !! other = users (db w) !! other)
  /\ usage (db (snd r)) = usage (db w)
  /\ apiCalls (db (snd r)) = apiCalls (db w).
Proof.
  intros Hsig Hinv Hne Hsub Hcus Hfind Hf r.
  destruct (firstByCustomer_Some _ _ _ _ Hfind) as [Hu _].
  assert (Hrun : exists t,
             r = (inr Subscriptions.Received,
                  {| db := Prisma.setUsers
                             (<[uid := Subscriptions.pastDueData u]> (users (db w))) (db w);
                     faults := []; trace := t |})).
  { subst r. unfold Subscriptions.webhook. rewrite Hsig.
    unfold tryCatch, Subscriptions.dispatch, Subscriptions.handlePaymentFailed.
    rewrite Hinv, (truthy_token sid Hne). cbn [default from_option id].
    unfold mbind at 1 2 3. unfold M_bind at 1 2 3.
    unfold Subscriptions.retrieveSubscription, Subscriptions.retrieveCustomer,
      Subscriptions.stripeCall.
    rewrite Hsub, Hcus.
    set (w1 := {| db := db w; faults := faults w; trace := _ |}).
    set (w2 := {| db := db w1; faults := faults w1; trace := _ |}).
    rewrite (resolve_then_update _ Subscriptions.pastDueData w2 uid u Hfind Hf).
    eexists. reflexivity. }
  destruct Hrun as [t ->].
  cbn [fst snd db users usage apiCalls Prisma.setUsers]. rewrite lookup_insert_eq.
  split; [reflexivity|]. split; [exact Hu|].
  split; [eexists; repeat split; reflexivity|].
  split; [intros other Hother; apply lookup_insert_ne; congruence|].
  split; reflexivity.
Qed.

(** C8. A subscription-deleted event whose customer resolves to the stored
    user [uid], with a store that answers: the event is acknowledged, the
    user's plan becomes free, the status cancelled, the expiry the current
    time, and the stored provider subscription id is cleared; the other
    columns of the row and the other users are untouched. *)
Theorem subscription_deleted_reverts_to_free
  (req : Subscriptions.WebhookRequest) (c : Clock) (w : World)
  (sub : Subscriptions.StripeSubscription) (customer : Subscriptions.StripeCustomer)
  (uid : string) (u : User) :
  constructEvent (Subscriptions.rawBody req) (Subscriptions.stripe_signature req)
    STRIPE_WEBHOOK_SECRET = inr (Subscriptions.CustomerSubscriptionDeleted sub) ->
  customers_retrieve (Subscriptions.sub_customer sub) = inr customer ->
  Prisma.firstByCustomer (Subscriptions.customer_id customer) (users (db w))
    = Some (uid, u) ->
  faults w = [] ->
  let r := webhook req c w in
  fst r = inr Subscriptions.Received
  /\ users (db w) !! uid = Some u
  /\ (exists u',
        users (db (snd r)) !! uid = Some u'
        /\ subscriptionPlan u' = "free"
        /\ subscriptionStatus u' = "cancelled"
        /\ subscriptionExpiresAt u' = Some (now c)
        /\ stripeSubscriptionId u' = None
        /\ stripeCustomerId u' = stripeCustomerId u
        /\ monthlyLimit u' = monthlyLimit u
        /\ isActive u' = isActive u)
  /\ (forall other, other <> uid -> users (db (snd r)) !! other = users (db w) !! other).
Proof.
  intros Hsig Hcus Hfind Hf r.
  destruct (firstByCustomer_Some _ _ _ _ Hfind) as [Hu _].
  assert (Hrun : exists t,
             r = (inr Subscriptions.Received,
                  {| db := Prisma.setUsers
                             (<[uid := Subscriptions.deletedData c u]> (users (db w))) (db w);
                     faults := []; trace := t |})).
  { subst r. unfold Subscriptions.webhook. rewrite Hsig.
    unfold tryCatch, Subscriptions.dispatch, Subscriptions.handleSubscriptionDeleted.
    unfold mbind at 1 2. unfold M_bind at 1 2.
    unfold Subscriptions.retrieveCustomer, Subscriptions.stripeCall.
    rewrite Hcus.
    set (w1 := {| db := db w; faults := faults w; trace := _ |}).
    rewrite (resolve_then_update _ (Subscriptions.deletedData c) w1 uid u Hfind Hf).
    eexists. reflexivity. }
  destruct Hrun as [t ->].
  cbn [fst snd db users usage apiCalls Prisma.setUsers]. rewrite lookup_insert_eq.
  split; [reflexivity|]. split; [exact Hu|].
  split; [eexists; repeat split; reflexivity|].
  intros other Hother; apply lookup_insert_ne; congruence.
Qed.

End WebhookProperties.


Lemma invalid_signature_changes_nothing_witness :
  Sample.constructEvent "checkout" (Some "forged") Sample.whsec
    = inl (mkError None "No signatures found matching the expected signature for payload.")
  /\ fst (Sample.sampleWebhook "checkout" "forged" (Sample.world 9 []))
     = inr (Subscriptions.WebhookError 400
              "Webhook Error: No signatures found matching the expected signature for payload.")
  /\ snd (Sample.sampleWebhook "checkout" "forged" (Sample.world 9 [])) = Sample.world 9 [].
Proof.
  split; [reflexivity|].
  destruct (invalid_signature_changes_nothing Sample.constructEvent Sample.whsec
              Sample.subscriptions_retrieve Sample.customers_retrieve
              (Subscriptions.mkWebhook "checkout" (Some "forged")) Sample.may
              (Sample.world 9 []) _ eq_refl) as (Hresp & _ & _ & Hworld).
  split; [exact Hresp | exact Hworld].
Defined.

Lemma checkout_completed_replay_idempotent_witness :
  let once := Sample.sampleWebhook "checkout" "good" (Sample.world 9 []) in
  let twice := Sample.sampleWebhook "checkout" "good" (snd once) in
  fst once = inr Subscriptions.Received
  /\ subscriptionPlan <$> (users (db (snd once)) !! "u_alice") = Some "basic"
  /\ db (snd twice) = db (snd once)
  /\ fst twice = fst once.
Proof.
  cbv zeta. split; [reflexivity|]. split; [reflexivity|].
  destruct (checkout_completed_replay_idempotent Sample.constructEvent Sample.whsec
              Sample.subscriptions_retrieve Sample.customers_retrieve
              (Subscriptions.mkWebhook "checkout" (Some "good")) Sample.may Sample.may
              (Sample.world 9 []) Sample.checkout eq_refl) as [Hdb Hresp].
  split; [apply Hdb; right; reflexivity | apply Hresp; reflexivity].
Defined.

Lemma payment_failed_sets_past_due_only_witness :
  let r := Sample.sampleWebhook "failed" "good" (Sample.world 9 []) in
  Prisma.firstByCustomer "cus_bob" (users (Sample.store 9)) = Some ("u_bob", Sample.bob)
  /\ fst r = inr Subscriptions.Received
  /\ exists u',
       users (db (snd r)) !! "u_bob" = Some u'
       /\ subscriptionStatus u' = "past_due"
       /\ subscriptionExpiresAt u' = Some 900000
       /\ subscriptionPlan u' = "basic"
       /\ stripeSubscriptionId u' = Some "sub_bob".
Proof.
  cbv zeta. split; [reflexivity|].
  destruct (payment_failed_sets_past_due_only Sample.constructEvent Sample.whsec
              Sample.subscriptions_retrieve Sample.customers_retrieve
              (Subscriptions.mkWebhook "failed" (Some "good")) Sample.may
              (Sample.world 9 []) (Subscriptions.mkInvoice (Some "sub_bob")) "sub_bob"
              Sample.bobSubscription (Subscriptions.mkCustomer "cus_bob")
              "u_bob" Sample.bob eq_refl eq_refl ltac:(discriminate) eq_refl eq_refl
              eq_refl eq_refl)
    as (Hresp & _ & (u' & Hu' & Hst & Hexp & Hplan & Hsub & _) & _).
  split; [exact Hresp|].
  exists u'. repeat split; assumption.
Defined.

Lemma subscription_deleted_reverts_to_free_witness :
  let r := Sample.sampleWebhook "deleted" "good" (Sample.world 9 []) in
  Prisma.firstByCustomer "cus_bob" (users (Sample.store 9)) = Some ("u_bob", Sample.bob)
  /\ fst r = inr Subscriptions.Received
  /\ exists u',
       users (db (snd r)) !! "u_bob" = Some u'
       /\ subscriptionPlan u' = "free"
       /\ subscriptionStatus u' = "cancelled"
       /\ subscriptionExpiresAt u' = Some 1000
       /\ stripeSubscriptionId u' = None.
Proof.
  cbv zeta. split; [reflexivity|].
  destruct (subscription_deleted_reverts_to_free Sample.constructEvent Sample.whsec
              Sample.subscriptions_retrieve Sample.customers_retrieve
              (Subscriptions.mkWebhook "deleted" (Some "good")) Sample.may
              (Sample.world 9 []) Sample.bobSubscription (Subscriptions.mkCustomer "cus_bob")
              "u_bob" Sample.bob eq_refl eq_refl eq_refl eq_refl)
    as (Hresp & _ & (u' & Hu' & Hplan & Hst & Hexp & Hsub & _) & _).
  split; [exact Hresp|].
  exists u'. repeat split; assumption.
Defined.

(** ** Provider failure on the freemium route *)

(** With a valid body and a store that answers, a failure of the provider
    is answered 200 with the canned reply, and the call is logged with no
    tokens, no cost, no error message, and with [success] set. *)
Lemma provider_failure_reply_and_audit (s : Reviews.Session)
  (b : Reviews.GenerateBody) (startTime : Z) (c : Clock) (e : JsError) (w : World) :
  Reviews.generateValidation b = true ->
  faults w = [] ->
  let r := Reviews.generate s b startTime c (inl e) w in
  let text := Reviews.fallbackText (Reviews.reviewText b) (Reviews.tone b)
                (default "en" (Reviews.language b)) in
  exists resp row,
    fst r = inr resp
    /\ Reviews.status resp = 200
    /\ (exists d l t cur lim rem,
          Reviews.json resp = Reviews.Generated text 0 0%Q d l t cur lim rem)
    /\ apiCalls (db (snd r)) = (apiCalls (db w) ++ [row])%list
    /\ call_tokensUsed row = 0
    /\ call_cost row = 0%Q
    /\ call_success row = true
    /\ call_errorMessage row = None.
Proof.
  intros Hvalid Hf r text.
  destruct (generate_commits s b startTime c (inl e) w Hvalid Hf)
    as (row & Hresp & (_ & _ & Hlog) & _ & _ & Htok & Hcost & Hsucc & Hmsg).
  eexists. exists row. split; [exact Hresp|]. split; [reflexivity|].
  split; [cbn [Reviews.json]; do 6 eexists; reflexivity|].
  repeat split; assumption.
Qed.

(** C1. Alice asks for an apologetic reply in Romanian and the provider
    times out. The route answers 200 with the canned reply and logs the call
    with zero tokens and zero cost, but the audit row says [success: true]
    and carries no error message: the provider's failure leaves no mark in
    the audit trail. *)
Theorem provider_failure_logged_as_success :
  let r := Reviews.postGenerate Sample.jwt_verify Sample.secret
             (Sample.request "tok_u_alice") Sample.may 1000 Sample.may_later
             (inl Sample.timeout) (Sample.world 3 []) in
  fst r = inr (Reviews.respond 200
                 (Reviews.Generated Reviews.professional_en 0 0%Q 600 "ro" "apologetic"
                    4 10 6))
  /\ exists row,
       apiCalls (db (snd r)) = [row]
       /\ call_tokensUsed row = 0
       /\ call_cost row = 0%Q
       /\ call_success row = true
       /\ call_errorMessage row = None.
Proof.
  cbv zeta. split; [reflexivity|].
  eexists. split; [reflexivity|]. repeat split; reflexivity.
Qed.

(** ** Subscription validity of the free tier *)

(** On the freemium route a free-tier user passes the validity check
    whatever the expiry column holds. *)
Lemma free_tier_always_valid (u : User) (c : Clock) :
  subscriptionPlan u = "free" -> Reviews.isSubscriptionActive u c = true.
Proof. intros Hplan. unfold Reviews.isSubscriptionActive. rewrite Hplan. reflexivity. Qed.

(** C2. Alice is on the free tier and her expiry column holds a date in the
    past. The freemium middleware finds her subscription valid; the
    middleware of the older generation route rejects her with 403
    (subscriptionExpired), and GET /status reports her inactive. *)
Theorem legacy_rejects_expired_free_tier :
  subscriptionPlan Sample.alice = "free"
  /\ subscriptionExpiresAt Sample.alice = Some 500
  /\ now Sample.may = 1000
  /\ Reviews.isSubscriptionActive Sample.alice Sample.may = true
  /\ fst (Legacy.authenticateToken Sample.jwt_verify Sample.secret
            (Sample.legacyRequest "tok_u_alice") Sample.may (Sample.world 3 []))
     = inr (inl (Legacy.respond 403 Legacy.SubscriptionExpired))
  /\ Subscriptions.isActive_status Sample.alice Sample.may = false.
Proof. repeat split; reflexivity. Qed.

(** ** Atomicity of the counter and the audit row *)

(** C4. Dave's request on the older generation route: the provider answers,
    the counter is incremented, and then the store drops the connection for
    the two writes of the audit log. The counter went from 3 to 4 and the log
    is still empty. When instead the increment is the call that fails, the
    counter stays at 3 and a row is appended to the log. On the freemium
    route both writes are in one transaction ([generate_atomic]). *)
Theorem legacy_counter_and_audit_not_atomic :
  let k := ("u_dave", 4, 2025) in
  let run schedule :=
    Legacy.postGenerate Sample.jwt_verify Sample.secret
      (Sample.legacyRequest "tok_u_dave") Sample.may true 1000 Sample.may_later
      (inr Sample.completion) (Sample.world 3 schedule) in
  let lost := Some "Connection lost" in
  let failed :=
    Legacy.respond 500
      (Legacy.ProviderFailure "Eroare la generarea răspunsului" "internal_error") in
  (usage (Sample.store 3) !! k = Some 3 /\ apiCalls (Sample.store 3) = [])
  /\ (usage (db (snd (run [None; None; None; lost; lost]))) !! k = Some 4
      /\ apiCalls (db (snd (run [None; None; None; lost; lost]))) = []
      /\ fst (run [None; None; None; lost; lost]) = inr failed)
  /\ (usage (db (snd (run [None; None; lost]))) !! k = Some 3
      /\ length (apiCalls (db (snd (run [None; None; lost])))) = 1%nat
      /\ fst (run [None; None; lost]) = inr failed).
Proof. cbv zeta. repeat split; reflexivity. Qed.


(** * Further properties of the routes *)

(** ** The freemium gate *)

Section GateProperties.

Variable jwt_verify : string -> string -> JsError + string.
Variable JWT_SECRET : string.

Local Abbreviation gate := (Reviews.authenticateAndCheckUsage jwt_verify JWT_SECRET).

Lemma authenticateAndCheckUsage_effect (req : Reviews.Request) (c : Clock) (w : World) :
  (exists r, fst (gate req c w) = inr r)
  /\ db (snd (gate req c w)) = db w
  /\ (trace (snd (gate req c w)) = trace w
      \/ exists uid, trace (snd (gate req c w)) = (trace w ++ [UserFindUnique uid])%list).
Proof.
  unfold Reviews.authenticateAndCheckUsage, tryCatch, mbind, M_bind, liftResult,
    Prisma.user_findUnique_withUsage, Prisma.call.
  destruct (bearerToken (Reviews.authorization req)) as [token|];
    [| cbn; eauto].
  destruct (truthy (Some token)); cbn [negb default from_option id]; [| cbn; eauto].
  destruct (jwt_verify token JWT_SECRET) as [e|uid]; [cbn; eauto |].
  destruct (faults w) as [|[msg|] rest]; cbn;
    try (split; [eauto | split; [reflexivity | right; eauto]]);
    (destruct (users (db w) !! uid) as [u|]; cbn;
     [| split; [eauto | split; [reflexivity | right; eauto]]];
     destruct (isActive u); cbn;
     [| split; [eauto | split; [reflexivity | right; eauto]]];
     destruct (Reviews.isSubscriptionActive u c); cbn;
     [| split; [eauto | split; [reflexivity | right; eauto]]];
     destruct (Reviews.limitReached u _); cbn;
     split; [eauto | split; [reflexivity | right; eauto] | eauto
            | split; [reflexivity | right; eauto]]).
Qed.

Lemma authenticateAndCheckUsage_passed
  (req : Reviews.Request) (c : Clock) (w : World) (s : Reviews.Session) :
  fst (gate req c w) = inr (inr s) ->
  exists token,
    bearerToken (Reviews.authorization req) = Some token
    /\ token <> ""
    /\ jwt_verify token JWT_SECRET = inr (Reviews.user_id s)
    /\ users (db w) !! Reviews.user_id s = Some (Reviews.user s)
    /\ isActive (Reviews.user s) = true
    /\ Reviews.isSubscriptionActive (Reviews.user s) c = true
    /\ Reviews.currentUsage s
       = orZero (usage (db w) !! (Reviews.user_id s, month c, year c))
    /\ (monthlyLimit (Reviews.user s) = -1
        \/ Reviews.currentUsage s < monthlyLimit (Reviews.user s)).
Proof.
  unfold Reviews.authenticateAndCheckUsage, tryCatch, mbind, M_bind, liftResult,
    Prisma.user_findUnique_withUsage, Prisma.call.
  destruct (bearerToken (Reviews.authorization req)) as [token|] eqn:Htok;
    [| cbn; discriminate].
  destruct (truthy (Some token)) eqn:Htruthy; cbn [negb default from_option id];
    [| cbn; discriminate].
  destruct (jwt_verify token JWT_SECRET) as [e|uid] eqn:Hver; [cbn; discriminate |].
  assert (Hne : token <> "") by (intros ->; discriminate).
  destruct (faults w) as [|[msg|] rest]; cbn; try discriminate;
    (destruct (users (db w) !! uid) as [u|] eqn:Hu; cbn; [| discriminate];
     destruct (isActive u) eqn:Hact; cbn; [| discriminate];
     destruct (Reviews.isSubscriptionActive u c) eqn:Hsub; cbn; [| discriminate];
     destruct (Reviews.limitReached u _) eqn:Hlim; cbn; [discriminate |];
     intros [= <-]; cbn; exists token; repeat split; try assumption;
     unfold Reviews.limitReached in Hlim;
     destruct (Z.eqb_spec (monthlyLimit u) (-1)) as [Heq|Hneq];
     [left; exact Heq | right; cbn in Hlim; apply Z.leb_gt in Hlim; exact Hlim]).
Qed.

(** X1. The freemium gate only reads: whatever the request, the clock and
    the fault schedule, it answers (it never throws), the tables are as before
    and at most one call, the lookup of the user, was made to the store. *)
Theorem gate_only_reads (req : Reviews.Request) (c : Clock) (w : World) :
  (exists r, fst (gate req c w) = inr r)
  /\ db (snd (gate req c w)) = db w
  /\ (trace (snd (gate req c w)) = trace w
      \/ exists uid, trace (snd (gate req c w)) = (trace w ++ [UserFindUnique uid])%list).
Proof. exact (authenticateAndCheckUsage_effect req c w). Qed.

(** X2. Whoever passes the freemium gate is the stored user the bearer token
    verifies to, with an active account, a valid subscription and a count
    under the limit; the session handed to the handler carries that user's
    row and the period's count (0 when the period has no row). *)
Theorem gate_passes_only_entitled_users
  (req : Reviews.Request) (c : Clock) (w : World) (s : Reviews.Session) :
  fst (gate req c w) = inr (inr s) ->
  exists token,
    bearerToken (Reviews.authorization req) = Some token
    /\ token <> ""
    /\ jwt_verify token JWT_SECRET = inr (Reviews.user_id s)
    /\ users (db w) !! Reviews.user_id s = Some (Reviews.user s)
    /\ isActive (Reviews.user s) = true
    /\ Reviews.isSubscriptionActive (Reviews.user s) c = true
    /\ Reviews.currentUsage s
       = orZero (usage (db w) !! (Reviews.user_id s, month c, year c))
    /\ (monthlyLimit (Reviews.user s) = -1
        \/ Reviews.currentUsage s < monthlyLimit (Reviews.user s)).
Proof. exact (authenticateAndCheckUsage_passed req c w s). Qed.

End GateProperties.

Lemma gate_passes_only_entitled_users_witness :
  exists s,
    fst (Reviews.authenticateAndCheckUsage Sample.jwt_verify Sample.secret
           (Sample.request "tok_u_carol") Sample.may (Sample.world 9 [])) = inr (inr s)
    /\ Reviews.user_id s = "u_carol"
    /\ users (Sample.store 9) !! "u_carol" = Some (Reviews.user s)
    /\ Reviews.currentUsage s = 5000
    /\ monthlyLimit (Reviews.user s) = -1.
Proof.
  exists (Reviews.mkSession "u_carol" Sample.carol 5000).
  pose proof (gate_passes_only_entitled_users Sample.jwt_verify Sample.secret
                (Sample.request "tok_u_carol") Sample.may (Sample.world 9 [])
                (Reviews.mkSession "u_carol" Sample.carol 5000) eq_refl)
    as (token & _ & _ & _ & Hu & _ & _ & Hcur & _).
  split; [reflexivity|]. split; [reflexivity|]. split; [exact Hu|].
  split; [exact Hcur | reflexivity].
Defined.

Section GateExpiry.

Variable jwt_verify : string -> string -> JsError + string.
Variable JWT_SECRET : string.

(** X3. For an active user on a paid plan whose token resolves, with a
    store that answers, the freemium gate answers 403 SUBSCRIPTION_EXPIRED
    exactly when the expiry is not after the current time: the instant of
    expiry itself is already rejected, and a null expiry counts as the epoch,
    so it is rejected at any time from 0 on. *)
Theorem paid_plan_rejected_from_expiry_on
  (req : Reviews.Request) (c : Clock) (w : World) (token uid : string) (u : User) :
  bearerToken (Reviews.authorization req) = Some token ->
  token <> "" ->
  jwt_verify token JWT_SECRET = inr uid ->
  users (db w) !! uid = Some u ->
  faults w = [] ->
  isActive u = true ->
  subscriptionPlan u <> "free" ->
  (fst (Reviews.authenticateAndCheckUsage jwt_verify JWT_SECRET req c w)
   = inr (inl (Reviews.respond 403
                 (Reviews.Failure "Subscription expired" (Some "SUBSCRIPTION_EXPIRED"))))
   <-> dateValue (subscriptionExpiresAt u) <= now c)
  /\ (subscriptionExpiresAt u = None -> 0 <= now c ->
      fst (Reviews.authenticateAndCheckUsage jwt_verify JWT_SECRET req c w)
      = inr (inl (Reviews.respond 403
                    (Reviews.Failure "Subscription expired" (Some "SUBSCRIPTION_EXPIRED"))))).
Proof.
  intros Htok Hne Hver Hu Hf Hact Hplan.
  rewrite (authenticateAndCheckUsage_resolved jwt_verify JWT_SECRET
             req c w token uid u Htok Hne Hver Hu Hf).
  cbv zeta. rewrite Hact. cbn [negb fst].
  assert (Hsub : Reviews.isSubscriptionActive u c
                 = (now c <? dateValue (subscriptionExpiresAt u))).
  { unfold Reviews.isSubscriptionActive.
    destruct (String.eqb_spec (subscriptionPlan u) "free"); [contradiction | reflexivity]. }
  rewrite Hsub.
  assert (Hiff : inr (if negb (now c <? dateValue (subscriptionExpiresAt u))
            then inl (Reviews.respond 403
                   (Reviews.Failure "Subscription expired" (Some "SUBSCRIPTION_EXPIRED")))
            else if Reviews.limitReached u
                      (orZero (usage (db w) !! (uid, month c, year c)))
                 then inl (Reviews.respond 429
                        (Reviews.LimitReached
                           (orZero (usage (db w) !! (uid, month c, year c)))
                           (monthlyLimit u) (firstOfNextMonth c)))
                 else inr (Reviews.mkSession uid u
                             (orZero (usage (db w) !! (uid, month c, year c)))))
          = (inr (inl (Reviews.respond 403
                   (Reviews.Failure "Subscription expired" (Some "SUBSCRIPTION_EXPIRED"))))
             : JsError + (Reviews.Response + Reviews.Session))
          <-> dateValue (subscriptionExpiresAt u) <= now c).
  { destruct (Z.ltb_spec (now c) (dateValue (subscriptionExpiresAt u))) as [Hlt|Hge];
      cbn [negb].
    - split; [| lia]. destruct (Reviews.limitReached u _); discriminate.
    - split; [intros _; exact Hge | reflexivity]. }
  split; [exact Hiff|].
  intros Hnull Hnow. apply Hiff. rewrite Hnull. exact Hnow.
Qed.

End GateExpiry.

Lemma paid_plan_rejected_from_expiry_on_witness :
  let expiring := {| now := 900000; month := 4; year := 2025 |} in
  dateValue (subscriptionExpiresAt Sample.bob) <= now expiring
  /\ fst (Reviews.authenticateAndCheckUsage Sample.jwt_verify Sample.secret
            (Sample.request "tok_u_bob") expiring (Sample.world 9 []))
     = inr (inl (Reviews.respond 403
                   (Reviews.Failure "Subscription expired" (Some "SUBSCRIPTION_EXPIRED")))).
Proof.
  cbv zeta. split; [cbn; lia|].
  apply (proj1 (paid_plan_rejected_from_expiry_on Sample.jwt_verify Sample.secret
                  (Sample.request "tok_u_bob") {| now := 900000; month := 4; year := 2025 |}
                  (Sample.world 9 []) "tok_u_bob" "u_bob" Sample.bob
                  eq_refl ltac:(discriminate) eq_refl eq_refl eq_refl eq_refl
                  ltac:(discriminate))).
  cbn. lia.
Defined.

(** ** The freemium handler and route *)

Lemma substring_prefix_length (n : nat) (s : string) :
  (String.length (String.substring 0 n s) <= n)%nat.
Proof.
  revert s. induction n as [|n IH]; intros [|ch s]; cbn; try lia.
  specialize (IH s). lia.
Qed.

(** Every run of the handler, whatever the fault schedule: either it
    answers 400 or 500 and the tables are as before, or it answers 200 and
    both writes were committed, the audit row being the one of this call. *)
Lemma generate_outcomes (s : Reviews.Session) (b : Reviews.GenerateBody)
  (startTime : Z) (c : Clock) (outcome : JsError + Completion) (w : World) :
  let k := (Reviews.user_id s, month c, year c) in
  let limit := monthlyLimit (Reviews.user s) in
  let r := Reviews.generate s b startTime c outcome w in
  (exists error,
     (fst r = inr (Reviews.respond 400 (Reviews.Failure error None))
      \/ fst r = inr (Reviews.respond 500 (Reviews.Failure error None)))
     /\ db (snd r) = db w)
  \/ (exists tokens cost row,
        fst r = inr (Reviews.respond 200
                  (Reviews.Generated (replyText b outcome) tokens cost (now c - startTime)
                     (default "en" (Reviews.language b)) (Reviews.tone b)
                     (upserted (db w) k) limit
                     (if limit =? -1 then -1 else Z.max 0 (limit - upserted (db w) k))))
        /\ bothRecorded (db w) (db (snd r)) k row
        /\ call_userId row = Reviews.user_id s
        /\ call_reviewText row = String.substring 0 500 (Reviews.reviewText b)
        /\ call_responseText row = String.substring 0 500 (replyText b outcome)
        /\ call_success row = true).
Proof.
  unfold Reviews.generate, tryCatch, Prisma.transaction, mbind, M_bind,
    Prisma.usage_upsert, Prisma.apiCall_create, Prisma.call, bothRecorded, upserted,
    replyText.
  destruct (Reviews.generateValidation b); cbn [negb].
  - destruct outcome as [e|cmp];
      (destruct (faults w) as [|[msg|] [|[msg'|] rest]] eqn:Hf; cbn;
       destruct (usage (db w) !! _) eqn:Hk; cbn;
       first [ left; eexists; split; [right; reflexivity | reflexivity]
             | right; do 3 eexists; repeat split; reflexivity ]).
  - left. eexists. split; [left; reflexivity | reflexivity].
Qed.

Section RouteProperties.

Variable jwt_verify : string -> string -> JsError + string.
Variable JWT_SECRET : string.

Local Abbreviation route := (Reviews.postGenerate jwt_verify JWT_SECRET).

(** X4. POST /generate of routes/reviews.js is all or nothing under every
    fault schedule: the route always answers; when the answer is not a 200
    the tables are as before; when it is a 200, the counter of the user the
    token verifies to went up by one (or was created at 1) for the period,
    one audit row carrying that user's id was appended, and nothing else
    changed. *)
Theorem route_records_all_or_nothing
  (req : Reviews.Request) (c0 : Clock) (startTime : Z) (c : Clock)
  (outcome : JsError + Completion) (w : World) :
  let r := route req c0 startTime c outcome w in
  exists resp,
    fst r = inr resp
    /\ ((Reviews.status resp <> 200 /\ db (snd r) = db w)
        \/ (Reviews.status resp = 200
            /\ exists token uid row,
                 bearerToken (Reviews.authorization req) = Some token
                 /\ jwt_verify token JWT_SECRET = inr uid
                 /\ bothRecorded (db w) (db (snd r)) (uid, month c, year c) row
                 /\ call_userId row = uid
                 /\ call_success row = true)).
Proof.
  cbv zeta. unfold Reviews.postGenerate, mbind, M_bind.
  destruct (authenticateAndCheckUsage_effect jwt_verify JWT_SECRET req c0 w) as ([g Hg] & Hdb & _).
  destruct (Reviews.authenticateAndCheckUsage jwt_verify JWT_SECRET req c0 w)
    as [[e|[resp|s]] w1] eqn:Hgate; cbn [fst snd] in *; try discriminate.
  - pose proof (authenticateAndCheckUsage_rejected jwt_verify JWT_SECRET req c0 w resp) as Hrej.
    rewrite Hgate in Hrej. specialize (Hrej eq_refl).
    exists resp. split; [reflexivity|]. left. split; [| exact Hdb].
    destruct Hrej as [-> | (_ & _ & _ & _ & _ & _ & [[-> _] | [-> _]])]; discriminate.
  - pose proof (authenticateAndCheckUsage_passed jwt_verify JWT_SECRET req c0 w s) as Hpass.
    rewrite Hgate in Hpass. destruct (Hpass eq_refl) as (token & Htok & _ & Hver & _).
    destruct (generate_outcomes s (Reviews.body req) startTime c outcome w1)
      as [(error & [H|H] & Hsame) | (tokens & cost & row & H & Hboth & Hid & _ & _ & Hsucc)];
      rewrite H; eexists; (split; [reflexivity|]).
    + left. split; [discriminate | congruence].
    + left. split; [discriminate | congruence].
    + right. split; [reflexivity|].
      exists token, (Reviews.user_id s), row. rewrite <- Hdb.
      repeat split; try assumption; apply Hboth.
Qed.

End RouteProperties.

Section RouteProperties2.

Variable jwt_verify : string -> string -> JsError + string.
Variable JWT_SECRET : string.

Local Abbreviation route := (Reviews.postGenerate jwt_verify JWT_SECRET).

(** X5. The audit log of routes/reviews.js is append-only and bounded: under
    every fault schedule a request leaves the log as it was or appends
    exactly one row to it, and the review text and the reply stored in that
    row are at most 500 characters long. *)
Theorem route_audit_append_only_truncated
  (req : Reviews.Request) (c0 : Clock) (startTime : Z) (c : Clock)
  (outcome : JsError + Completion) (w : World) :
  let r := route req c0 startTime c outcome w in
  apiCalls (db (snd r)) = apiCalls (db w)
  \/ exists row,
       apiCalls (db (snd r)) = (apiCalls (db w) ++ [row])%list
       /\ (String.length (call_reviewText row) <= 500)%nat
       /\ (String.length (call_responseText row) <= 500)%nat.
Proof.
  cbv zeta. unfold Reviews.postGenerate, mbind, M_bind, mret, M_ret.
  destruct (authenticateAndCheckUsage_effect jwt_verify JWT_SECRET req c0 w) as ([g Hg] & Hdb & _).
  destruct (Reviews.authenticateAndCheckUsage jwt_verify JWT_SECRET req c0 w)
    as [[e|[resp|s]] w1] eqn:Hgate; cbn [fst snd] in *; try discriminate.
  - left. rewrite Hdb. reflexivity.
  - destruct (generate_outcomes s (Reviews.body req) startTime c outcome w1)
      as [(error & _ & Hsame) | (tokens & cost & row & _ & (_ & _ & Hlog) & _ & Hrev & Hrep & _)].
    + left. rewrite Hsame, Hdb. reflexivity.
    + right. exists row. rewrite Hlog, Hdb. split; [reflexivity|].
      rewrite Hrev, Hrep. split; apply substring_prefix_length.
Qed.

(** X6. The usage block of a 200 reply of routes/reviews.js tells the store's
    truth: [current] is the counter as stored after the call, for the user
    the token verifies to, [limit] is that user's monthly limit, and
    [remaining] is -1 for the unlimited sentinel and otherwise the
    difference [limit - current], floored at 0. *)
Theorem route_reply_reports_stored_usage
  (req : Reviews.Request) (c0 : Clock) (startTime : Z) (c : Clock)
  (outcome : JsError + Completion) (w : World)
  (text : string) (tokens : Z) (cost : Q) (duration : Z) (lang tone : string)
  (current limit remaining : Z) :
  fst (route req c0 startTime c outcome w)
    = inr (Reviews.respond 200
             (Reviews.Generated text tokens cost duration lang tone
                current limit remaining)) ->
  exists token uid u,
    bearerToken (Reviews.authorization req) = Some token
    /\ jwt_verify token JWT_SECRET = inr uid
    /\ users (db w) !! uid = Some u
    /\ limit = monthlyLimit u
    /\ usage (db (snd (route req c0 startTime c outcome w))) !! (uid, month c, year c)
       = Some current
    /\ ((limit = -1 /\ remaining = -1)
        \/ (limit <> -1 /\ 0 <= remaining /\ remaining = Z.max 0 (limit - current))).
Proof.
  unfold Reviews.postGenerate, mbind, M_bind, mret, M_ret.
  destruct (authenticateAndCheckUsage_effect jwt_verify JWT_SECRET req c0 w) as ([g Hg] & Hdb & _).
  destruct (Reviews.authenticateAndCheckUsage jwt_verify JWT_SECRET req c0 w)
    as [[e|[resp|s]] w1] eqn:Hgate; cbn [fst snd] in *; try discriminate.
  - intros [= ->].
    pose proof (authenticateAndCheckUsage_rejected jwt_verify JWT_SECRET req c0 w
                  (Reviews.respond 200
                     (Reviews.Generated text tokens cost duration lang tone
                        current limit remaining))) as Hrej.
    rewrite Hgate in Hrej.
    destruct (Hrej eq_refl) as [H | (_ & _ & _ & _ & _ & _ & [[H _] | [H _]])];
      discriminate.
  - pose proof (authenticateAndCheckUsage_passed jwt_verify JWT_SECRET req c0 w s) as Hpass.
    rewrite Hgate in Hpass.
    destruct (Hpass eq_refl) as (token & Htok & _ & Hver & Hu & _).
    destruct (generate_outcomes s (Reviews.body req) startTime c outcome w1)
      as [(error & [H|H] & _) | (tokens' & cost' & row & H & (_ & Husage & _) & _)];
      rewrite H; intros [= ]; subst.
    exists token, (Reviews.user_id s), (Reviews.user s).
    repeat split; try assumption.
    + rewrite Husage. apply lookup_insert_eq.
    + destruct (Z.eqb_spec (monthlyLimit (Reviews.user s)) (-1)) as [Heq|Hneq].
      * left. split; [exact Heq | reflexivity].
      * right. split; [exact Hneq|]. split; [lia | reflexivity].
Qed.

(** X7. The first request of a period, by an active user with a valid
    subscription and a store that answers, when the period has no usage row
    yet. With monthly limit 0 the gate answers 429 (current 0, limit 0) and
    no row is created. With a positive or unlimited limit the gate passes
    the request with a count of 0, and the generation that follows (valid
    body, same period) replies 200 and creates the row with a count of 1. *)
Theorem first_request_of_period
  (req : Reviews.Request) (c0 c : Clock) (startTime : Z)
  (outcome : JsError + Completion) (w : World) (token uid : string) (u : User) :
  bearerToken (Reviews.authorization req) = Some token ->
  token <> "" ->
  jwt_verify token JWT_SECRET = inr uid ->
  users (db w) !! uid = Some u ->
  faults w = [] ->
  isActive u = true ->
  Reviews.isSubscriptionActive u c0 = true ->
  usage (db w) !! (uid, month c0, year c0) = None ->
  let r := route req c0 startTime c outcome w in
  (monthlyLimit u = 0 ->
     fst r = inr (Reviews.respond 429 (Reviews.LimitReached 0 0 (firstOfNextMonth c0)))
     /\ db (snd r) = db w)
  /\ (monthlyLimit u = -1 \/ 0 < monthlyLimit u ->
        fst (Reviews.authenticateAndCheckUsage jwt_verify JWT_SECRET req c0 w)
          = inr (inr (Reviews.mkSession uid u 0))
        /\ (Reviews.generateValidation (Reviews.body req) = true ->
            month c = month c0 -> year c = year c0 ->
            exists resp,
              fst r = inr resp
              /\ Reviews.status resp = 200
              /\ usage (db (snd r)) !! (uid, month c0, year c0) = Some 1)).
Proof.
  intros Htok Hne Hver Hu Hf Hact Hsub Hk r.
  pose proof (authenticateAndCheckUsage_resolved jwt_verify JWT_SECRET
                req c0 w token uid u Htok Hne Hver Hu Hf) as Hmw.
  rewrite Hact, Hsub, Hk in Hmw. cbn [negb orZero] in Hmw. cbv zeta in Hmw.
  subst r. unfold Reviews.postGenerate, mbind, M_bind.
  split; intros Hlim.
  - unfold Reviews.limitReached in Hmw. rewrite Hlim in Hmw. cbn in Hmw.
    rewrite Hmw. split; reflexivity.
  - assert (Hgate : Reviews.limitReached u 0 = false).
    { unfold Reviews.limitReached. destruct Hlim as [-> | Hpos]; [reflexivity|].
      destruct (Z.eqb_spec (monthlyLimit u) (-1)); [reflexivity|]. cbn.
      apply Z.leb_gt. exact Hpos. }
    rewrite Hgate in Hmw. rewrite Hmw. split; [reflexivity|].
    intros Hvalid Hm Hy.
    set (w1 := {| db := db w; faults := []; trace := _ |}).
    destruct (generate_commits (Reviews.mkSession uid u 0) (Reviews.body req)
                startTime c outcome w1 Hvalid eq_refl)
      as (row & Hresp & (_ & Husage & _) & _).
    cbn [Reviews.user_id] in Husage. rewrite Hm, Hy in Husage.
    eexists. split; [exact Hresp|]. split; [reflexivity|].
    rewrite Husage, lookup_insert_eq. unfold upserted. subst w1. cbn [db].
    rewrite Hk. reflexivity.
Qed.

End RouteProperties2.

(** X8. A body the validators reject (a review shorter than 10 or longer
    than 5000 characters, a tone outside the four, a language outside the
    six) is answered 400 by the handler of routes/reviews.js without a call
    to the store: no quota is consumed and nothing is logged, whatever the
    provider would have answered. *)
Theorem invalid_body_consumes_nothing (s : Reviews.Session) (b : Reviews.GenerateBody)
  (startTime : Z) (c : Clock) (outcome : JsError + Completion) (w : World) :
  (String.length (Reviews.reviewText b) < 10)%nat
  \/ (5000 < String.length (Reviews.reviewText b))%nat
  \/ Reviews.tone b ∉ Reviews.tones
  \/ (exists l, Reviews.language b = Some l /\ l ∉ Reviews.languages) ->
  Reviews.generate s b startTime c outcome w
  = (inr (Reviews.respond 400 (Reviews.Failure "Invalid input" None)), w).
Proof.
  intros Hbad.
  assert (Hvalid : Reviews.generateValidation b = false).
  { unfold Reviews.generateValidation.
    destruct Hbad as [H | [H | [H | (l & Hl & H)]]].
    - replace (10 <=? Z.of_nat (String.length (Reviews.reviewText b))) with false
        by (symmetry; apply Z.leb_gt; lia). reflexivity.
    - replace (Z.of_nat (String.length (Reviews.reviewText b)) <=? 5000) with false
        by (symmetry; apply Z.leb_gt; lia). rewrite andb_false_r. reflexivity.
    - rewrite (bool_decide_eq_false_2 _ H). rewrite andb_false_r. reflexivity.
    - rewrite Hl, (bool_decide_eq_false_2 _ H). apply andb_false_r. }
  unfold Reviews.generate, tryCatch. rewrite Hvalid. reflexivity.
Qed.

Lemma invalid_body_consumes_nothing_witness :
  let short := Reviews.mkBody "Too short" "friendly" None None in
  (String.length (Reviews.reviewText short) < 10)%nat
  /\ Reviews.generate (Reviews.mkSession "u_alice" Sample.alice 3) short 1000
       Sample.may_later (inr Sample.completion) (Sample.world 3 [])
     = (inr (Reviews.respond 400 (Reviews.Failure "Invalid input" None)),
        Sample.world 3 []).
Proof.
  cbv zeta. split; [cbn; lia|].
  apply invalid_body_consumes_nothing. left. cbn. lia.
Defined.

Lemma route_reply_reports_stored_usage_witness :
  let r := Reviews.postGenerate Sample.jwt_verify Sample.secret
             (Sample.request "tok_u_alice") Sample.may 1000 Sample.may_later
             (inr Sample.completion) (Sample.world 3 []) in
  fst r = inr (Reviews.respond 200
                 (Reviews.Generated (content Sample.completion) 180
                    (estimateCost Sample.completion) 600 "ro" "apologetic" 4 10 6))
  /\ usage (db (snd r)) !! ("u_alice", 4, 2025) = Some 4.
Proof.
  cbv zeta. split; [reflexivity|].
  destruct (route_reply_reports_stored_usage Sample.jwt_verify Sample.secret
              (Sample.request "tok_u_alice") Sample.may 1000 Sample.may_later
              (inr Sample.completion) (Sample.world 3 [])
              (content Sample.completion) 180 (estimateCost Sample.completion) 600
              "ro" "apologetic" 4 10 6 eq_refl)
    as (token & uid & u & Htok & Hver & _ & _ & Husage & _).
  injection Htok as <-. injection Hver as <-. exact Husage.
Defined.

Lemma first_request_of_period_witness :
  let june := {| now := 2000; month := 5; year := 2025 |} in
  let r := Reviews.postGenerate Sample.jwt_verify Sample.secret
             (Sample.request "tok_u_alice") june 2000 june
             (inl Sample.timeout) (Sample.world 3 []) in
  usage (Sample.store 3) !! ("u_alice", 5, 2025) = None
  /\ exists resp,
       fst r = inr resp /\ Reviews.status resp = 200
       /\ usage (db (snd r)) !! ("u_alice", 5, 2025) = Some 1.
Proof.
  cbv zeta. split; [reflexivity|].
  apply (proj2 (first_request_of_period Sample.jwt_verify Sample.secret
                  (Sample.request "tok_u_alice") {| now := 2000; month := 5; year := 2025 |}
                  {| now := 2000; month := 5; year := 2025 |} 2000 (inl Sample.timeout)
                  (Sample.world 3 []) "tok_u_alice" "u_alice" Sample.alice
                  eq_refl ltac:(discriminate) eq_refl eq_refl eq_refl eq_refl eq_refl
                  eq_refl));
    first [reflexivity | right; reflexivity].
Defined.

(** ** The webhook: what each event does and what no event does *)

Section WebhookEffects.

Variable constructEvent : string -> option string -> string -> JsError + Subscriptions.Event.
Variable STRIPE_WEBHOOK_SECRET : string.
Variable subscriptions_retrieve : string -> JsError + Subscriptions.StripeSubscription.
Variable customers_retrieve : string -> JsError + Subscriptions.StripeCustomer.

Local Abbreviation webhook :=
  (Subscriptions.webhook constructEvent STRIPE_WEBHOOK_SECRET
     subscriptions_retrieve customers_retrieve).
Local Abbreviation dispatch :=
  (Subscriptions.dispatch subscriptions_retrieve customers_retrieve).

(** One event changes at most one row of the user table, and in it only
    the subscription columns. *)
Lemma dispatch_effect (c : Clock) (event : Subscriptions.Event) (w : World) :
  db (snd (dispatch c event w)) = db w
  \/ exists uid u u',
       users (db w) !! uid = Some u
       /\ sameAccount u u'
       /\ db (snd (dispatch c event w))
          = Prisma.setUsers (<[uid := u']> (users (db w))) (db w).
Proof.
  unfold Subscriptions.dispatch, Subscriptions.handleCheckoutCompleted,
    Subscriptions.handlePaymentSucceeded, Subscriptions.handlePaymentFailed,
    Subscriptions.handleSubscriptionUpdated, Subscriptions.handleSubscriptionDeleted,
    mbind, M_bind, Subscriptions.retrieveSubscription, Subscriptions.retrieveCustomer,
    Subscriptions.stripeCall, Prisma.user_findFirst, Prisma.user_update, Prisma.call.
  destruct event as [session | invoice | invoice | sub | sub | type];
    try (destruct (truthy (Subscriptions.invoice_subscription invoice));
         [| left; reflexivity]);
    cbn [db faults trace];
    try (destruct (subscriptions_retrieve _) as [e|sub]; [left; reflexivity|]);
    cbn [db faults trace];
    try (destruct (customers_retrieve _) as [e'|customer]; [left; reflexivity|]);
    cbn [db faults trace];
    try (left; reflexivity).
  all: destruct (faults w) as [|[msg|] [|[msg'|] rest]]; cbn; try (left; reflexivity);
    try (destruct (Prisma.firstByCustomer _ _) as [[uid u0]|]; cbn;
         try (left; reflexivity));
    try (destruct (users (db w) !! _) as [u|] eqn:Hu; cbn;
         first [ left; reflexivity
               | right; do 3 eexists; split; [exact Hu|]; split; [| reflexivity];
                 repeat split; reflexivity ]).
Qed.

(** X9. What no webhook request does, whatever the event, the signature
    and the fault schedule: it never touches the usage counters or the audit
    log, never adds or removes a user, and never changes a user's email,
    names, active flag, provider customer id or monthly limit. In
    particular no event, a completed checkout included, raises the monthly
    limit the quota gate of routes/reviews.js reads. *)
Theorem webhook_preserves_accounts_and_quota
  (req : Subscriptions.WebhookRequest) (c : Clock) (w : World) :
  let w' := snd (webhook req c w) in
  usage (db w') = usage (db w)
  /\ apiCalls (db w') = apiCalls (db w)
  /\ dom (users (db w')) = dom (users (db w))
  /\ (forall uid u', users (db w') !! uid = Some u' ->
        exists u, users (db w) !! uid = Some u /\ sameAccount u u').
Proof.
  cbv zeta. unfold Subscriptions.webhook.
  destruct (constructEvent _ _ _) as [err|event].
  { cbn. repeat split; try reflexivity. intros uid u' Hu'. exists u'.
    split; [exact Hu' | repeat split; reflexivity]. }
  unfold tryCatch, mbind, M_bind.
  pose proof (dispatch_effect c event w) as Heff.
  set (r := dispatch c event w) in *.
  match goal with
  | |- context [usage (db (snd ?t))] =>
      assert (Hdb : db (snd t) = db (snd r))
        by (destruct r as [[e|a] w1]; reflexivity)
  end.
  rewrite Hdb.
  destruct Heff as [Heq | (uid & u & u' & Hu & Hsame & Heq)]; rewrite Heq.
  - repeat split; try reflexivity. intros uid0 u0 Hu0. exists u0.
    split; [exact Hu0 | repeat split; reflexivity].
  - cbn [Prisma.setUsers users usage apiCalls].
    split; [reflexivity|]. split; [reflexivity|]. split.
    + apply dom_insert_lookup_L. eauto.
    + intros uid0 u0 Hu0. destruct (decide (uid = uid0)) as [Hsame0|Hne].
      * subst uid0. rewrite lookup_insert_eq in Hu0. exists u.
        split; [exact Hu|]. assert (E : u0 = u') by congruence.
        rewrite E. exact Hsame.
      * rewrite lookup_insert_ne in Hu0 by exact Hne. exists u0.
        split; [exact Hu0 | repeat split; reflexivity].
Qed.

End WebhookEffects.

Lemma firstByCustomer_None (customer : string) (us : gmap string User) :
  (forall uid u, us !! uid = Some u -> stripeCustomerId u <> Some customer) ->
  Prisma.firstByCustomer customer us = None.
Proof.
  intros Hnone. destruct (Prisma.firstByCustomer customer us) as [[uid u]|] eqn:Hfind;
    [| reflexivity].
  destruct (firstByCustomer_Some _ _ _ _ Hfind) as [Hu Hc].
  exfalso. exact (Hnone uid u Hu Hc).
Qed.

Section WebhookEvents.

Variable constructEvent : string -> option string -> string -> JsError + Subscriptions.Event.
Variable STRIPE_WEBHOOK_SECRET : string.
Variable subscriptions_retrieve : string -> JsError + Subscriptions.StripeSubscription.
Variable customers_retrieve : string -> JsError + Subscriptions.StripeCustomer.

Local Abbreviation webhook :=
  (Subscriptions.webhook constructEvent STRIPE_WEBHOOK_SECRET
     subscriptions_retrieve customers_retrieve).

(** X10. A checkout-completed event whose subscription the provider
    returns, for a stored user and with a store that answers: the event is
    acknowledged and the user's row gets the purchased plan, status active,
    the subscription's period end (in milliseconds) as expiry and the
    subscription's id; the other columns, the monthly limit among them, and
    the other users are as before. *)
Theorem checkout_completed_activates_plan
  (req : Subscriptions.WebhookRequest) (c : Clock) (w : World)
  (session : Subscriptions.CheckoutSession) (sub : Subscriptions.StripeSubscription)
  (u : User) :
  constructEvent (Subscriptions.rawBody req) (Subscriptions.stripe_signature req)
    STRIPE_WEBHOOK_SECRET = inr (Subscriptions.CheckoutSessionCompleted session) ->
  subscriptions_retrieve (Subscriptions.session_subscription session) = inr sub ->
  users (db w) !! Subscriptions.metadata_userId session = Some u ->
  faults w = [] ->
  let r := webhook req c w in
  fst r = inr Subscriptions.Received
  /\ (exists u',
        users (db (snd r)) !! Subscriptions.metadata_userId session = Some u'
        /\ subscriptionPlan u' = Subscriptions.metadata_planId session
        /\ subscriptionStatus u' = "active"
        /\ subscriptionExpiresAt u' = Some (Subscriptions.current_period_end sub * 1000)
        /\ stripeSubscriptionId u' = Some (Subscriptions.sub_id sub)
        /\ sameAccount u u')
  /\ (forall other, other <> Subscriptions.metadata_userId session ->
        users (db (snd r)) !! other = users (db w) !! other).
Proof.
  intros Hsig Hsub Hu Hf r. subst r.
  unfold Subscriptions.webhook. rewrite Hsig.
  unfold tryCatch, Subscriptions.dispatch, Subscriptions.handleCheckoutCompleted,
    mbind, M_bind, Subscriptions.retrieveSubscription, Subscriptions.stripeCall,
    Prisma.user_update, Prisma.call.
  rewrite Hsub. cbn [db faults trace]. rewrite Hf, Hu.
  cbn [fst snd db users mret M_ret Prisma.setUsers].
  split; [reflexivity|]. split.
  - rewrite lookup_insert_eq. eexists. split; [reflexivity|].
    repeat split; reflexivity.
  - intros other Hother. apply lookup_insert_ne. congruence.
Qed.

(** X11. A checkout-completed event that cannot be applied, because the
    provider does not return the subscription or because the user id in the
    session's metadata is not a stored user, is answered 500 (so that the
    provider retries) and leaves the tables as they were, under every fault
    schedule. *)
Theorem checkout_completed_failure_changes_nothing
  (req : Subscriptions.WebhookRequest) (c : Clock) (w : World)
  (session : Subscriptions.CheckoutSession) :
  constructEvent (Subscriptions.rawBody req) (Subscriptions.stripe_signature req)
    STRIPE_WEBHOOK_SECRET = inr (Subscriptions.CheckoutSessionCompleted session) ->
  (exists e, subscriptions_retrieve (Subscriptions.session_subscription session) = inl e)
  \/ users (db w) !! Subscriptions.metadata_userId session = None ->
  fst (webhook req c w) = inr Subscriptions.ProcessingFailed
  /\ db (snd (webhook req c w)) = db w.
Proof.
  intros Hsig Hbad.
  unfold Subscriptions.webhook. rewrite Hsig.
  unfold tryCatch, Subscriptions.dispatch, Subscriptions.handleCheckoutCompleted,
    mbind, M_bind, Subscriptions.retrieveSubscription, Subscriptions.stripeCall,
    Prisma.user_update, Prisma.call.
  destruct Hbad as [[e He] | Hu].
  - rewrite He. split; reflexivity.
  - destruct (subscriptions_retrieve _) as [e|sub]; [split; reflexivity|].
    cbn [db faults trace]. rewrite Hu.
    destruct (faults w) as [|[msg|] rest]; split; reflexivity.
Qed.

(** X12. An invoice-payment-succeeded event whose subscription's customer
    resolves to the stored user [uid], with a store that answers: the event
    is acknowledged, the user's status becomes active and the expiry the
    subscription's period end (in milliseconds); the plan, the provider
    subscription id, the other columns and the other users are as before. *)
Theorem payment_succeeded_renews
  (req : Subscriptions.WebhookRequest) (c : Clock) (w : World)
  (invoice : Subscriptions.Invoice) (sid : string)
  (sub : Subscriptions.StripeSubscription) (customer : Subscriptions.StripeCustomer)
  (uid : string) (u : User) :
  constructEvent (Subscriptions.rawBody req) (Subscriptions.stripe_signature req)
    STRIPE_WEBHOOK_SECRET = inr (Subscriptions.InvoicePaymentSucceeded invoice) ->
  Subscriptions.invoice_subscription invoice = Some sid ->
  sid <> "" ->
  subscriptions_retrieve sid = inr sub ->
  customers_retrieve (Subscriptions.sub_customer sub) = inr customer ->
  Prisma.firstByCustomer (Subscriptions.customer_id customer) (users (db w))
    = Some (uid, u) ->
  faults w = [] ->
  let r := webhook req c w in
  fst r = inr Subscriptions.Received
  /\ (exists u',
        users (db (snd r)) !! uid = Some u'
        /\ subscriptionStatus u' = "active"
        /\ subscriptionExpiresAt u' = Some (Subscriptions.current_period_end sub * 1000)
        /\ subscriptionPlan u' = subscriptionPlan u
        /\ stripeSubscriptionId u' = stripeSubscriptionId u
        /\ sameAccount u u')
  /\ (forall other, other <> uid -> users (db (snd r)) !! other = users (db w) !! other).
Proof.
  intros Hsig Hinv Hne Hsub Hcus Hfind Hf r.
  assert (Hrun : exists t,
             r = (inr Subscriptions.Received,
                  {| db := Prisma.setUsers
                             (<[uid := Subscriptions.statusData "active"
                                         (Subscriptions.periodEnd sub) u]> (users (db w)))
                             (db w);
                     faults := []; trace := t |})).
  { subst r. unfold Subscriptions.webhook. rewrite Hsig.
    unfold tryCatch, Subscriptions.dispatch, Subscriptions.handlePaymentSucceeded.
    rewrite Hinv, (truthy_token sid Hne). cbn [default from_option id].
    unfold mbind at 1 2 3. unfold M_bind at 1 2 3.
    unfold Subscriptions.retrieveSubscription, Subscriptions.retrieveCustomer,
      Subscriptions.stripeCall.
    rewrite Hsub, Hcus.
    set (w1 := {| db := db w; faults := faults w; trace := _ |}).
    set (w2 := {| db := db w1; faults := faults w1; trace := _ |}).
    rewrite (resolve_then_update _
               (Subscriptions.statusData "active" (Subscriptions.periodEnd sub))
               w2 uid u Hfind Hf).
    eexists. reflexivity. }
  destruct Hrun as [t ->].
  cbn [fst snd db users usage apiCalls Prisma.setUsers].
  split; [reflexivity|]. split.
  - rewrite lookup_insert_eq. eexists. split; [reflexivity|].
    repeat split; reflexivity.
  - intros other Hother. apply lookup_insert_ne. congruence.
Qed.

(** X13. A subscription-updated event whose customer resolves to the
    stored user [uid], with a store that answers: the local status is
    cancelled when the provider reports cancel-at-period-end, whatever the
    provider's own status string, and otherwise mirrors that string; the
    expiry becomes the reported period end; the plan and the stored
    subscription id are not touched. *)
Theorem subscription_updated_mirrors_status
  (req : Subscriptions.WebhookRequest) (c : Clock) (w : World)
  (sub : Subscriptions.StripeSubscription) (customer : Subscriptions.StripeCustomer)
  (uid : string) (u : User) :
  constructEvent (Subscriptions.rawBody req) (Subscriptions.stripe_signature req)
    STRIPE_WEBHOOK_SECRET = inr (Subscriptions.CustomerSubscriptionUpdated sub) ->
  customers_retrieve (Subscriptions.sub_customer sub) = inr customer ->
  Prisma.firstByCustomer (Subscriptions.customer_id customer) (users (db w))
    = Some (uid, u) ->
  faults w = [] ->
  let r := webhook req c w in
  fst r = inr Subscriptions.Received
  /\ (exists u',
        users (db (snd r)) !! uid = Some u'
        /\ (Subscriptions.cancel_at_period_end sub = true ->
            subscriptionStatus u' = "cancelled")
        /\ (Subscriptions.cancel_at_period_end sub = false ->
            subscriptionStatus u' = Subscriptions.sub_status sub)
        /\ subscriptionExpiresAt u' = Some (Subscriptions.current_period_end sub * 1000)
        /\ subscriptionPlan u' = subscriptionPlan u
        /\ stripeSubscriptionId u' = stripeSubscriptionId u
        /\ sameAccount u u')
  /\ (forall other, other <> uid -> users (db (snd r)) !! other = users (db w) !! other).
Proof.
  intros Hsig Hcus Hfind Hf r.
  assert (Hrun : exists t,
             r = (inr Subscriptions.Received,
                  {| db := Prisma.setUsers
                             (<[uid := Subscriptions.statusData
                                         (if Subscriptions.cancel_at_period_end sub
                                          then "cancelled"
                                          else Subscriptions.sub_status sub)
                                         (Subscriptions.periodEnd sub) u]> (users (db w)))
                             (db w);
                     faults := []; trace := t |})).
  { subst r. unfold Subscriptions.webhook. rewrite Hsig.
    unfold tryCatch, Subscriptions.dispatch, Subscriptions.handleSubscriptionUpdated.
    unfold mbind at 1 2. unfold M_bind at 1 2.
    unfold Subscriptions.retrieveCustomer, Subscriptions.stripeCall.
    rewrite Hcus.
    set (w1 := {| db := db w; faults := faults w; trace := _ |}).
    rewrite (resolve_then_update _ _ w1 uid u Hfind Hf).
    eexists. reflexivity. }
  destruct Hrun as [t ->].
  cbn [fst snd db users usage apiCalls Prisma.setUsers].
  split; [reflexivity|]. split.
  - rewrite lookup_insert_eq. eexists. split; [reflexivity|].
    split; [intros ->; reflexivity|]. split; [intros ->; reflexivity|].
    repeat split; reflexivity.
  - intros other Hother. apply lookup_insert_ne. congruence.
Qed.

(** X14. Lookups by provider customer id fail soft: when an invoice or
    subscription event resolves to a customer id that no stored user
    carries, the event is acknowledged and the tables are as before (store
    answering). *)
Theorem unknown_customer_is_acknowledged
  (req : Subscriptions.WebhookRequest) (c : Clock) (w : World)
  (event : Subscriptions.Event) (customer : string) :
  constructEvent (Subscriptions.rawBody req) (Subscriptions.stripe_signature req)
    STRIPE_WEBHOOK_SECRET = inr event ->
  eventCustomer subscriptions_retrieve customers_retrieve event = Some customer ->
  (forall uid u, users (db w) !! uid = Some u -> stripeCustomerId u <> Some customer) ->
  faults w = [] ->
  fst (webhook req c w) = inr Subscriptions.Received
  /\ db (snd (webhook req c w)) = db w.
Proof.
  intros Hsig Hcust Hnone Hf.
  apply firstByCustomer_None in Hnone.
  unfold Subscriptions.webhook. rewrite Hsig.
  unfold tryCatch, Subscriptions.dispatch, Subscriptions.handlePaymentSucceeded,
    Subscriptions.handlePaymentFailed, Subscriptions.handleSubscriptionUpdated,
    Subscriptions.handleSubscriptionDeleted,
    mbind, M_bind, Subscriptions.retrieveSubscription, Subscriptions.retrieveCustomer,
    Subscriptions.stripeCall, Prisma.user_findFirst, Prisma.call.
  unfold eventCustomer in Hcust.
  destruct event as [session | invoice | invoice | sub | sub | type];
    try discriminate;
    try (destruct (truthy (Subscriptions.invoice_subscription invoice)); [| discriminate];
         destruct (subscriptions_retrieve _) as [e|sub]; [discriminate|]);
    (destruct (customers_retrieve _) as [e'|cust]; [discriminate|];
     injection Hcust as Hcust; rewrite Hcust;
     cbn [db faults trace]; rewrite Hf; cbn [fst snd db]; rewrite Hnone;
     split; reflexivity).
Qed.

(** X15. An event of a type the webhook does not act on, and an invoice
    event whose invoice names no subscription, are acknowledged without any
    call to the provider or to the store: the world is left as it was. *)
Theorem ignored_events_are_acknowledged
  (req : Subscriptions.WebhookRequest) (c : Clock) (w : World)
  (event : Subscriptions.Event) :
  constructEvent (Subscriptions.rawBody req) (Subscriptions.stripe_signature req)
    STRIPE_WEBHOOK_SECRET = inr event ->
  (exists type, event = Subscriptions.Unhandled type)
  \/ (exists invoice,
        (event = Subscriptions.InvoicePaymentSucceeded invoice
         \/ event = Subscriptions.InvoicePaymentFailed invoice)
        /\ truthy (Subscriptions.invoice_subscription invoice) = false) ->
  webhook req c w = (inr Subscriptions.Received, w).
Proof.
  intros Hsig Hignored.
  unfold Subscriptions.webhook. rewrite Hsig.
  unfold tryCatch, Subscriptions.dispatch, Subscriptions.handlePaymentSucceeded,
    Subscriptions.handlePaymentFailed, mbind, M_bind.
  destruct Hignored as [[type ->] | (invoice & [-> | ->] & Hfalsy)];
    rewrite ?Hfalsy; reflexivity.
Qed.

End WebhookEvents.

Lemma checkout_completed_activates_plan_witness :
  let r := Scenario.webhook "checkout" (Sample.world 9 []) in
  users (Sample.store 9) !! "u_alice" = Some Sample.alice
  /\ fst r = inr Subscriptions.Received
  /\ exists u',
       users (db (snd r)) !! "u_alice" = Some u'
       /\ subscriptionPlan u' = "basic"
       /\ subscriptionStatus u' = "active"
       /\ subscriptionExpiresAt u' = Some 2000000
       /\ stripeSubscriptionId u' = Some "sub_bob"
       /\ monthlyLimit u' = 10.
Proof.
  cbv zeta. split; [reflexivity|].
  destruct (checkout_completed_activates_plan Scenario.constructEvent Sample.whsec
              Sample.subscriptions_retrieve Sample.customers_retrieve
              (Subscriptions.mkWebhook "checkout" (Some "good")) Sample.may
              (Sample.world 9 []) Sample.checkout Sample.bobSubscription Sample.alice
              eq_refl eq_refl eq_refl eq_refl)
    as (Hresp & (u' & Hu' & Hplan & Hst & Hexp & Hsub & Hsame) & _).
  split; [exact Hresp|]. exists u'.
  repeat split; try assumption. apply Hsame.
Defined.

Lemma checkout_completed_failure_changes_nothing_witness :
  users (Sample.store 9) !! "u_ghost" = None
  /\ fst (Scenario.webhook "ghost" (Sample.world 9 [])) = inr Subscriptions.ProcessingFailed
  /\ db (snd (Scenario.webhook "ghost" (Sample.world 9 []))) = Sample.store 9.
Proof.
  split; [reflexivity|].
  apply (checkout_completed_failure_changes_nothing Scenario.constructEvent Sample.whsec
           Sample.subscriptions_retrieve Sample.customers_retrieve
           (Subscriptions.mkWebhook "ghost" (Some "good")) Sample.may
           (Sample.world 9 []) Scenario.ghostCheckout eq_refl).
  right. reflexivity.
Defined.

Lemma payment_succeeded_renews_witness :
  let r := Scenario.webhook "succeeded" (Sample.world 9 []) in
  Prisma.firstByCustomer "cus_bob" (users (Sample.store 9)) = Some ("u_bob", Sample.bob)
  /\ fst r = inr Subscriptions.Received
  /\ exists u',
       users (db (snd r)) !! "u_bob" = Some u'
       /\ subscriptionStatus u' = "active"
       /\ subscriptionExpiresAt u' = Some 2000000
       /\ subscriptionPlan u' = "basic".
Proof.
  cbv zeta. split; [reflexivity|].
  destruct (payment_succeeded_renews Scenario.constructEvent Sample.whsec
              Sample.subscriptions_retrieve Sample.customers_retrieve
              (Subscriptions.mkWebhook "succeeded" (Some "good")) Sample.may
              (Sample.world 9 []) (Subscriptions.mkInvoice (Some "sub_bob")) "sub_bob"
              Sample.bobSubscription (Subscriptions.mkCustomer "cus_bob")
              "u_bob" Sample.bob eq_refl eq_refl ltac:(discriminate) eq_refl eq_refl
              eq_refl eq_refl)
    as (Hresp & (u' & Hu' & Hst & Hexp & Hplan & _) & _).
  split; [exact Hresp|]. exists u'. repeat split; assumption.
Defined.

Lemma subscription_updated_mirrors_status_witness :
  let r := Scenario.webhook "updated" (Sample.world 9 []) in
  Subscriptions.sub_status Scenario.bobCancelling = "active"
  /\ Subscriptions.cancel_at_period_end Scenario.bobCancelling = true
  /\ fst r = inr Subscriptions.Received
  /\ exists u',
       users (db (snd r)) !! "u_bob" = Some u'
       /\ subscriptionStatus u' = "cancelled"
       /\ subscriptionPlan u' = "basic".
Proof.
  cbv zeta. split; [reflexivity|]. split; [reflexivity|].
  destruct (subscription_updated_mirrors_status Scenario.constructEvent Sample.whsec
              Sample.subscriptions_retrieve Sample.customers_retrieve
              (Subscriptions.mkWebhook "updated" (Some "good")) Sample.may
              (Sample.world 9 []) Scenario.bobCancelling (Subscriptions.mkCustomer "cus_bob")
              "u_bob" Sample.bob eq_refl eq_refl eq_refl eq_refl)
    as (Hresp & (u' & Hu' & Hcancel & _ & _ & Hplan & _) & _).
  split; [exact Hresp|]. exists u'.
  split; [exact Hu'|]. split; [apply Hcancel; reflexivity | exact Hplan].
Defined.

Lemma unknown_customer_is_acknowledged_witness :
  eventCustomer Sample.subscriptions_retrieve Sample.customers_retrieve
    (Subscriptions.CustomerSubscriptionDeleted Scenario.stray) = Some "cus_stray"
  /\ fst (Scenario.webhook "stray" (Sample.world 9 [])) = inr Subscriptions.Received
  /\ db (snd (Scenario.webhook "stray" (Sample.world 9 []))) = Sample.store 9.
Proof.
  split; [reflexivity|].
  apply (unknown_customer_is_acknowledged Scenario.constructEvent Sample.whsec
           Sample.subscriptions_retrieve Sample.customers_retrieve
           (Subscriptions.mkWebhook "stray" (Some "good")) Sample.may
           (Sample.world 9 []) (Subscriptions.CustomerSubscriptionDeleted Scenario.stray)
           "cus_stray" eq_refl eq_refl);
    [| reflexivity].
  intros uid u Hu.
  refine (bool_decide_unpack
            (map_Forall (fun _ (v : User) => stripeCustomerId v <> Some "cus_stray")
               (users (Sample.store 9))) _ uid u Hu).
  vm_compute. exact I.
Defined.

Lemma ignored_events_are_acknowledged_witness :
  Scenario.webhook "customer.created" (Sample.world 9 [])
    = (inr Subscriptions.Received, Sample.world 9 [])
  /\ Scenario.webhook "one-off" (Sample.world 9 [])
     = (inr Subscriptions.Received, Sample.world 9 []).
Proof.
  split.
  - apply (ignored_events_are_acknowledged Scenario.constructEvent Sample.whsec
             Sample.subscriptions_retrieve Sample.customers_retrieve
             (Subscriptions.mkWebhook "customer.created" (Some "good")) Sample.may
             (Sample.world 9 []) (Subscriptions.Unhandled "customer.created") eq_refl).
    left. eexists. reflexivity.
  - apply (ignored_events_are_acknowledged Scenario.constructEvent Sample.whsec
             Sample.subscriptions_retrieve Sample.customers_retrieve
             (Subscriptions.mkWebhook "one-off" (Some "good")) Sample.may
             (Sample.world 9 [])
             (Subscriptions.InvoicePaymentFailed (Subscriptions.mkInvoice None)) eq_refl).
    right. eexists. split; [right; reflexivity | reflexivity].
Defined.

(** ** The older generation route: failures, plans and expiry *)

(** X16. On the older generation route a provider error is surfaced to the
    caller by kind (503 for insufficient_quota, 429 for rate_limit_exceeded,
    500 otherwise) under every fault schedule, and the request is not
    counted: the usage counters are as before. The failure is logged as one
    audit row with success false, the provider's message, no tokens and no
    cost; when the store fails to write that row the failure of the log is
    swallowed and the reply is the same. *)
Theorem legacy_provider_failure_is_typed_and_uncounted
  (s : Legacy.Session) (b : Legacy.GenerateBody) (startTime : Z) (c : Clock)
  (e : JsError) (w : World) :
  Legacy.generateValidation b = true ->
  let r := Legacy.generate s b startTime c (inl e) w in
  fst r = inr (legacyFailureReply e)
  /\ usage (db (snd r)) = usage (db w)
  /\ users (db (snd r)) = users (db w)
  /\ ((exists msg rest, faults w = Some msg :: rest)
      /\ apiCalls (db (snd r)) = apiCalls (db w)
      \/ exists row,
           apiCalls (db (snd r)) = (apiCalls (db w) ++ [row])%list
           /\ call_userId row = Legacy.user_id s
           /\ call_success row = false
           /\ call_errorMessage row = Some (err_message e)
           /\ call_tokensUsed row = 0
           /\ call_cost row = 0%Q).
Proof.
  intros Hvalid. cbv zeta.
  unfold Legacy.generate, Legacy.reportFailure, legacyFailureReply, tryCatch,
    mbind, M_bind, Prisma.apiCall_create, Prisma.call.
  rewrite Hvalid. cbn [negb].
  destruct (faults w) as [|[msg|] rest] eqn:Hf; cbn;
    (split; [destruct (bool_decide (err_code e = Some "insufficient_quota"));
             [reflexivity|];
             destruct (bool_decide (err_code e = Some "rate_limit_exceeded"));
             reflexivity |]);
    (split; [destruct (bool_decide (err_code e = Some "insufficient_quota"));
             [reflexivity|];
             destruct (bool_decide (err_code e = Some "rate_limit_exceeded"));
             reflexivity |]);
    (split; [destruct (bool_decide (err_code e = Some "insufficient_quota"));
             [reflexivity|];
             destruct (bool_decide (err_code e = Some "rate_limit_exceeded"));
             reflexivity |]).
  - right. destruct (bool_decide (err_code e = Some "insufficient_quota"));
      [| destruct (bool_decide (err_code e = Some "rate_limit_exceeded"))];
      eexists; repeat split; reflexivity.
  - left. split; [eauto|].
    destruct (bool_decide (err_code e = Some "insufficient_quota"));
      [| destruct (bool_decide (err_code e = Some "rate_limit_exceeded"))];
      reflexivity.
  - right. destruct (bool_decide (err_code e = Some "insufficient_quota"));
      [| destruct (bool_decide (err_code e = Some "rate_limit_exceeded"))];
      eexists; repeat split; reflexivity.
Qed.

Lemma legacy_provider_failure_is_typed_and_uncounted_witness :
  let quota := mkError (Some "insufficient_quota") "You exceeded your current quota." in
  let r := Legacy.generate (Legacy.mkSession "u_dave" Sample.dave 3 10)
             (Legacy.body (Sample.legacyRequest "tok_u_dave")) 1000 Sample.may_later
             (inl quota) (Sample.world 3 []) in
  fst r = inr (legacyFailureReply quota)
  /\ Legacy.status (legacyFailureReply quota) = 503
  /\ usage (db (snd r)) = usage (Sample.store 3)
  /\ length (apiCalls (db (snd r))) = 1%nat.
Proof.
  cbv zeta.
  destruct (legacy_provider_failure_is_typed_and_uncounted
              (Legacy.mkSession "u_dave" Sample.dave 3 10)
              (Legacy.body (Sample.legacyRequest "tok_u_dave")) 1000 Sample.may_later
              (mkError (Some "insufficient_quota") "You exceeded your current quota.")
              (Sample.world 3 []) eq_refl)
    as (Hresp & Husage & _ & _).
  split; [exact Hresp|]. split; [reflexivity|]. split; [exact Husage | reflexivity].
Defined.

Lemma getPlanLimit_unknown (plan : string) :
  member Legacy.planLimits plan = Undefined -> Legacy.getPlanLimit plan = 0.
Proof.
  intros Hnone. unfold Legacy.getPlanLimit.
  rewrite (member_Undefined _ _ Hnone). reflexivity.
Qed.

(** X17. On the older route a user for whose plan name [planLimits[plan]]
    is undefined (the name is none of free, basic, premium and enterprise,
    nor the name of a member the table inherits from [Object.prototype])
    gets the limit 0 and is locked out: with a store that answers the plan
    check answers 429 with limit 0 at every count from 0 on, and when the
    period has no usage row yet it first creates the row with a count of
    0. *)
Theorem legacy_unknown_plan_is_locked_out
  (uid : string) (u : User) (c : Clock) (w : World) :
  member Legacy.planLimits (subscriptionPlan u) = Undefined ->
  faults w = [] ->
  let r := Legacy.checkPlanLimits uid u c w in
  let k := (uid, month c, year c) in
  (forall n, usage (db w) !! k = Some n -> 0 <= n ->
     fst r = inr (inl (Legacy.respond 429 (Legacy.LimitExceeded n 0 (subscriptionPlan u))))
     /\ db (snd r) = db w)
  /\ (usage (db w) !! k = None ->
      fst r = inr (inl (Legacy.respond 429 (Legacy.LimitExceeded 0 0 (subscriptionPlan u))))
      /\ usage (db (snd r)) = <[k := 0]> (usage (db w))).
Proof.
  intros Hplan Hf r k. subst r.
  pose proof (getPlanLimit_unknown _ Hplan) as Hlimit.
  split.
  - intros n Hk Hn.
    rewrite (checkPlanLimits_counted uid u c w n Hk Hf). cbv zeta. rewrite Hlimit.
    unfold Legacy.limitExceeded.
    replace (0 <=? n) with true by (symmetry; apply Z.leb_le; exact Hn).
    split; reflexivity.
  - intros Hk.
    unfold Legacy.checkPlanLimits, tryCatch, mbind, M_bind, Prisma.usage_findUnique,
      Prisma.usage_create, Prisma.call.
    rewrite Hf. cbn [tail fst snd db faults trace]. fold k. rewrite Hk.
    cbn [tail fst snd db faults trace]. rewrite Hk, Hlimit. split; reflexivity.
Qed.

Lemma legacy_unknown_plan_is_locked_out_witness :
  let trial := {| email := "t@x.com"; name := "Tess"; businessName := None;
                  isActive := true;
                  subscriptionPlan := "trial"; subscriptionStatus := "active";
                  subscriptionExpiresAt := Some 900000; monthlyLimit := 10;
                  stripeCustomerId := None; stripeSubscriptionId := None |} in
  let r := Legacy.checkPlanLimits "u_tess" trial Sample.may (Sample.world 3 []) in
  member Legacy.planLimits "trial" = Undefined
  /\ usage (Sample.store 3) !! ("u_tess", 4, 2025) = None
  /\ fst r = inr (inl (Legacy.respond 429 (Legacy.LimitExceeded 0 0 "trial")))
  /\ usage (db (snd r)) !! ("u_tess", 4, 2025) = Some 0.
Proof.
  cbv zeta. split; [reflexivity|]. split; [reflexivity|].
  match goal with
  | |- context [Legacy.checkPlanLimits _ ?t _ _] =>
      destruct (proj2 (legacy_unknown_plan_is_locked_out "u_tess" t Sample.may
                         (Sample.world 3 []) eq_refl eq_refl) eq_refl)
        as [Hresp Husage]
  end.
  split; [exact Hresp|]. rewrite Husage. apply lookup_insert_eq.
Defined.

Section LegacyMore.

Variable jwt_verify : string -> string -> JsError + string.
Variable JWT_SECRET : string.

(** X18. The expiry check of the older route applies to every plan: for a
    user the token resolves to, with a store that answers, the middleware
    answers 403 (subscriptionExpired) exactly when the expiry, null counting
    as the epoch, is before the current time, and otherwise hands the user
    on; at the instant of expiry itself the user is still admitted. *)
Theorem legacy_expiry_applies_to_every_plan
  (req : Legacy.Request) (c : Clock) (w : World) (token uid : string) (u : User) :
  bearerToken (Legacy.authorization req) = Some token ->
  token <> "" ->
  jwt_verify token JWT_SECRET = inr uid ->
  users (db w) !! uid = Some u ->
  faults w = [] ->
  let r := Legacy.authenticateToken jwt_verify JWT_SECRET req c w in
  (dateValue (subscriptionExpiresAt u) < now c ->
   fst r = inr (inl (Legacy.respond 403 Legacy.SubscriptionExpired)))
  /\ (now c <= dateValue (subscriptionExpiresAt u) -> fst r = inr (inr (uid, u)))
  /\ db (snd r) = db w.
Proof.
  intros Htok Hne Hver Hu Hf r. subst r.
  rewrite (authenticateToken_resolved jwt_verify JWT_SECRET req c w token uid u
             Htok Hne Hver Hu Hf).
  unfold Legacy.subscriptionExpired. cbn [fst snd db].
  split; [| split; [| reflexivity]]; intros H.
  - replace (dateValue (subscriptionExpiresAt u) <? now c) with true
      by (symmetry; apply Z.ltb_lt; exact H). reflexivity.
  - replace (dateValue (subscriptionExpiresAt u) <? now c) with false
      by (symmetry; apply Z.ltb_ge; exact H). reflexivity.
Qed.

End LegacyMore.

Lemma legacy_expiry_applies_to_every_plan_witness :
  let atExpiry := {| now := 900000; month := 4; year := 2025 |} in
  let after := {| now := 900001; month := 4; year := 2025 |} in
  let run c := Legacy.authenticateToken Sample.jwt_verify Sample.secret
                 (Sample.legacyRequest "tok_u_dave") c (Sample.world 3 []) in
  subscriptionPlan Sample.dave = "free"
  /\ fst (run atExpiry) = inr (inr ("u_dave", Sample.dave))
  /\ fst (run after) = inr (inl (Legacy.respond 403 Legacy.SubscriptionExpired)).
Proof.
  cbv zeta. split; [reflexivity|]. split.
  - apply (legacy_expiry_applies_to_every_plan Sample.jwt_verify Sample.secret
             (Sample.legacyRequest "tok_u_dave") {| now := 900000; month := 4; year := 2025 |}
             (Sample.world 3 []) "tok_u_dave" "u_dave" Sample.dave
             eq_refl ltac:(discriminate) eq_refl eq_refl eq_refl).
    cbn. lia.
  - apply (legacy_expiry_applies_to_every_plan Sample.jwt_verify Sample.secret
             (Sample.legacyRequest "tok_u_dave") {| now := 900001; month := 4; year := 2025 |}
             (Sample.world 3 []) "tok_u_dave" "u_dave" Sample.dave
             eq_refl ltac:(discriminate) eq_refl eq_refl eq_refl).
    cbn. lia.
Defined.

(** X19. On the older route the handler increments the counter with an
    update, not an upsert: when the period in which the handler runs has no
    usage row (the month changed since the plan check created or read the
    row), a generation the provider completed is answered 500, no counter
    changes, and the call is logged as a failure carrying the store's
    message, with the tokens and the cost of the completion. *)
Theorem legacy_generation_without_period_row_fails
  (s : Legacy.Session) (b : Legacy.GenerateBody) (startTime : Z) (c : Clock)
  (completion : Completion) (w : World) :
  Legacy.generateValidation b = true ->
  usage (db w) !! (Legacy.user_id s, month c, year c) = None ->
  faults w = [] ->
  let r := Legacy.generate s b startTime c (inr completion) w in
  fst r = inr (Legacy.respond 500
                 (Legacy.ProviderFailure "Eroare la generarea răspunsului" "internal_error"))
  /\ usage (db (snd r)) = usage (db w)
  /\ exists row,
       apiCalls (db (snd r)) = (apiCalls (db w) ++ [row])%list
       /\ call_success row = false
       /\ call_errorMessage row = Some "Record to update not found."
       /\ call_tokensUsed row = total_tokens completion
       /\ call_cost row = estimateCost completion.
Proof.
  intros Hvalid Hk Hf. cbv zeta.
  unfold Legacy.generate, Legacy.reportFailure, tryCatch, mbind, M_bind,
    Prisma.usage_increment, Prisma.apiCall_create, Prisma.call.
  rewrite Hvalid. cbn [negb]. cbv beta zeta. rewrite Hf.
  cbn [tail fst snd db faults trace]. rewrite Hk.
  cbn. split; [reflexivity|]. split; [reflexivity|].
  eexists. repeat split; reflexivity.
Qed.

Lemma legacy_generation_without_period_row_fails_witness :
  let june := {| now := 2000; month := 5; year := 2025 |} in
  let r := Legacy.generate (Legacy.mkSession "u_dave" Sample.dave 3 10)
             (Legacy.body (Sample.legacyRequest "tok_u_dave")) 1000 june
             (inr Sample.completion) (Sample.world 3 []) in
  usage (Sample.store 3) !! ("u_dave", 5, 2025) = None
  /\ fst r = inr (Legacy.respond 500
                    (Legacy.ProviderFailure "Eroare la generarea răspunsului"
                       "internal_error"))
  /\ usage (db (snd r)) = usage (Sample.store 3).
Proof.
  cbv zeta. split; [reflexivity|].
  destruct (legacy_generation_without_period_row_fails
              (Legacy.mkSession "u_dave" Sample.dave 3 10)
              (Legacy.body (Sample.legacyRequest "tok_u_dave")) 1000
              {| now := 2000; month := 5; year := 2025 |}
              Sample.completion (Sample.world 3 []) eq_refl eq_refl eq_refl)
    as (Hresp & Husage & _).
  split; [exact Hresp | exact Husage].
Defined.

(** ** The bearer token *)

Lemma splitSpace_nonempty (s : string) : splitSpace s <> [].
Proof.
  destruct s as [|ch s]; cbn; [discriminate|].
  destruct (Ascii.eqb ch _); [discriminate|].
  destruct (splitSpace s); discriminate.
Qed.

Lemma splitSpace_spaceless_prefix (a b : string) :
  spaceless a = true ->
  splitSpace (a +:+ String (Ascii.ascii_of_nat 32) b) = a :: splitSpace b.
Proof.
  induction a as [|ch a IH]; intros Ha; cbn [spaceless] in Ha.
  - reflexivity.
  - apply andb_true_iff in Ha as [Hch Ha]. apply negb_true_iff in Hch.
    change (String ch a +:+ String (Ascii.ascii_of_nat 32) b)
      with (String ch (a +:+ String (Ascii.ascii_of_nat 32) b)).
    cbn [splitSpace]. rewrite Hch, (IH Ha). reflexivity.
Qed.

Lemma splitSpace_spaceless (a : string) : spaceless a = true -> splitSpace a = [a].
Proof.
  induction a as [|ch a IH]; intros Ha; cbn [spaceless] in Ha; [reflexivity|].
  apply andb_true_iff in Ha as [Hch Ha]. apply negb_true_iff in Hch.
  cbn [splitSpace]. rewrite Hch, (IH Ha). reflexivity.
Qed.

(** X20. The token the middlewares read from an Authorization header is
    its second space-separated piece: for a scheme and a token without
    spaces, [scheme token] and [scheme token more] both give the token; a
    header without any space, or with two spaces after the scheme, gives no
    usable token (the request is then answered 401). *)
Theorem bearerToken_is_second_piece (scheme token more : string) :
  spaceless scheme = true ->
  spaceless token = true ->
  let sp := String (Ascii.ascii_of_nat 32) EmptyString in
  bearerToken (Some (scheme +:+ sp +:+ token)) = Some token
  /\ bearerToken (Some (scheme +:+ sp +:+ token +:+ sp +:+ more)) = Some token
  /\ bearerToken (Some scheme) = None
  /\ truthy (bearerToken (Some (scheme +:+ sp +:+ sp +:+ token))) = false.
Proof.
  intros Hs Ht. cbv zeta. unfold bearerToken.
  repeat split.
  - change (scheme +:+ String (Ascii.ascii_of_nat 32) "" +:+ token)
      with (scheme +:+ String (Ascii.ascii_of_nat 32) token).
    rewrite (splitSpace_spaceless_prefix scheme token Hs), (splitSpace_spaceless token Ht).
    reflexivity.
  - change (scheme +:+ String (Ascii.ascii_of_nat 32) "" +:+ token
            +:+ String (Ascii.ascii_of_nat 32) "" +:+ more)
      with (scheme +:+ String (Ascii.ascii_of_nat 32)
              (token +:+ String (Ascii.ascii_of_nat 32) more)).
    rewrite (splitSpace_spaceless_prefix scheme _ Hs),
      (splitSpace_spaceless_prefix token more Ht). reflexivity.
  - rewrite (splitSpace_spaceless scheme Hs). reflexivity.
  - change (scheme +:+ String (Ascii.ascii_of_nat 32) ""
            +:+ String (Ascii.ascii_of_nat 32) "" +:+ token)
      with (scheme +:+ String (Ascii.ascii_of_nat 32)
              (String (Ascii.ascii_of_nat 32) token)).
    rewrite (splitSpace_spaceless_prefix scheme _ Hs). reflexivity.
Qed.

Lemma bearerToken_is_second_piece_witness :
  bearerToken (Some "Bearer abc.def.ghi") = Some "abc.def.ghi"
  /\ bearerToken (Some "abc.def.ghi") = None.
Proof.
  destruct (bearerToken_is_second_piece "Bearer" "abc.def.ghi" "" eq_refl eq_refl)
    as (H1 & _ & _ & _).
  destruct (bearerToken_is_second_piece "abc.def.ghi" "" "" eq_refl eq_refl)
    as (_ & _ & H3 & _).
  split; [exact H1 | exact H3].
Defined.

(** ** The subscription routes of routes/subscriptions.js *)

Section BillingProperties.

Variable env : string -> option string.
Variable customers_create : string -> string -> string -> JsError + Subscriptions.StripeCustomer.
Variable sessions_create : string -> option string -> string -> string -> JsError + Billing.CreatedSession.
Variable sessions_retrieve : string -> JsError + Billing.RetrievedSession.
Variable subscriptions_update : string -> bool -> JsError + unit.

Lemma planLimit_values (u : User) :
  Billing.planLimit env u ∈ [10; 100; 500; 2000]
  /\ (subscriptionPlan u ∉ ["basic"; "premium"; "enterprise"] ->
      Billing.planLimit env u = 10).
Proof.
  unfold Billing.planLimit, property, Billing.PLANS. cbn [List.find fst].
  destruct (String.eqb_spec "basic" (subscriptionPlan u)) as [Hb|_].
  { cbn. split; [apply list_elem_of_In; cbn; tauto|].
    intros Hnot. exfalso. apply Hnot. rewrite <- Hb. apply list_elem_of_In. cbn. tauto. }
  destruct (String.eqb_spec "premium" (subscriptionPlan u)) as [Hp|_].
  { cbn. split; [apply list_elem_of_In; cbn; tauto|].
    intros Hnot. exfalso. apply Hnot. rewrite <- Hp. apply list_elem_of_In. cbn. tauto. }
  destruct (String.eqb_spec "enterprise" (subscriptionPlan u)) as [He|_].
  { cbn. split; [apply list_elem_of_In; cbn; tauto|].
    intros Hnot. exfalso. apply Hnot. rewrite <- He. apply list_elem_of_In. cbn. tauto. }
  cbn. split; [apply list_elem_of_In; cbn; tauto | reflexivity].
Qed.

(** X21. GET /status never reports an unlimited plan: the limit it shows is
    the [requests] of the user's entry of [PLANS] (100, 500 or 2000) and 10
    for the free plan and for every plan name missing from the table, so the
    remaining count is the difference between the limit and the period's
    count floored at 0, never the sentinel -1. The route only reads: tables
    and provider log are as before, under every fault schedule. *)
Theorem status_limit_is_never_unlimited
  (userId : string) (user : User) (c : Clock) (s : World * list Billing.ProviderCall) :
  let r := Billing.getStatus env userId user c s in
  db (fst (snd r)) = db (fst s)
  /\ snd (snd r) = snd s
  /\ (faults (fst s) = [] ->
      exists current limit remaining,
        fst r = inr (Billing.respond 200
                  (Billing.StatusBody (subscriptionPlan user) (subscriptionStatus user)
                     (Subscriptions.isActive_status user c) (subscriptionExpiresAt user)
                     current limit remaining
                     (stripeCustomerId user) (stripeSubscriptionId user)))
        /\ current = orZero (usage (db (fst s)) !! (userId, month c, year c))
        /\ limit ∈ [10; 100; 500; 2000]
        /\ (subscriptionPlan user ∉ ["basic"; "premium"; "enterprise"] -> limit = 10)
        /\ remaining = Z.max 0 (limit - current)
        /\ 0 <= remaining).
Proof.
  cbv zeta. destruct s as [w log].
  unfold Billing.getStatus, Billing.tryCatchB, mbind, Billing.B_bind, Billing.store,
    Prisma.usage_findUnique, Prisma.call.
  cbn [fst snd].
  destruct (planLimit_values user) as [Hin Hfree].
  destruct (faults w) as [|[msg|] rest] eqn:Hf; cbn;
    (split; [reflexivity|]; split; [reflexivity|]); intros Hnone; try discriminate.
  do 3 eexists. split; [reflexivity|]. split; [reflexivity|].
  split; [exact Hin|]. split; [exact Hfree|].
  assert (Hne : (Billing.planLimit env user =? -1) = false).
  { apply Z.eqb_neq. intros Heq. rewrite Heq in Hin.
    apply list_elem_of_In in Hin. cbn in Hin.
    destruct Hin as [H|[H|[H|[H|[]]]]]; discriminate. }
  rewrite Hne. split; [reflexivity | apply Z.le_max_l].
Qed.

(** X22. POST /cancel for a stored user with a subscription: the provider
    is asked once to cancel that subscription at period end, before the
    store is written. When the provider accepts and the store answers, the
    reply is 200 and the user's row is replaced by one whose status is
    cancelled and whose every other column is as before: email, names,
    active flag, plan, expiry, monthly limit, provider customer id and
    subscription id stay, so the user keeps access until the period ends.
    The other rows, the usage counters and the audit log are as before.
    When the provider refuses, the reply is 500 and the tables are as
    before. *)
Theorem cancel_marks_cancelled_keeps_access
  (userId : string) (user : User) (sid : string)
  (w : World) (log : list Billing.ProviderCall) :
  users (db w) !! userId = Some user ->
  stripeSubscriptionId user = Some sid ->
  sid <> "" ->
  let r := Billing.cancel subscriptions_update userId user (w, log) in
  snd (snd r) = (log ++ [Billing.SubscriptionsUpdate sid true])%list
  /\ (forall e, subscriptions_update sid true = inl e ->
        fst r = inr (Billing.respond 500 (Billing.Failure "Eroare la anularea abonamentului"))
        /\ db (fst (snd r)) = db w)
  /\ (subscriptions_update sid true = inr tt -> faults w = [] ->
        fst r = inr (Billing.respond 200
                  (Billing.Message
                     "Abonamentul va fi anulat la sfârșitul perioadei de facturare"
                     "cancelled"))
        /\ (exists row,
              users (db (fst (snd r))) = <[userId := row]> (users (db w))
              /\ subscriptionStatus row = "cancelled"
              /\ email row = email user
              /\ name row = name user
              /\ businessName row = businessName user
              /\ isActive row = isActive user
              /\ subscriptionPlan row = subscriptionPlan user
              /\ subscriptionExpiresAt row = subscriptionExpiresAt user
              /\ monthlyLimit row = monthlyLimit user
              /\ stripeCustomerId row = stripeCustomerId user
              /\ stripeSubscriptionId row = Some sid)
        /\ usage (db (fst (snd r))) = usage (db w)
        /\ apiCalls (db (fst (snd r))) = apiCalls (db w)).
Proof.
  intros Hu Hsid Hne r. subst r.
  unfold Billing.cancel, Billing.tryCatchB, mbind, Billing.B_bind, Billing.provider,
    Billing.store, Prisma.user_update, Prisma.call.
  rewrite Hsid, (truthy_token sid Hne). cbn [negb default from_option id fst snd].
  split; [destruct (subscriptions_update sid true) as [e|[]]; cbn [fst snd];
          [reflexivity|];
          destruct (faults w) as [|[msg|] rest]; cbn; rewrite ?Hu; reflexivity|].
  split.
  - intros e ->. split; reflexivity.
  - intros -> Hf. rewrite Hf. cbn [fst snd db]. rewrite Hu. cbn.
    split; [reflexivity|]. split; [| split; reflexivity].
    eexists. split; [reflexivity|]. cbn. rewrite Hsid.
    repeat split; reflexivity.
Qed.

End BillingProperties.

Section BillingRoutes.

Variable jwt_verify : string -> string -> JsError + string.
Variable JWT_SECRET : string.
Variable env : string -> option string.
Variable customers_create : string -> string -> string -> JsError + Subscriptions.StripeCustomer.
Variable sessions_create : string -> option string -> string -> string -> JsError + Billing.CreatedSession.
Variable sessions_retrieve : string -> JsError + Billing.RetrievedSession.
Variable subscriptions_update : string -> bool -> JsError + unit.

Lemma billing_authenticateToken_resolved
  (authorization : option string) (w : World) (log : list Billing.ProviderCall)
  (token uid : string) (u : User) :
  bearerToken authorization = Some token ->
  token <> "" ->
  jwt_verify token JWT_SECRET = inr uid ->
  users (db w) !! uid = Some u ->
  faults w = [] ->
  Billing.authenticateToken jwt_verify JWT_SECRET authorization (w, log)
  = (inr (inr (uid, u)),
     ({| db := db w; faults := []; trace := trace w ++ [UserFindUnique uid] |}, log)).
Proof.
  intros Htok Hne Hver Hu Hf.
  unfold Billing.authenticateToken, Billing.tryCatchB, mbind, Billing.B_bind,
    Billing.liftResultB, Billing.store, Prisma.user_findUnique.
  rewrite Htok, (truthy_token token Hne). cbn [negb default from_option id].
  rewrite Hver. cbn [fst snd]. rewrite (call_no_fault _ _ w Hf). cbn [fst snd].
  rewrite Hu. reflexivity.
Qed.

(** X23. POST /cancel followed by POST /reactivate, by the same stored
    user with a subscription, the provider accepting both and the store
    answering: the provider was asked to set cancel-at-period-end and then
    to clear it, in that order, and the user's row ends with status active
    and every other column as before the two requests; a user whose status
    was active is back to the row they started with. *)
Theorem cancel_then_reactivate_restores
  (authorization : option string) (w : World) (log : list Billing.ProviderCall)
  (token uid : string) (u : User) (sid : string) :
  bearerToken authorization = Some token ->
  token <> "" ->
  jwt_verify token JWT_SECRET = inr uid ->
  users (db w) !! uid = Some u ->
  faults w = [] ->
  stripeSubscriptionId u = Some sid ->
  sid <> "" ->
  subscriptions_update sid true = inr tt ->
  subscriptions_update sid false = inr tt ->
  let route handler :=
    Billing.behindAuth jwt_verify JWT_SECRET authorization handler in
  let cancelled := route (Billing.cancel subscriptions_update) (w, log) in
  let reactivated := route (Billing.reactivate subscriptions_update) (snd cancelled) in
  fst reactivated
    = inr (Billing.respond 200
             (Billing.Message "Abonamentul a fost reactivat cu succes" "active"))
  /\ snd (snd reactivated)
     = (log ++ [Billing.SubscriptionsUpdate sid true;
                Billing.SubscriptionsUpdate sid false])%list
  /\ users (db (fst (snd reactivated)))
     = <[uid := Billing.statusOnly "active" u]> (users (db w))
  /\ (subscriptionStatus u = "active" -> db (fst (snd reactivated)) = db w).
Proof.
  intros Htok Hne Hver Hu Hf Hsid Hsne Hcancel Hreact. cbv zeta.
  set (u1 := Billing.statusOnly "cancelled" u).
  assert (Hc : exists t,
             Billing.behindAuth jwt_verify JWT_SECRET authorization
               (Billing.cancel subscriptions_update) (w, log)
             = (inr (Billing.respond 200
                       (Billing.Message
                          "Abonamentul va fi anulat la sfârșitul perioadei de facturare"
                          "cancelled")),
                ({| db := Prisma.setUsers (<[uid := u1]> (users (db w))) (db w);
                    faults := []; trace := t |},
                 (log ++ [Billing.SubscriptionsUpdate sid true])%list))).
  { unfold Billing.behindAuth. unfold mbind at 1. unfold Billing.B_bind at 1.
    rewrite (billing_authenticateToken_resolved authorization w log token uid u
               Htok Hne Hver Hu Hf).
    unfold Billing.cancel, Billing.tryCatchB, mbind, Billing.B_bind, Billing.provider,
      Billing.store, Prisma.user_update, Prisma.call.
    rewrite Hsid, (truthy_token sid Hsne). cbn [negb default from_option id fst snd].
    rewrite Hcancel. cbn [fst snd faults db]. rewrite Hu. eexists. reflexivity. }
  destruct Hc as [t Hc]. rewrite Hc. cbn [snd]. clear Hc.
  set (w2 := {| db := Prisma.setUsers _ _; faults := []; trace := t |}).
  assert (Hu1 : users (db w2) !! uid = Some u1) by apply lookup_insert_eq.
  assert (Hr : exists t',
             Billing.behindAuth jwt_verify JWT_SECRET authorization
               (Billing.reactivate subscriptions_update)
               (w2, (log ++ [Billing.SubscriptionsUpdate sid true])%list)
             = (inr (Billing.respond 200
                       (Billing.Message "Abonamentul a fost reactivat cu succes" "active")),
                ({| db := Prisma.setUsers
                            (<[uid := Billing.statusOnly "active" u1]> (users (db w2)))
                            (db w2);
                    faults := []; trace := t' |},
                 ((log ++ [Billing.SubscriptionsUpdate sid true])
                  ++ [Billing.SubscriptionsUpdate sid false])%list))).
  { unfold Billing.behindAuth. unfold mbind at 1. unfold Billing.B_bind at 1.
    rewrite (billing_authenticateToken_resolved authorization w2 _ token uid u1
               Htok Hne Hver Hu1 eq_refl).
    unfold Billing.reactivate, Billing.tryCatchB, mbind, Billing.B_bind, Billing.provider,
      Billing.store, Prisma.user_update, Prisma.call.
    assert (Hsid1 : stripeSubscriptionId u1 = Some sid) by exact Hsid.
    rewrite Hsid1, (truthy_token sid Hsne). cbn [negb default from_option id fst snd].
    rewrite Hreact. cbn [fst snd faults db]. rewrite Hu1. eexists. reflexivity. }
  destruct Hr as [t' Hr]. rewrite Hr. clear Hr.
  cbn [fst snd db users Prisma.setUsers w2].
  split; [reflexivity|]. split; [rewrite <- app_assoc; reflexivity|].
  assert (Hrow : Billing.statusOnly "active" u1 = Billing.statusOnly "active" u)
    by reflexivity.
  rewrite Hrow, insert_insert_eq. split; [reflexivity|].
  intros Hactive.
  assert (Hsame : Billing.statusOnly "active" u = u)
    by (destruct u; cbn in *; rewrite Hactive; reflexivity).
  rewrite Hsame, (insert_id _ _ _ Hu). destruct (db w); reflexivity.
Qed.

(** X24. POST /create-checkout-session with no plan id, or with one for
    which [PLANS[planId]] is undefined (the id is no entry of [PLANS], the
    free plan among them, nor the name of a member [PLANS] inherits from
    [Object.prototype]), answers 400 without calling the provider or the
    store. *)
Theorem checkout_of_unknown_plan_does_nothing
  (userId : string) (user : User) (planId : option string)
  (s : World * list Billing.ProviderCall) :
  (forall p, planId = Some p -> member (Billing.PLANS env) p = Undefined) ->
  Billing.createCheckoutSession env customers_create sessions_create userId user planId s
  = (inr (Billing.respond 400 (Billing.Failure "Plan invalid")), s).
Proof.
  intros Hplan.
  unfold Billing.createCheckoutSession, Billing.tryCatchB.
  destruct planId as [p|]; [rewrite (Hplan p eq_refl) |]; reflexivity.
Qed.

(** X25. POST /create-checkout-session for a plan of [PLANS] creates a
    provider customer only for a user who has none. A user with a stored
    customer id gets a session for that id and the plan's price, and no row
    is written. For a user without one, a customer is created from the
    user's email, name and id and its id is stored on the user's row before
    the session is created, so it stays stored also when the creation of the
    session then fails. *)
Theorem checkout_creates_customer_once
  (userId : string) (user : User) (p : string) (plan : Billing.Plan)
  (w : World) (log : list Billing.ProviderCall) :
  property (Billing.PLANS env) p = Some plan ->
  let r := Billing.createCheckoutSession env customers_create sessions_create
             userId user (Some p) (w, log) in
  (forall cid, stripeCustomerId user = Some cid -> cid <> "" ->
     snd (snd r) = (log ++ [Billing.SessionsCreate cid (Some (Billing.stripePriceId plan))
                              userId p])%list
     /\ fst (snd r) = w
     /\ (forall session,
           sessions_create cid (Some (Billing.stripePriceId plan)) userId p = inr session ->
           fst r = inr (Billing.respond 200
                          (Billing.CheckoutCreated (Billing.session_url session)
                             (Billing.session_id session)))))
  /\ (forall customer,
        truthy (stripeCustomerId user) = false ->
        customers_create (email user) (name user) userId = inr customer ->
        users (db w) !! userId = Some user ->
        faults w = [] ->
        let cid := Subscriptions.customer_id customer in
        snd (snd r) = (log ++ [Billing.CustomersCreate (email user) (name user) userId;
                               Billing.SessionsCreate cid (Some (Billing.stripePriceId plan))
                                 userId p])%list
        /\ users (db (fst (snd r))) = <[userId := Billing.customerData cid user]> (users (db w))
        /\ (forall e,
              sessions_create cid (Some (Billing.stripePriceId plan)) userId p = inl e ->
              fst r = inr (Billing.respond 500
                             (Billing.Failure "Eroare la crearea sesiunii de plată")))).
Proof.
  intros Hplan r. subst r.
  unfold Billing.createCheckoutSession, Billing.tryCatchB.
  unfold member. rewrite Hplan.
  unfold mbind, Billing.B_bind, Billing.provider, Billing.store, Prisma.user_update,
    Prisma.call.
  split.
  - intros cid Hcid Hne. rewrite Hcid, (truthy_token cid Hne).
    cbn [negb default from_option id fst snd mret Billing.B_ret].
    destruct (sessions_create cid _ userId p) as [e|session] eqn:Hs; cbn [fst snd].
    + split; [reflexivity|]. split; [reflexivity|]. intros session Hs'. discriminate.
    + split; [reflexivity|]. split; [reflexivity|]. intros session' [= <-]. reflexivity.
  - intros customer Hnone Hcreate Hu Hf. rewrite Hnone.
    cbn [negb fst snd]. rewrite Hcreate. cbn [fst snd]. rewrite Hf. cbn [fst snd db].
    rewrite Hu. cbn [fst snd mret Billing.B_ret default from_option id tail].
    destruct (sessions_create _ _ userId p) as [e|session] eqn:Hs; cbn [fst snd db users].
    + split; [rewrite <- app_assoc; reflexivity|]. split; [reflexivity|].
      intros e' _. reflexivity.
    + split; [rewrite <- app_assoc; reflexivity|]. split; [reflexivity|].
      intros e' He'. discriminate.
Qed.

(** X26. GET /checkout-session/:sessionId shows a session only to the user
    named in its metadata: for any other user, and for a session whose
    metadata names no user, the reply is 403 and carries nothing of the
    session. The route retrieves the session once and never writes the
    store. *)
Theorem checkout_session_is_owner_only
  (userId sessionId : string) (s : World * list Billing.ProviderCall) :
  let r := Billing.checkoutSession sessions_retrieve userId sessionId s in
  fst (snd r) = fst s
  /\ snd (snd r) = (snd s ++ [Billing.SessionsRetrieve sessionId])%list
  /\ (forall session,
        sessions_retrieve sessionId = inr session ->
        (Billing.retrieved_userId session <> Some userId ->
         fst r = inr (Billing.respond 403 (Billing.Failure "Acces interzis")))
        /\ (Billing.retrieved_userId session = Some userId ->
            fst r = inr (Billing.respond 200
                           (Billing.SessionStatus (Billing.payment_status session)
                              (Billing.customer_email session)
                              (Billing.amount_total session))))).
Proof.
  cbv zeta. unfold Billing.checkoutSession, Billing.tryCatchB, mbind, Billing.B_bind,
    Billing.provider.
  destruct (sessions_retrieve sessionId) as [e|session]; cbn [fst snd].
  - split; [reflexivity|]. split; [reflexivity|]. intros session Hs. discriminate.
  - destruct (bool_decide (Billing.retrieved_userId session = Some userId)) eqn:Hown;
      cbn [negb fst snd mret Billing.B_ret];
      (split; [reflexivity|]; split; [reflexivity|]); intros session' [= <-].
    + apply bool_decide_eq_true in Hown. split; [intros H; contradiction | reflexivity].
    + apply bool_decide_eq_false in Hown. split; [reflexivity | intros H; contradiction].
Qed.

End BillingRoutes.

Lemma cancel_marks_cancelled_keeps_access_witness :
  let r := Billing.cancel BillingScenario.subscriptions_update "u_bob" Sample.bob
             (Sample.world 3 [], []) in
  fst r = inr (Billing.respond 200
                 (Billing.Message
                    "Abonamentul va fi anulat la sfârșitul perioadei de facturare"
                    "cancelled"))
  /\ snd (snd r) = [Billing.SubscriptionsUpdate "sub_bob" true]
  /\ users (db (fst (snd r))) !! "u_bob"
     = Some {| email := "b@x.com"; name := "Bob"; businessName := Some "Bob's Diner";
               isActive := true;
               subscriptionPlan := "basic"; subscriptionStatus := "cancelled";
               subscriptionExpiresAt := Some 900000;
               monthlyLimit := 100;
               stripeCustomerId := Some "cus_bob";
               stripeSubscriptionId := Some "sub_bob" |}.
Proof.
  cbv zeta.
  destruct (cancel_marks_cancelled_keeps_access BillingScenario.subscriptions_update
              "u_bob" Sample.bob "sub_bob" (Sample.world 3 []) []
              eq_refl eq_refl ltac:(discriminate))
    as (Hlog & _ & Hok).
  destruct (Hok eq_refl eq_refl)
    as (Hresp & (row & Husers & Hst & Hem & Hna & Hbn & Hac & Hpl & Hex & Hml & Hcu & Hsu) & _).
  split; [exact Hresp|]. split; [exact Hlog|].
  rewrite Husers, lookup_insert_eq. f_equal.
  destruct row. cbn in *. subst. reflexivity.
Defined.

Lemma cancel_then_reactivate_restores_witness :
  let route handler :=
    Billing.behindAuth Sample.jwt_verify Sample.secret (Some "Bearer tok_u_bob") handler in
  let cancelled :=
    route (Billing.cancel BillingScenario.subscriptions_update) (Sample.world 3 [], []) in
  let reactivated :=
    route (Billing.reactivate BillingScenario.subscriptions_update) (snd cancelled) in
  subscriptionStatus Sample.bob = "active"
  /\ (subscriptionStatus <$> users (db (fst (snd cancelled))) !! "u_bob") = Some "cancelled"
  /\ snd (snd reactivated)
     = [Billing.SubscriptionsUpdate "sub_bob" true; Billing.SubscriptionsUpdate "sub_bob" false]
  /\ db (fst (snd reactivated)) = Sample.store 3.
Proof.
  cbv zeta. split; [reflexivity|]. split; [reflexivity|].
  destruct (cancel_then_reactivate_restores Sample.jwt_verify Sample.secret
              BillingScenario.subscriptions_update (Some "Bearer tok_u_bob")
              (Sample.world 3 []) [] "tok_u_bob" "u_bob" Sample.bob "sub_bob"
              eq_refl ltac:(discriminate) eq_refl eq_refl eq_refl eq_refl
              ltac:(discriminate) eq_refl eq_refl)
    as (_ & Hlog & _ & Hdb).
  split; [exact Hlog | exact (Hdb eq_refl)].
Defined.

Lemma checkout_of_unknown_plan_does_nothing_witness :
  member (Billing.PLANS BillingScenario.env) "free" = Undefined
  /\ Billing.createCheckoutSession BillingScenario.env BillingScenario.customers_create
       BillingScenario.sessions_create "u_alice" Sample.alice (Some "free")
       (Sample.world 3 [], [])
     = (inr (Billing.respond 400 (Billing.Failure "Plan invalid")), (Sample.world 3 [], [])).
Proof.
  split; [reflexivity|].
  apply checkout_of_unknown_plan_does_nothing.
  intros p Hp. assert (Hfree : p = "free") by congruence. subst p. reflexivity.
Defined.

Lemma checkout_creates_customer_once_witness :
  let run uid user :=
    Billing.createCheckoutSession BillingScenario.env BillingScenario.customers_create
      BillingScenario.sessions_create uid user (Some "basic") (Sample.world 3 [], []) in
  (snd (snd (run "u_bob" Sample.bob))
   = [Billing.SessionsCreate "cus_bob" (Some "price_basic") "u_bob" "basic"]
   /\ fst (snd (run "u_bob" Sample.bob)) = Sample.world 3 [])
  /\ (snd (snd (run "u_alice" Sample.alice))
      = [Billing.CustomersCreate "a@x.com" "Alice" "u_alice";
         Billing.SessionsCreate "cus_u_alice" (Some "price_basic") "u_alice" "basic"]
      /\ (stripeCustomerId <$> users (db (fst (snd (run "u_alice" Sample.alice)))) !! "u_alice")
         = Some (Some "cus_u_alice")).
Proof.
  cbv zeta.
  pose proof (checkout_creates_customer_once BillingScenario.env
                BillingScenario.customers_create BillingScenario.sessions_create) as H.
  split.
  - destruct (proj1 (H "u_bob" Sample.bob "basic" _ (Sample.world 3 []) [] eq_refl)
                "cus_bob" eq_refl ltac:(discriminate)) as (Hlog & Hw & _).
    split; [exact Hlog | exact Hw].
  - destruct (proj2 (H "u_alice" Sample.alice "basic" _ (Sample.world 3 []) [] eq_refl)
                (Subscriptions.mkCustomer "cus_u_alice") eq_refl eq_refl eq_refl eq_refl)
      as (Hlog & Husers & _).
    split; [exact Hlog|]. rewrite Husers, lookup_insert_eq. reflexivity.
Defined.

(** ** The pagination of GET /history *)

Lemma parsedOr_nonzero (parsed : option Z) (d : Z) :
  d <> 0 -> History.parsedOr parsed d <> 0.
Proof.
  intros Hd. unfold History.parsedOr.
  destruct parsed as [n|]; [| exact Hd].
  destruct (Z.eqb_spec n 0); assumption.
Qed.

Lemma ceilDiv_spec (a b : Z) :
  0 < b -> (History.ceilDiv a b - 1) * b < a <= History.ceilDiv a b * b.
Proof.
  intros Hb. unfold History.ceilDiv.
  pose proof (Z.div_mod (- a) b ltac:(lia)) as Hdm.
  pose proof (Z.mod_pos_bound (- a) b Hb) as Hm.
  nia.
Qed.

(** X27. The pagination of GET /history. The page number and the page size
    are never 0 and the page size is at most 50, but a negative page size is
    passed on as it is (the cap is only from above). For a positive page
    size, [totalPages] is the least number of pages that hold [totalCount]
    rows and [hasNext] is true exactly when the page lies before the last
    one. *)
Theorem history_pagination_is_consistent
  (pageParam limitParam : option Z) (count : Z) :
  let p := History.paginate pageParam limitParam count in
  History.page p <> 0
  /\ History.limit p <> 0
  /\ History.limit p <= 50
  /\ (forall l, limitParam = Some l -> l < 0 -> History.limit p = l)
  /\ (0 < History.limit p ->
      (History.totalPages p - 1) * History.limit p < count
        <= History.totalPages p * History.limit p
      /\ (History.hasNext p = true <-> History.page p < History.totalPages p)).
Proof.
  cbv zeta. unfold History.paginate.
  cbn [History.page History.limit History.totalPages History.hasNext].
  pose proof (parsedOr_nonzero pageParam 1 ltac:(lia)) as Hp.
  pose proof (parsedOr_nonzero limitParam 10 ltac:(lia)) as Hl.
  split; [exact Hp|]. split; [lia|]. split; [lia|]. split.
  - intros l -> Hneg. unfold History.parsedOr.
    destruct (Z.eqb_spec l 0); lia.
  - intros Hpos.
    pose proof (ceilDiv_spec count _ Hpos) as Hc.
    split; [exact Hc|].
    rewrite Z.ltb_lt. nia.
Qed.

(** ** Registration (routes/auth.js) *)

Lemma find_email_None (address : string) (us : gmap string User) :
  List.find (fun r => String.eqb (email (snd r)) address) (map_to_list us) = None
  <-> forall i u, us !! i = Some u -> email u <> address.
Proof.
  split.
  - intros Hnone i u Hu Heq.
    apply elem_of_map_to_list, list_elem_of_In in Hu.
    pose proof (List.find_none _ _ Hnone _ Hu) as Hno. cbn in Hno.
    rewrite Heq, String.eqb_refl in Hno. discriminate.
  - intros Hall.
    destruct (List.find _ (map_to_list us)) as [[i u]|] eqn:Hfind; [| reflexivity].
    apply List.find_some in Hfind. destruct Hfind as [Hin Heq]. cbn in Heq.
    apply list_elem_of_In, elem_of_map_to_list in Hin.
    apply String.eqb_eq in Heq. exfalso. exact (Hall i u Hin Heq).
Qed.

Lemma create_account_effect (id : string) (row : User) (k : Z * Z) (w : World) :
  let r := Prisma.transaction
             (user ← Auth.user_create id row;
              _ ← Prisma.usage_create (fst user, fst k, snd k) 0;
              mret user) w in
  (exists e, fst r = inl e /\ db (snd r) = db w)
  \/ (fst r = inr (id, row)
      /\ users (db w) !! id = None
      /\ (forall i u, users (db w) !! i = Some u -> email u <> email row)
      /\ usage (db w) !! (id, fst k, snd k) = None
      /\ users (db (snd r)) = <[id := row]> (users (db w))
      /\ usage (db (snd r)) = <[(id, fst k, snd k) := 0]> (usage (db w))
      /\ apiCalls (db (snd r)) = apiCalls (db w)).
Proof.
  cbv zeta.
  unfold Prisma.transaction, mbind, M_bind, Auth.user_create, Auth.unlogged,
    Prisma.usage_create, Prisma.call.
  destruct (faults w) as [|[m1|] rest] eqn:Hf; cbn [fst snd tail];
    try (left; eexists; split; reflexivity).
  all: destruct (users (db w) !! id) eqn:Hid;
    [cbn; left; eexists; split; reflexivity |].
  all: destruct (List.find _ (map_to_list (users (db w)))) eqn:Hfind;
    [cbn; left; eexists; split; reflexivity |].
  all: pose proof (proj1 (find_email_None (email row) (users (db w))) Hfind) as Hnew.
  all: cbn [fst snd faults db tail Prisma.setUsers users usage].
  2: destruct rest as [|[m2|] rest']; cbn [fst snd tail];
    try (left; eexists; split; reflexivity).
  all: destruct (usage (db w) !! (id, fst k, snd k)) eqn:Hk;
    [cbn; left; eexists; split; reflexivity |].
  all: cbn; right; repeat split; try assumption; reflexivity.
Qed.

Section Registration.

Variable isEmail : string -> bool.
Variable jwt_sign : string -> string -> string -> string -> string.
Variable JWT_SECRET : string.

Local Abbreviation register := (Auth.register isEmail jwt_sign JWT_SECRET).

(** X28. POST /register is all or nothing under every fault schedule. The
    route always answers. A reply other than 201 leaves the tables as they
    were. A 201 is given only for a valid body, an id and an email no stored
    user has, and a period with no usage row for that id; then exactly two
    rows were written together: the user on the free plan (limit 10, active,
    no expiry) and its usage row for the period at 0. The
    token in the reply is signed for that id, email and plan. *)
Theorem register_is_all_or_nothing
  (b : Auth.RegisterBody) (id : string) (c : Clock) (w : World) :
  let r := register b id c w in
  exists resp,
    fst r = inr resp
    /\ ((Auth.status resp <> 201 /\ db (snd r) = db w)
        \/ (resp = Auth.respond 201
                     (Auth.Registered id (Auth.newUser b)
                        (jwt_sign id (Auth.reg_email b) "free" JWT_SECRET) "Free" 10 0)
            /\ Auth.registerValidation isEmail b = true
            /\ users (db w) !! id = None
            /\ (forall i u, users (db w) !! i = Some u -> email u <> Auth.reg_email b)
            /\ usage (db w) !! (id, month c, year c) = None
            /\ users (db (snd r)) = <[id := Auth.newUser b]> (users (db w))
            /\ usage (db (snd r)) = <[(id, month c, year c) := 0]> (usage (db w))
            /\ apiCalls (db (snd r)) = apiCalls (db w)
            /\ subscriptionPlan (Auth.newUser b) = "free"
            /\ monthlyLimit (Auth.newUser b) = 10
            /\ isActive (Auth.newUser b) = true
            /\ subscriptionExpiresAt (Auth.newUser b) = None)).
Proof.
  cbv zeta. unfold Auth.register, tryCatch.
  destruct (Auth.registerValidation isEmail b) eqn:Hvalid; cbn [negb];
    [| eexists; split; [reflexivity|]; left; split; [discriminate | reflexivity]].
  assert (Hstep : forall w1, db w1 = db w ->
    let r := Prisma.transaction
               (user ← Auth.user_create id (Auth.newUser b);
                _ ← Prisma.usage_create (fst user, month c, year c) 0;
                mret user) w1 in
    (exists e, fst r = inl e /\ db (snd r) = db w)
    \/ (fst r = inr (id, Auth.newUser b)
        /\ users (db w) !! id = None
        /\ (forall i u, users (db w) !! i = Some u -> email u <> Auth.reg_email b)
        /\ usage (db w) !! (id, month c, year c) = None
        /\ users (db (snd r)) = <[id := Auth.newUser b]> (users (db w))
        /\ usage (db (snd r)) = <[(id, month c, year c) := 0]> (usage (db w))
        /\ apiCalls (db (snd r)) = apiCalls (db w))).
  { intros w1 Hw1.
    pose proof (create_account_effect id (Auth.newUser b) (month c, year c) w1) as H.
    cbn [fst snd] in H. rewrite Hw1 in H. exact H. }
  unfold mbind, M_bind, Auth.user_findByEmail, Auth.unlogged in Hstep |- *.
  destruct (faults w) as [|[msg|] rest] eqn:Hf; cbn [fst snd tail];
    try (destruct (bool_decide _); eexists; (split; [reflexivity|]);
         left; split; solve [discriminate | reflexivity]).
  all: destruct (List.find _ (map_to_list (users (db w)))) as [existing|] eqn:Hfind;
    [cbn; eexists; split; [reflexivity|]; left; split; [discriminate | reflexivity] |].
  all: match goal with
       | |- context [Prisma.transaction ?m ?w1] =>
           destruct (Hstep w1 eq_refl) as [(e & He & Hdb) | (Hr & Hrest)];
           destruct (Prisma.transaction m w1) as [[e'|created] w2]; cbn [fst snd] in *;
           try discriminate
       end.
  all: try (destruct (bool_decide _); eexists; (split; [reflexivity|]);
            left; split; solve [discriminate | assumption]).
  all: injection Hr as ->; cbn [fst snd mret M_ret];
    eexists; (split; [reflexivity|]); right;
    destruct Hrest as (H1 & H2 & H3 & H4 & H5 & H6);
    repeat split; assumption || reflexivity.
Qed.

End Registration.

Lemma bearer_header (token : string) :
  spaceless token = true -> bearerToken (Some ("Bearer " +:+ token)) = Some token.
Proof.
  intros Ht. unfold bearerToken.
  change ("Bearer " +:+ token) with ("Bearer" +:+ String (Ascii.ascii_of_nat 32) token).
  rewrite (splitSpace_spaceless_prefix "Bearer" token eq_refl),
    (splitSpace_spaceless token Ht).
  reflexivity.
Qed.

Section FirstUse.

Variable isEmail : string -> bool.
Variable jwt_sign : string -> string -> string -> string -> string.
Variable jwt_verify : string -> string -> JsError + string.
Variable JWT_SECRET : string.

Lemma register_commits (b : Auth.RegisterBody) (id : string) (c : Clock) (w : World) :
  Auth.registerValidation isEmail b = true ->
  users (db w) !! id = None ->
  (forall i u, users (db w) !! i = Some u -> email u <> Auth.reg_email b) ->
  usage (db w) !! (id, month c, year c) = None ->
  faults w = [] ->
  Auth.register isEmail jwt_sign JWT_SECRET b id c w
  = (inr (Auth.respond 201
            (Auth.Registered id (Auth.newUser b)
               (jwt_sign id (Auth.reg_email b) "free" JWT_SECRET) "Free" 10 0)),
     {| db := {| users := <[id := Auth.newUser b]> (users (db w));
                 usage := <[(id, month c, year c) := 0]> (usage (db w));
                 apiCalls := apiCalls (db w) |};
        faults := [];
        trace := trace w ++ [UsageCreate (id, month c, year c)] |}).
Proof.
  intros Hvalid Hid Hemail Hk Hf.
  apply find_email_None in Hemail.
  unfold Auth.register, tryCatch. rewrite Hvalid. cbn [negb].
  unfold mbind, M_bind, Auth.user_findByEmail, Prisma.transaction, Auth.user_create,
    Auth.unlogged, Prisma.usage_create, Prisma.call.
  rewrite Hf. cbn [fst snd tail faults db]. rewrite Hemail.
  cbn [fst snd tail faults db]. rewrite Hid.
  change (email (Auth.newUser b)) with (Auth.reg_email b). rewrite Hemail.
  cbn [fst snd tail faults db Prisma.setUsers users usage]. rewrite Hk.
  reflexivity.
Qed.

(** X29. A new account can generate at once. After a registration that the
    store carries out (valid body, unused id and email, no usage row for the
    period), a generation request in the same period that presents the
    token of the 201 reply as [Bearer <token>], with a valid body, is
    answered 200 with a usage block of current 1, limit 10 and remaining 9,
    and the period's counter of the new user stands at 1. *)
Theorem register_then_first_generation
  (b : Auth.RegisterBody) (id token : string) (c : Clock) (w : World)
  (body : Reviews.GenerateBody) (c0 c1 : Clock) (startTime : Z)
  (outcome : JsError + Completion) :
  Auth.registerValidation isEmail b = true ->
  users (db w) !! id = None ->
  (forall i u, users (db w) !! i = Some u -> email u <> Auth.reg_email b) ->
  usage (db w) !! (id, month c, year c) = None ->
  faults w = [] ->
  jwt_sign id (Auth.reg_email b) "free" JWT_SECRET = token ->
  token <> "" ->
  spaceless token = true ->
  jwt_verify token JWT_SECRET = inr id ->
  Reviews.generateValidation body = true ->
  month c0 = month c -> year c0 = year c ->
  month c1 = month c -> year c1 = year c ->
  let r1 := Auth.register isEmail jwt_sign JWT_SECRET b id c w in
  let req := Reviews.mkRequest (Some ("Bearer " +:+ token)) body in
  let r2 := Reviews.postGenerate jwt_verify JWT_SECRET req c0 startTime c1 outcome (snd r1) in
  fst r1 = inr (Auth.respond 201 (Auth.Registered id (Auth.newUser b) token "Free" 10 0))
  /\ (exists text tokens cost duration lang,
        fst r2 = inr (Reviews.respond 200
                        (Reviews.Generated text tokens cost duration lang
                           (Reviews.tone body) 1 10 9)))
  /\ usage (db (snd r2)) !! (id, month c, year c) = Some 1
  /\ users (db (snd r2)) !! id = Some (Auth.newUser b).
Proof.
  intros Hvalid Hid Hemail Hk Hf Hsign Hne Hspaceless Hver Hbody Hm0 Hy0 Hm1 Hy1.
  cbv zeta.
  rewrite (register_commits b id c w Hvalid Hid Hemail Hk Hf), Hsign.
  cbn [fst snd]. split; [reflexivity|].
  set (w1 := {| db := _; faults := []; trace := _ |}).
  assert (Hu : users (db w1) !! id = Some (Auth.newUser b))
    by (subst w1; cbn [db users]; apply lookup_insert_eq).
  pose proof (authenticateAndCheckUsage_resolved jwt_verify JWT_SECRET
                (Reviews.mkRequest (Some ("Bearer " +:+ token)) body) c0 w1 token id
                (Auth.newUser b) (bearer_header token Hspaceless) Hne Hver Hu eq_refl) as Hgate.
  assert (Hcount : usage (db w1) !! (id, month c0, year c0) = Some 0)
    by (subst w1; cbn [db usage]; rewrite Hm0, Hy0; apply lookup_insert_eq).
  rewrite Hcount in Hgate. cbn in Hgate.
  unfold Reviews.postGenerate, mbind, M_bind. rewrite Hgate.
  cbn [fst snd Reviews.body].
  match goal with
  | |- context [Reviews.generate _ _ _ _ _ ?w'] => set (w2 := w')
  end.
  destruct (generate_commits (Reviews.mkSession id (Auth.newUser b) 0) body
              startTime c1 outcome w2 Hbody eq_refl)
    as (row & Hresp & (Husers & Husage & _) & _).
  cbn [Reviews.user_id Reviews.user] in Hresp, Husage.
  rewrite Hm1, Hy1 in Hresp, Husage.
  assert (Hup : upserted (db w2) (id, month c, year c) = 1).
  { unfold upserted. subst w2. cbn [db usage]. rewrite lookup_insert_eq. reflexivity. }
  rewrite Hup in Hresp, Husage. cbn in Hresp.
  split; [do 5 eexists; exact Hresp|].
  split.
  - rewrite Husage. apply lookup_insert_eq.
  - rewrite Husers. subst w2. cbn [db users]. apply lookup_insert_eq.
Qed.

End FirstUse.

Lemma register_then_first_generation_witness :
  let r1 := Auth.register AuthScenario.isEmail AuthScenario.jwt_sign Sample.secret
              AuthScenario.frank "u_frank" Sample.may (Sample.world 3 []) in
  let r2 := Reviews.postGenerate Sample.jwt_verify Sample.secret
              (Sample.request "tok_u_frank") Sample.may 1000 Sample.may_later
              (inr Sample.completion) (snd r1) in
  fst r1 = inr (Auth.respond 201
                  (Auth.Registered "u_frank" (Auth.newUser AuthScenario.frank)
                     "tok_u_frank" "Free" 10 0))
  /\ usage (db (snd r2)) !! ("u_frank", 4, 2025) = Some 1.
Proof.
  cbv zeta.
  assert (Hemail : forall i u, users (db (Sample.world 3 [])) !! i = Some u ->
                     email u <> Auth.reg_email AuthScenario.frank).
  { apply find_email_None. vm_compute. reflexivity. }
  pose proof (register_then_first_generation AuthScenario.isEmail AuthScenario.jwt_sign
                Sample.jwt_verify Sample.secret AuthScenario.frank "u_frank" "tok_u_frank"
                Sample.may (Sample.world 3 []) (Reviews.body (Sample.request "tok_u_frank"))
                Sample.may Sample.may_later 1000 (inr Sample.completion)
                ltac:(vm_compute; reflexivity) ltac:(vm_compute; reflexivity) Hemail
                ltac:(vm_compute; reflexivity) eq_refl ltac:(vm_compute; reflexivity)
                ltac:(discriminate) ltac:(vm_compute; reflexivity)
                ltac:(vm_compute; reflexivity) ltac:(vm_compute; reflexivity)
                eq_refl eq_refl eq_refl eq_refl) as H.
  cbv zeta in H. destruct H as (H1 & _ & H2 & _).
  split; [exact H1 | exact H2].
Defined.

(** ** The plan check of POST /create-checkout-session *)

Section PlanCheck.

Variable env : string -> option string.
Variable customers_create : string -> string -> string -> JsError + Subscriptions.StripeCustomer.
Variable sessions_create : string -> option string -> string -> string -> JsError + Billing.CreatedSession.

Lemma PLANS_inherited (p : string) :
  p ∈ objectPrototype -> member (Billing.PLANS env) p = Inherited p.
Proof.
  intros Hp. apply list_elem_of_In in Hp. cbn in Hp.
  repeat (destruct Hp as [<-|Hp]; [reflexivity |]). contradiction.
Qed.

(** X30. The plan check of POST /create-checkout-session lets through the
    names [PLANS] inherits from [Object.prototype] (constructor, toString,
    __proto__ and the like): for such a plan id the route does not answer
    the 400 of an invalid plan. For a user with a stored customer id the
    provider is asked for a session for that id with no price and the plan
    id in the metadata, nothing is written, and the reply is 200 or 500 as
    the provider accepts or refuses. For a user without one, a provider
    customer is created and its id stored on the user's row first, as for a
    plan of the table. *)
Theorem checkout_plan_check_passes_inherited_names
  (userId : string) (user : User) (p : string)
  (w : World) (log : list Billing.ProviderCall) :
  p ∈ objectPrototype ->
  let r := Billing.createCheckoutSession env customers_create sessions_create
             userId user (Some p) (w, log) in
  (forall cid, stripeCustomerId user = Some cid -> cid <> "" ->
     snd (snd r) = (log ++ [Billing.SessionsCreate cid None userId p])%list
     /\ fst (snd r) = w
     /\ (forall session,
           sessions_create cid None userId p = inr session ->
           fst r = inr (Billing.respond 200
                          (Billing.CheckoutCreated (Billing.session_url session)
                             (Billing.session_id session))))
     /\ (forall e,
           sessions_create cid None userId p = inl e ->
           fst r = inr (Billing.respond 500
                          (Billing.Failure "Eroare la crearea sesiunii de plată"))))
  /\ (forall customer,
        truthy (stripeCustomerId user) = false ->
        customers_create (email user) (name user) userId = inr customer ->
        users (db w) !! userId = Some user ->
        faults w = [] ->
        let cid := Subscriptions.customer_id customer in
        snd (snd r) = (log ++ [Billing.CustomersCreate (email user) (name user) userId;
                               Billing.SessionsCreate cid None userId p])%list
        /\ (stripeCustomerId <$> users (db (fst (snd r))) !! userId) = Some (Some cid)).
Proof.
  intros Hp r. subst r.
  unfold Billing.createCheckoutSession, Billing.tryCatchB.
  rewrite (PLANS_inherited p Hp).
  unfold mbind, Billing.B_bind, Billing.provider, Billing.store, Prisma.user_update,
    Prisma.call.
  split.
  - intros cid Hcid Hne. rewrite Hcid, (truthy_token cid Hne).
    cbn [negb default from_option id fst snd mret Billing.B_ret].
    destruct (sessions_create cid None userId p) as [e|session] eqn:Hs; cbn [fst snd].
    + split; [reflexivity|]. split; [reflexivity|].
      split; [intros session Hs'; discriminate | intros e' _; reflexivity].
    + split; [reflexivity|]. split; [reflexivity|].
      split; [intros session' [= <-]; reflexivity | intros e' He'; discriminate].
  - intros customer Hnone Hcreate Hu Hf. rewrite Hnone.
    cbn [negb fst snd]. rewrite Hcreate. cbn [fst snd]. rewrite Hf. cbn [fst snd db].
    rewrite Hu. cbn [fst snd mret Billing.B_ret default from_option id tail].
    destruct (sessions_create _ None userId p) as [e|session] eqn:Hs;
      cbn [fst snd db users];
      cbn [fst snd db users mret Billing.B_ret Prisma.setUsers];
      (split; [rewrite <- app_assoc; reflexivity|]);
      rewrite lookup_insert_eq; reflexivity.
Qed.

End PlanCheck.

Lemma checkout_plan_check_passes_inherited_names_witness :
  let r := Billing.createCheckoutSession BillingScenario.env
             BillingScenario.customers_create BillingScenario.sessions_create
             "u_bob" Sample.bob (Some "constructor") (Sample.world 3 [], []) in
  snd (snd r) = [Billing.SessionsCreate "cus_bob" None "u_bob" "constructor"]
  /\ fst r = inr (Billing.respond 500
                   (Billing.Failure "Eroare la crearea sesiunii de plată")).
Proof.
  cbv zeta.
  destruct (proj1 (checkout_plan_check_passes_inherited_names BillingScenario.env
                     BillingScenario.customers_create BillingScenario.sessions_create
                     "u_bob" Sample.bob "constructor" (Sample.world 3 []) []
                     ltac:(apply list_elem_of_In; cbn; left; reflexivity))
             "cus_bob" eq_refl ltac:(discriminate))
    as (Hlog & _ & _ & Hrefused).
  split; [exact Hlog|].
  apply (Hrefused (mkError (Some "resource_missing") "No such price")). reflexivity.
Defined.
